(** * gopresence: presence store, cache, orchestrator and HTTP interface

    A shallow embedding of the Go packages [internal/models],
    [internal/cache], [internal/nats], [internal/service],
    [internal/config] and [internal/handlers] of the presence service,
    with the properties of its read and write paths, of its construction
    and of its HTTP handlers.

    Conventions.
    - [time.Time] is an instant counted in nanoseconds ([Z]); time zones
      are not represented, so [time.Now().UTC()] is the instant itself.
    - [time.Duration] is a signed 64-bit count of nanoseconds, kept in [Z];
      [Time.Sub] saturates at the 64-bit bounds as the Go runtime does.
    - A Go [error] value is a term of [error]; [nil] is [None].
    - Calls into libraries the repository imports (ristretto, jetstream,
      encoding/json, the wall clock) are parameters of the development. *)

From Stdlib Require Import ZArith String Ascii List Bool Lia.
From stdpp Require Import base option list gmap strings fin_maps.

Local Open Scope Z_scope.

(* ===================================================================== *)
(** ** Time *)
(* ===================================================================== *)

Module time.

Definition Time := Z.
Definition Duration := Z.

Definition Nanosecond : Duration := 1.
Definition Millisecond : Duration := 1000000.
Definition Second : Duration := 1000000000.
Definition Minute : Duration := 60 * Second.
Definition Hour : Duration := 60 * Minute.

Definition minDuration : Duration := - 2 ^ 63.
Definition maxDuration : Duration := 2 ^ 63 - 1.

(** [t.Sub(u)]: the difference, clamped to what a Duration can hold. *)
Definition Sub (t u : Time) : Duration :=
  let d := t - u in
  if d <? minDuration then minDuration
  else if maxDuration <? d then maxDuration
  else d.

(** [time.Since(u)] evaluated when the clock shows [now]. *)
Definition Since (now u : Time) : Duration := Sub now u.

End time.

(* ===================================================================== *)
(** ** Errors *)
(* ===================================================================== *)

(** An error raised inside an imported library.  Only what the repository
    inspects is kept: the text of [Error()] and whether
    [errors.Is(err, jetstream.ErrKeyNotFound)] holds. *)
Record lib_error : Type := LibErr {
  lib_msg : string;
  lib_is_ErrKeyNotFound : bool
}.

(** An operand of a formatting verb other than [%w]. *)
Inductive fmt_arg : Type :=
| FString (s : string)
| FDuration (d : time.Duration).

Inductive error : Type :=
| ErrorsNew (msg : string)
    (* errors.New(msg) *)
| Errorf (format : string) (args : list fmt_arg)
    (* fmt.Errorf(format, args...) without a %w verb *)
| Errorw (format : string) (args : list fmt_arg) (wrapped : error)
    (* fmt.Errorf(format, args...) whose %w operand is [wrapped] *)
| PresenceNotFoundError (user : string)
    (* &service.PresenceNotFoundError{UserID: user} *)
| Lib (e : lib_error).

(** The type assertion of [err] to a pointer to [PresenceNotFoundError]. *)
Definition is_PresenceNotFoundError (e : error) : bool :=
  match e with
  | PresenceNotFoundError _ => true
  | _ => false
  end.

(** [errors.Unwrap]. *)
Definition Unwrap (e : error) : option error :=
  match e with
  | Errorw _ _ w => Some w
  | _ => None
  end.

(** Every formatting operand of an error and of the errors it wraps: what
    its message names. *)
Fixpoint operands (e : error) : list fmt_arg :=
  match e with
  | Errorf _ args => args
  | Errorw _ args w => args ++ operands w
  | _ => []
  end.

(** [strings.Contains(s, sub)]. *)
Fixpoint Contains (s sub : string) : bool :=
  String.prefix sub s ||
  match s with
  | EmptyString => false
  | String _ s' => Contains s' sub
  end.

(* ===================================================================== *)
(** ** The text of an error *)
(* ===================================================================== *)

Module fmt.

Definition digit (n : Z) : ascii := ascii_of_nat (48 + Z.to_nat n).

(** [fmtInt] of package time: the decimal digits of [v], written in
    front of [tail].  Twenty digits hold any 64-bit value. *)
Fixpoint fmtInt_loop (fuel : nat) (v : Z) (tail : string) : string :=
  match fuel with
  | O => tail
  | Datatypes.S fuel =>
      if 0 <? v
      then fmtInt_loop fuel (v / 10) (String (digit (v mod 10)) tail)
      else tail
  end.

Definition fmtInt (v : Z) (tail : string) : string :=
  if v =? 0 then String "0" tail else fmtInt_loop 20 v tail.

(** [fmtFrac] of package time: [v / 10^prec] with the fraction, trailing
    zeros omitted, written in front of [tail]. *)
Fixpoint fmtFrac_loop (prec : nat) (v : Z) (print : bool) (tail : string)
  : string * Z * bool :=
  match prec with
  | O => (tail, v, print)
  | Datatypes.S prec =>
      let d := v mod 10 in
      let print := print || negb (d =? 0) in
      fmtFrac_loop prec (v / 10) print
                   (if print then String (digit d) tail else tail)
  end.

Definition fmtFrac (tail : string) (v : Z) (prec : nat) : string * Z :=
  let '(tail, v, print) := fmtFrac_loop prec v false tail in
  (if print then String "." tail else tail, v).

(** The micro sign, two bytes in UTF-8. *)
Definition micro : string :=
  String (ascii_of_nat 194) (String (ascii_of_nat 181) EmptyString).

(** [Duration.String()]. *)
Definition Duration_String (d : time.Duration) : string :=
  let u := Z.abs d in
  let body :=
    if u <? time.Second then
      if u =? 0 then "0s"%string
      else if u <? 1000 then
        let '(tail, u) := fmtFrac "ns" u 0 in fmtInt u tail
      else if u <? time.Millisecond then
        let '(tail, u) := fmtFrac (micro ++ "s") u 3 in fmtInt u tail
      else
        let '(tail, u) := fmtFrac "ms" u 6 in fmtInt u tail
    else
      let '(tail, u) := fmtFrac "s" u 9 in
      let tail := fmtInt (u mod 60) tail in
      let u := u / 60 in
      if 0 <? u then
        let tail := fmtInt (u mod 60) (String "m" tail) in
        let u := u / 60 in
        if 0 <? u then fmtInt u (String "h" tail) else tail
      else tail
  in
  if d <? 0 then String "-" body else body.

(** The verbs the repository's formats use ([%s], [%v], [%w] and [%d])
    print the next operand; no other verb occurs in them. *)
Definition is_verb (c : ascii) : bool :=
  Ascii.eqb c "s" || Ascii.eqb c "v" || Ascii.eqb c "w" || Ascii.eqb c "d".

(** [fmt.Sprintf] on operands already turned into text. *)
Fixpoint Sprintf (format : string) (operands : list string) : string :=
  match format with
  | EmptyString => EmptyString
  | String c rest =>
      if Ascii.eqb c "%" then
        match rest with
        | EmptyString => "%!(NOVERB)"%string
        | String v rest' =>
            if is_verb v then
              match operands with
              | o :: operands => (o ++ Sprintf rest' operands)%string
              | [] =>
                  ("%!" ++ String v ("(MISSING)" ++ Sprintf rest' []))%string
              end
            else if Ascii.eqb v "%" then String "%" (Sprintf rest' operands)
            else String "%" (String v (Sprintf rest' operands))
        end
      else String c (Sprintf rest operands)
  end.

Definition operand (a : fmt_arg) : string :=
  match a with
  | FString s => s
  | FDuration d => Duration_String d
  end.

End fmt.

Module errors.

(** [err.Error()].  The [%w] verb closes every format that has one, so
    the wrapped error is the last operand. *)
Fixpoint Error (e : error) : string :=
  match e with
  | ErrorsNew msg => msg
  | Errorf format args => fmt.Sprintf format (map fmt.operand args)
  | Errorw format args wrapped =>
      fmt.Sprintf format (map fmt.operand args ++ [Error wrapped])
  | PresenceNotFoundError user =>
      fmt.Sprintf "presence not found for user %s" [user]
  | Lib e => lib_msg e
  end.

End errors.

(* ===================================================================== *)
(** ** package models *)
(* ===================================================================== *)

Module models.

Definition PresenceStatus := string.

Definition StatusOnline : PresenceStatus := "online"%string.
Definition StatusAway : PresenceStatus := "away"%string.
Definition StatusBusy : PresenceStatus := "busy"%string.
Definition StatusOffline : PresenceStatus := "offline"%string.

Definition IsValid (ps : PresenceStatus) : bool :=
  if String.eqb ps StatusOnline then true
  else if String.eqb ps StatusAway then true
  else if String.eqb ps StatusBusy then true
  else if String.eqb ps StatusOffline then true
  else false.

Record Presence : Type := mkPresence {
  UserID : string;
  Status : PresenceStatus;
  Message : string;
  LastSeen : time.Time;
  UpdatedAt : time.Time;
  NodeID : string;
  TTL : time.Duration
}.

(** The zero value [models.Presence{}]. *)
Definition zero : Presence :=
  mkPresence EmptyString EmptyString EmptyString 0 0 EmptyString 0.

Definition Validate (p : Presence) : option error :=
  if String.eqb (UserID p) EmptyString then
    Some (ErrorsNew "user_id is required"%string)
  else if negb (IsValid (Status p)) then
    Some (ErrorsNew "invalid status"%string)
  else if String.eqb (NodeID p) EmptyString then
    Some (ErrorsNew "node_id is required"%string)
  else None.

(** [p.IsExpired()] when the clock shows [now]. *)
Definition IsExpired (now : time.Time) (p : Presence) : bool :=
  if TTL p =? 0 then false
  else TTL p <? time.Since now (UpdatedAt p).

Definition with_TTL (p : Presence) (ttl : time.Duration) : Presence :=
  mkPresence (UserID p) (Status p) (Message p) (LastSeen p)
             (UpdatedAt p) (NodeID p) ttl.

#[global] Instance Presence_eq_dec : EqDecision Presence.
Proof. solve_decision. Defined.

(** The API response format; a nil [Data] is the empty map, an absent
    [Error] the empty string. *)
Record PresenceResponse : Type := mkPresenceResponse {
  Success : bool;
  Data : gmap string Presence;
  Error : string
}.

End models.

Import models.

(* ===================================================================== *)
(** ** encoding/json and context *)
(* ===================================================================== *)

(** A byte slice, as handed to and returned by the JSON codec and the
    key-value bucket. *)
Definition bytes := string.

(** [len(b)] of a byte slice. *)
Definition len (b : bytes) : Z := Z.of_nat (String.length b).

(** [json.Marshal] and [json.Unmarshal] at type [models.Presence]. *)
Class JSON : Type := {
  Marshal : Presence -> bytes + lib_error;
  Unmarshal : bytes -> Presence + lib_error
}.

Module context.
(** What a store operation can observe of its [context.Context]. *)
Inductive Context : Type :=
| Background
| Done (cause : lib_error).
End context.

(* ===================================================================== *)
(** ** net/http *)
(* ===================================================================== *)

Module http.

Definition StatusOK : Z := 200.
Definition StatusNoContent : Z := 204.
Definition StatusBadRequest : Z := 400.
Definition StatusForbidden : Z := 403.
Definition StatusNotFound : Z := 404.
Definition StatusInternalServerError : Z := 500.
Definition StatusServiceUnavailable : Z := 503.

Definition MethodOptions : string := "OPTIONS".

(** What the handlers read of a request: the method, the headers and the
    query parameters (first value of each), the route variables, the body
    and the context. *)
Record Request : Type := mkRequest {
  Method : string;
  Header : gmap string string;
  Query : gmap string string;
  Vars : gmap string string;
  Body : bytes;
  Context : context.Context
}.

(** A lookup in a Go map of strings: the empty string when absent. *)
Definition Get (m : gmap string string) (key : string) : string :=
  default EmptyString (m !! key).

(** A JSON document written to a response. *)
Inductive document : Type :=
| PresenceDocument (r : PresenceResponse)
| StatusDocument (status : string) (error : option string)
                 (ts : option time.Time).

(** A response being written: the status (200 until [WriteHeader] is
    called), whether it has been sent, the headers and the documents
    encoded into the body. *)
Record ResponseWriter : Type := mkResponseWriter {
  Code : Z;
  wroteHeader : bool;
  Headers : gmap string string;
  Written : list document
}.

Definition NewRecorder : ResponseWriter :=
  mkResponseWriter StatusOK false ∅ [].

Definition SetHeader (w : ResponseWriter) (key value : string)
  : ResponseWriter :=
  mkResponseWriter (Code w) (wroteHeader w) (<[key := value]> (Headers w))
                   (Written w).

(** [w.WriteHeader(statusCode)]: only the first call counts. *)
Definition WriteHeader (w : ResponseWriter) (statusCode : Z)
  : ResponseWriter :=
  if wroteHeader w then w
  else mkResponseWriter statusCode true (Headers w) (Written w).

(** [json.NewEncoder(w).Encode(data)]: the first write sends the
    header. *)
Definition Encode (w : ResponseWriter) (data : document) : ResponseWriter :=
  mkResponseWriter (Code w) true (Headers w) (Written w ++ [data]).

End http.

(* ===================================================================== *)
(** ** Integers and strings *)
(* ===================================================================== *)

(** The product of two 64-bit integers, as Go computes it: modulo 2^64,
    read as a signed number. *)
Definition int64 (z : Z) : Z := (z + 2 ^ 63) mod 2 ^ 64 - 2 ^ 63.

(** [strings.TrimSpace], left to the library. *)
Class Strings : Type := {
  TrimSpace : string -> string
}.

(** [strings.Join(elems, sep)]. *)
Fixpoint Join (elems : list string) (sep : string) : string :=
  match elems with
  | [] => EmptyString
  | [e] => e
  | e :: rest => (e ++ sep ++ Join rest sep)%string
  end.

(** [strings.Split(s, sep)] for a separator of one byte. *)
Fixpoint Split (s : string) (sep : ascii) : list string :=
  match s with
  | EmptyString => [EmptyString]
  | String c rest =>
      if Ascii.eqb c sep then EmptyString :: Split rest sep
      else match Split rest sep with
           | first :: others => String c first :: others
           | [] => [String c EmptyString]
           end
  end.

(* ===================================================================== *)
(** ** os and strconv *)
(* ===================================================================== *)

Module os.

(** The environment of the process; [Getenv] gives the empty string for
    a variable that is not set. *)
Definition Environ := gmap string string.

Definition Getenv (env : Environ) (key : string) : string :=
  default EmptyString (env !! key).

End os.

Module strconv.

(** [strconv.ParseBool]: [None] stands for a syntax error. *)
Definition ParseBool (str : string) : option bool :=
  if existsb (String.eqb str) ["1"; "t"; "T"; "TRUE"; "true"; "True"]%string
  then Some true
  else if existsb (String.eqb str)
            ["0"; "f"; "F"; "FALSE"; "false"; "False"]%string
  then Some false
  else None.

Definition digitOf (c : ascii) : option Z :=
  let n := Z.of_nat (nat_of_ascii c) in
  if (48 <=? n) && (n <=? 57) then Some (n - 48) else None.

Fixpoint digits (s : string) (acc : Z) : option Z :=
  match s with
  | EmptyString => Some acc
  | String c rest =>
      match digitOf c with
      | Some d => digits rest (10 * acc + d)
      | None => None
      end
  end.

(** [strconv.ParseInt(s, 10, 64)]: an optional sign and at least one
    decimal digit, the value within 64 bits; [None] stands for a syntax
    or range error. *)
Definition ParseInt (s : string) : option Z :=
  let '(neg, body) :=
    match s with
    | String c rest =>
        if Ascii.eqb c "+" then (false, rest)
        else if Ascii.eqb c "-" then (true, rest)
        else (false, s)
    | EmptyString => (false, s)
    end in
  match body with
  | EmptyString => None
  | _ =>
      match digits body 0 with
      | Some n =>
          let v := if neg : bool then - n else n in
          if (- 2 ^ 63 <=? v) && (v <=? 2 ^ 63 - 1) then Some v else None
      | None => None
      end
  end.

(** [strconv.Atoi], where an [int] has 64 bits. *)
Definition Atoi (s : string) : option Z := ParseInt s.

(** [strconv.Itoa]. *)
Definition Itoa (i : Z) : string :=
  if i <? 0 then String "-" (fmt.fmtInt (Z.abs i) EmptyString)
  else fmt.fmtInt i EmptyString.

End strconv.

(** How a call that may panic ends. *)
Inductive outcome (A : Type) : Type :=
| Returned (a : A)
| Panicked (msg : string).
Arguments Returned {A} _.
Arguments Panicked {A} _.

(* ===================================================================== *)
(** ** package config *)
(* ===================================================================== *)

Module config.

Record ServiceConfig : Type := mkServiceConfig {
  Name : string;
  Version : string;
  Port : Z;
  NodeType : string;
  NodeID : string
}.

Record NATSConfig : Type := mkNATSConfig {
  Embedded : bool;
  ServerURL : string;
  DataDir : string;
  JetStreamMaxMemory : Z;
  JetStreamMaxStore : Z;
  KVBucket : string;
  KVTTL : string;
  CenterURL : string;
  LeafPort : Z;
  ClusterPort : Z
}.

(** [Type_] stands for the field [Type], a reserved word here. *)
Record CacheConfig : Type := mkCacheConfig {
  Type_ : string;
  MaxSize : Z;
  TTL : string;
  MaxCost : Z;
  NumCounters : Z;
  BufferItems : Z;
  Metrics : bool
}.

Record AuthConfig : Type := mkAuthConfig {
  JWTSecret : string;
  JWTIssuer : string;
  JWTTTL : string
}.

Record LoggingConfig : Type := mkLoggingConfig {
  Level : string;
  Format : string
}.

Record Config : Type := mkConfig {
  Service : ServiceConfig;
  NATS : NATSConfig;
  Cache : CacheConfig;
  Auth : AuthConfig;
  Logging : LoggingConfig
}.

Section Load.
Variable env : os.Environ.

Definition getEnvOrDefault (key defaultValue : string) : string :=
  let value := os.Getenv env key in
  if String.eqb value EmptyString then defaultValue else value.

Definition getEnvIntOrDefault (key : string) (defaultValue : Z) : Z :=
  let value := os.Getenv env key in
  if String.eqb value EmptyString then defaultValue
  else match strconv.Atoi value with
       | Some intValue => intValue
       | None => defaultValue
       end.

Definition getEnvInt64OrDefault (key : string) (defaultValue : Z) : Z :=
  let value := os.Getenv env key in
  if String.eqb value EmptyString then defaultValue
  else match strconv.ParseInt value with
       | Some intValue => intValue
       | None => defaultValue
       end.

Definition getEnvBoolOrDefault (key : string) (defaultValue : bool) : bool :=
  let value := os.Getenv env key in
  if String.eqb value EmptyString then defaultValue
  else match strconv.ParseBool value with
       | Some boolValue => boolValue
       | None => defaultValue
       end.

(** [Load]: the configuration, or the error. *)
Definition Load : Config + error :=
  let config :=
    mkConfig
      (mkServiceConfig
         (getEnvOrDefault "SERVICE_NAME" "presence-service")
         (getEnvOrDefault "SERVICE_VERSION" "v2")
         (getEnvIntOrDefault "SERVICE_PORT" 8080)
         (getEnvOrDefault "NODE_TYPE" "center")
         (getEnvOrDefault "NODE_ID" "node-1"))
      (mkNATSConfig
         (getEnvBoolOrDefault "NATS_EMBEDDED" true)
         (getEnvOrDefault "NATS_SERVER_URL" EmptyString)
         (getEnvOrDefault "NATS_DATA_DIR" "./nats-data")
         (getEnvInt64OrDefault "NATS_JETSTREAM_MAX_MEMORY"
                               (64 * 1024 * 1024))
         (getEnvInt64OrDefault "NATS_JETSTREAM_MAX_STORE"
                               (1024 * 1024 * 1024))
         (getEnvOrDefault "NATS_KV_BUCKET" "presence")
         (getEnvOrDefault "NATS_KV_TTL" "3600s")
         (getEnvOrDefault "NATS_CENTER_URL" EmptyString)
         (getEnvIntOrDefault "NATS_LEAF_PORT" 7422)
         (getEnvIntOrDefault "NATS_CLUSTER_PORT" 6222))
      (mkCacheConfig
         (getEnvOrDefault "CACHE_TYPE" "ristretto")
         (getEnvIntOrDefault "CACHE_MAX_SIZE" 10000)
         (getEnvOrDefault "CACHE_TTL" "300s")
         (getEnvInt64OrDefault "CACHE_MAX_COST" 1000000)
         (getEnvInt64OrDefault "CACHE_NUM_COUNTERS" 100000)
         (getEnvInt64OrDefault "CACHE_BUFFER_ITEMS" 64)
         (getEnvBoolOrDefault "CACHE_METRICS" true))
      (mkAuthConfig
         (getEnvOrDefault "JWT_SECRET" EmptyString)
         (getEnvOrDefault "JWT_ISSUER" "presence-service")
         (getEnvOrDefault "JWT_TTL" "24h"))
      (mkLoggingConfig
         (getEnvOrDefault "LOG_LEVEL" "info")
         (getEnvOrDefault "LOG_FORMAT" "json")) in
  if String.eqb (JWTSecret (Auth config)) EmptyString then
    inr (Errorf "JWT_SECRET environment variable is required" [])
  else inl config.

End Load.

End config.

(* ===================================================================== *)
(** ** github.com/dgraph-io/ristretto *)
(* ===================================================================== *)

Module ristretto.

(** A cached [interface{}] value: a presence, or anything else. *)
Inductive value : Type :=
| VPresence (p : Presence)
| VOther (n : Z).

(** What the admission policy answers when a buffered [Set] of a key
    that is new to the cache is applied ([policy.Add]): whether the entry
    is added, and the keys it has evicted, which it may have done also
    when it ends up rejecting the entry. *)
Inductive verdict : Type :=
| Reject (victims : list string)
| Admit (victims : list string).

(** An operation waiting in the cache's buffer: the [Set] of a new key,
    the note that a key present was updated, or a deletion. *)
Inductive buffered : Type :=
| BSet (key : string) (v : value) (cost : Z)
| BUpdate (key : string) (cost : Z)
| BDel (key : string).

(** The library's cache: the visible entries, the operations buffered
    and not yet applied, and the policy's successive verdicts
    ([decided] counts those already given). *)
Record Cache : Type := mkCache {
  items : gmap string value;
  setBuf : list buffered;
  verdicts : nat -> verdict;
  decided : nat
}.

Definition NewCache (policy : nat -> verdict) : Cache :=
  mkCache ∅ [] policy 0%nat.

Definition Get (key : string) (c : Cache) : option value :=
  items c !! key.

(** [Set]: the value of a key that is present is replaced at once and
    the update is buffered for the policy; the [Set] of any other key is
    buffered and decided when it is applied. *)
Definition Set_ (key : string) (v : value) (cost : Z) (c : Cache) : Cache :=
  match items c !! key with
  | Some _ =>
      mkCache (<[key := v]> (items c)) (setBuf c ++ [BUpdate key cost])
              (verdicts c) (decided c)
  | None =>
      mkCache (items c) (setBuf c ++ [BSet key v cost]) (verdicts c)
              (decided c)
  end.

(** [Del]: the key is removed at once, and the deletion is buffered so
    that it also follows a [Set] still waiting. *)
Definition Del (key : string) (c : Cache) : Cache :=
  mkCache (delete key (items c)) (setBuf c ++ [BDel key])
          (verdicts c) (decided c).

Definition evict (victims : list string) (m : gmap string value)
  : gmap string value :=
  foldr delete m victims.

(** One step of the goroutine that empties the buffer.  The victims of
    an admission are keys the policy held before it added the new one. *)
Definition apply (c : Cache) (op : buffered) : Cache :=
  match op with
  | BSet key v cost =>
      match verdicts c (decided c) with
      | Reject victims =>
          mkCache (evict victims (items c)) (setBuf c) (verdicts c)
                  (S (decided c))
      | Admit victims =>
          mkCache (<[key := v]> (evict victims (items c))) (setBuf c)
                  (verdicts c) (S (decided c))
      end
  | BUpdate key cost => c
  | BDel key =>
      mkCache (delete key (items c)) (setBuf c) (verdicts c) (decided c)
  end.

(** The cache once the operations buffered so far are applied. *)
Definition flushed (c : Cache) : Cache := fold_left apply (setBuf c) c.

(** [Wait] returns once every buffered operation has been applied. *)
Definition Wait (c : Cache) : Cache :=
  let c' := flushed c in
  mkCache (items c') [] (verdicts c') (decided c').

Definition Clear (c : Cache) : Cache :=
  mkCache ∅ [] (verdicts c) (decided c).

End ristretto.

(* ===================================================================== *)
(** ** package cache *)
(* ===================================================================== *)

Module cache.

(** The interface [MemoryCache].  Every method receives the instant at
    which it is called, for implementations that read the wall clock.
    [Set_] stands for the method [Set], a reserved word here.
    [GetMultiple], [Size] and [Metrics] are not called by the service and
    are left out. *)
Class MemoryCache (C : Type) : Type := {
  Get : time.Time -> string -> C -> (Presence * bool) * C;
  Set_ : time.Time -> string -> Presence -> time.Duration -> C -> C;
  Delete : time.Time -> string -> C -> C;
  Clear : C -> C
}.

Record RistrettoConfig : Type := mkRistrettoConfig {
  MaxCost : Z;
  NumCounters : Z;
  BufferItems : Z;
  Metrics : bool
}.

Record ristrettoCache : Type := mkRistrettoCache {
  cache : ristretto.Cache;
  config : RistrettoConfig
}.

Section Ristretto.
Context `{codec : JSON}.

Definition estimateCost (presence : Presence) : Z :=
  match Marshal presence with
  | inr _ => 200
  | inl data => len data + 100
  end.

Definition ristrettoCache_Get (now : time.Time) (userID : string)
    (c : ristrettoCache) : (Presence * bool) * ristrettoCache :=
  match ristretto.Get userID (cache c) with
  | None => ((models.zero, false), c)
  | Some (ristretto.VOther _) =>
      ((models.zero, false),
       mkRistrettoCache (ristretto.Del userID (cache c)) (config c))
  | Some (ristretto.VPresence presence) =>
      if (0 <? TTL presence)
         && (TTL presence <? time.Since now (UpdatedAt presence))
      then ((models.zero, false),
            mkRistrettoCache (ristretto.Del userID (cache c)) (config c))
      else ((presence, true), c)
  end.

Definition ristrettoCache_Set (userID : string) (presence : Presence)
    (ttl : time.Duration) (c : ristrettoCache) : ristrettoCache :=
  let cost := estimateCost presence in
  let presence :=
    if 0 <? ttl then models.with_TTL presence ttl else presence in
  let rc :=
    ristretto.Set_ userID (ristretto.VPresence presence) cost (cache c) in
  mkRistrettoCache (ristretto.Wait rc) (config c).

Definition ristrettoCache_Delete (userID : string) (c : ristrettoCache)
  : ristrettoCache :=
  mkRistrettoCache (ristretto.Wait (ristretto.Del userID (cache c)))
                   (config c).

Definition ristrettoCache_Clear (c : ristrettoCache) : ristrettoCache :=
  mkRistrettoCache (ristretto.Clear (cache c)) (config c).

#[global] Instance ristrettoCache_MemoryCache
  : MemoryCache ristrettoCache := {
  Get := ristrettoCache_Get;
  Set_ := fun _ => ristrettoCache_Set;
  Delete := fun _ => ristrettoCache_Delete;
  Clear := ristrettoCache_Clear
}.

(** The loop of [GetMultiple]; [clock] gives the reading each [Get] of
    the loop takes, in turn. *)
Fixpoint ristrettoCache_GetMultiple_loop (clock : nat -> time.Time)
    (userIDs : list string) (result : gmap string Presence)
    (c : ristrettoCache) : gmap string Presence * ristrettoCache :=
  match userIDs with
  | [] => (result, c)
  | userID :: rest =>
      let '((presence, found), c) :=
        ristrettoCache_Get (clock 0%nat) userID c in
      ristrettoCache_GetMultiple_loop
        (fun n => clock (S n)) rest
        (if found then <[userID := presence]> result else result) c
  end.

Definition ristrettoCache_GetMultiple (clock : nat -> time.Time)
    (userIDs : list string) (c : ristrettoCache)
  : gmap string Presence * ristrettoCache :=
  ristrettoCache_GetMultiple_loop clock userIDs ∅ c.

End Ristretto.

(** The constructors; [NewCache] is [ristretto.NewCache] as the library
    answers it. *)
Section Constructors.
Variable NewCache : RistrettoConfig -> ristretto.Cache + lib_error.

Definition NewRistrettoCache (config : RistrettoConfig)
  : ristrettoCache + error :=
  match NewCache config with
  | inr err => inr (Lib err)
  | inl cache => inl (mkRistrettoCache cache config)
  end.

Definition NewMemoryCacheLegacy (maxSize : Z) (defaultTTL : time.Duration)
  : ristrettoCache + error :=
  let avgPresenceSize := 200 in
  let maxCost := int64 (maxSize * avgPresenceSize) in
  let config :=
    mkRistrettoConfig maxCost (int64 (maxSize * 10)) 64 true in
  NewRistrettoCache config.

Definition NewMemoryCache (maxSize : Z) (defaultTTL : time.Duration)
  : outcome ristrettoCache :=
  match NewMemoryCacheLegacy maxSize defaultTTL with
  | inr err =>
      Panicked ("Failed to create Ristretto cache: " ++ errors.Error err)
  | inl cache => Returned cache
  end.

End Constructors.

End cache.

(* ===================================================================== *)
(** ** github.com/nats-io/nats.go/jetstream *)
(* ===================================================================== *)

Module jetstream.

(** The two results of [KeyValue.Get]: an error, or an entry (which the
    caller still tests against [nil]) with its payload. *)
Inductive get_result : Type :=
| GetErr (err : lib_error)
| GetEntry (entry : option bytes).

(** The part of the interface [jetstream.KeyValue] the store uses. *)
Class KeyValue (K : Type) : Type := {
  Get : context.Context -> string -> K -> get_result * K;
  Put : context.Context -> string -> bytes -> K -> option lib_error * K;
  Delete : context.Context -> string -> K -> option lib_error * K
}.

End jetstream.

(* ===================================================================== *)
(** ** package nats: the durable store *)
(* ===================================================================== *)

Module nats.

(** The interface [KVStore] ([Watch] and [Close] aside).  A nil map is
    the empty map. *)
Class KVStore (S : Type) : Type := {
  Get : time.Time -> context.Context -> string -> S
        -> (Presence * option error) * S;
  Set_ : time.Time -> context.Context -> string -> Presence
         -> time.Duration -> S -> option error * S;
  Delete : time.Time -> context.Context -> string -> S -> option error * S;
  GetMultiple : time.Time -> context.Context -> list string -> S
                -> (gmap string Presence * option error) * S
}.

Record KVConfig : Type := mkKVConfig {
  ServerURL : string;
  BucketName : string;
  Embedded : bool;
  DataDir : string;
  NodeType : string;
  CenterURL : string;
  LeafPort : Z;
  ClusterPort : Z;
  StartTimeout : string
}.

(** The struct [kvStore]: [server] and [conn] tell whether the handle is
    set, [kv] is the bucket handle. *)
Record kvStore (K : Type) : Type := mkKVStore {
  config : KVConfig;
  server : bool;
  conn : bool;
  kv : K
}.
Arguments mkKVStore {K} _ _ _ _.
Arguments config {K} _.
Arguments server {K} _.
Arguments conn {K} _.
Arguments kv {K} _.

Definition with_kv {K} (s : kvStore K) (k : K) : kvStore K :=
  mkKVStore (config s) (server s) (conn s) k.

Definition presenceKey (userID : string) : string :=
  ("user." ++ userID)%string.

(** The error every "key absent" branch of [Get] returns. *)
Definition notFound (userID : string) : error :=
  Errorf "presence not found for user %s" [FString userID].

Section Store.
Context `{codec : JSON} {K : Type} `{bucket : jetstream.KeyValue K}.

Definition kvStore_Get (ctx : context.Context) (userID : string)
    (s : kvStore K) : (Presence * option error) * kvStore K :=
  let key := presenceKey userID in
  let '(r, k) := jetstream.Get ctx key (kv s) in
  let s := with_kv s k in
  match r with
  | jetstream.GetErr err =>
      if lib_is_ErrKeyNotFound err
         || Contains (lib_msg err) "not found"
         || Contains (lib_msg err) "no message found"
      then ((models.zero, Some (notFound userID)), s)
      else ((models.zero,
             Some (Errorw "failed to get presence: %w" [] (Lib err))), s)
  | jetstream.GetEntry None => ((models.zero, Some (notFound userID)), s)
  | jetstream.GetEntry (Some value) =>
      if len value =? 0 then ((models.zero, Some (notFound userID)), s)
      else
        match Unmarshal value with
        | inr err =>
            ((models.zero,
              Some (Errorw "failed to unmarshal presence: %w" []
                           (Lib err))), s)
        | inl presence =>
            match models.Validate presence with
            | Some _ => ((models.zero, Some (notFound userID)), s)
            | None => ((presence, None), s)
            end
        end
  end.

Definition kvStore_Set (ctx : context.Context) (userID : string)
    (presence : Presence) (ttl : time.Duration) (s : kvStore K)
  : option error * kvStore K :=
  let key := presenceKey userID in
  match Marshal presence with
  | inr err =>
      (Some (Errorw "failed to marshal presence: %w" [] (Lib err)), s)
  | inl data =>
      let '(err, k) := jetstream.Put ctx key data (kv s) in
      let s := with_kv s k in
      match err with
      | Some err =>
          (Some (Errorw "failed to put presence: %w" [] (Lib err)), s)
      | None => (None, s)
      end
  end.

Definition kvStore_Delete (ctx : context.Context) (userID : string)
    (s : kvStore K) : option error * kvStore K :=
  let key := presenceKey userID in
  let '(err, k) := jetstream.Delete ctx key (kv s) in
  let s := with_kv s k in
  match err with
  | Some err =>
      if negb (lib_is_ErrKeyNotFound err)
      then (Some (Errorw "failed to delete presence: %w" [] (Lib err)), s)
      else (None, s)
  | None => (None, s)
  end.

(** The loop of [GetMultiple], entered with the map built so far. *)
Fixpoint GetMultiple_loop (ctx : context.Context) (userIDs : list string)
    (result : gmap string Presence) (s : kvStore K)
  : gmap string Presence * kvStore K :=
  match userIDs with
  | [] => (result, s)
  | userID :: rest =>
      let '((presence, err), s) := kvStore_Get ctx userID s in
      match err with
      | None => GetMultiple_loop ctx rest (<[userID := presence]> result) s
      | Some _ => GetMultiple_loop ctx rest result s
      end
  end.

Definition kvStore_GetMultiple (ctx : context.Context)
    (userIDs : list string) (s : kvStore K)
  : (gmap string Presence * option error) * kvStore K :=
  let '(result, s) := GetMultiple_loop ctx userIDs ∅ s in
  ((result, None), s).

#[global] Instance kvStore_KVStore : KVStore (kvStore K) := {
  Get := fun _ => kvStore_Get;
  Set_ := fun _ => kvStore_Set;
  Delete := fun _ => kvStore_Delete;
  GetMultiple := fun _ => kvStore_GetMultiple
}.

End Store.

(** *** Construction of the store *)

(** One turn of the readiness loop as the process sees it:
    [ns.ReadyForConnections(100ms)] answered true, or it answered false
    and [time.Since(startTime)] then read [elapsed]. *)
Inductive probe : Type :=
| Ready
| NotReady (elapsed : time.Duration).

(** What construction does to the broker and to the client connection. *)
Inductive effect : Type :=
| ServerStart
| ServerShutdown
| ServerWaitForShutdown
| ConnClose.

(** The fields of [server.Options] that [simpleOpts] sets (the server
    name, made of the role and a clock reading, is left out). *)
Record Options : Type := mkOptions {
  Host : string;
  Port : Z;
  JetStream : bool;
  StoreDir : string;
  JetStreamMaxMemory : Z;
  JetStreamMaxStore : Z
}.

(** The answers of the operating system and of the libraries during one
    construction. *)
Record Env (K : Type) : Type := mkEnv {
  os_MkdirAll : string -> option lib_error;
  os_Create : string -> option lib_error;
  url_Parse : string -> option lib_error;
  server_NewServer : Options -> option lib_error;
  probes : list probe;
  ClientURL : string;
  time_ParseDuration : string -> time.Duration + lib_error;
  nats_Connect : string -> option lib_error;
  jetstream_New : option lib_error;
  js_CreateKeyValue : string -> K + lib_error;
  js_KeyValue : string -> K + lib_error
}.
Arguments os_MkdirAll {K} _ _.
Arguments os_Create {K} _ _.
Arguments url_Parse {K} _ _.
Arguments server_NewServer {K} _ _.
Arguments probes {K} _.
Arguments ClientURL {K} _.
Arguments time_ParseDuration {K} _ _.
Arguments nats_Connect {K} _ _.
Arguments jetstream_New {K} _.
Arguments js_CreateKeyValue {K} _ _.
Arguments js_KeyValue {K} _ _.

Definition DefaultURL : string := "nats://127.0.0.1:4222".

Definition with_ServerURL (c : KVConfig) (url : string) : KVConfig :=
  mkKVConfig url (BucketName c) (Embedded c) (DataDir c) (NodeType c)
             (CenterURL c) (LeafPort c) (ClusterPort c) (StartTimeout c).

Definition nonempty (s : string) : bool := negb (String.eqb s EmptyString).

(** The role a configuration selects: "center" unless stated. *)
Definition nodeTypeOf (c : KVConfig) : string :=
  if String.eqb (NodeType c) EmptyString then "center"%string
  else NodeType c.

Section Construction.
Context {K : Type}.
Variable env : Env K.

Definition ensureDirectory (dir : string) : option error :=
  match os_MkdirAll env dir with
  | Some err => Some (Errorw "failed to create directory: %w" [] (Lib err))
  | None =>
      match os_Create env (dir ++ "/.write-test")%string with
      | Some err => Some (Errorw "directory not writable: %w" [] (Lib err))
      | None => None
      end
  end.

(** "Determine timeout": the configured value when it parses and is
    not zero, else 30s for the center role and 15s for any other. *)
Definition startTimeoutOf (c : KVConfig) : time.Duration :=
  let timeout :=
    if nonempty (StartTimeout c) then
      match time_ParseDuration env (StartTimeout c) with
      | inl d => d
      | inr _ => 0
      end
    else 0 in
  if timeout =? 0 then
    if String.eqb (nodeTypeOf c) "center" then 30 * time.Second
    else 15 * time.Second
  else timeout.

(** The loop "Poll for readiness with status updates".  [None]: the
    loop is still turning when the recorded probes end. *)
Fixpoint waitReady (timeout : time.Duration) (nodeType : string)
    (ps : list probe) : option (option error * list effect) :=
  match ps with
  | [] => None
  | Ready :: _ => Some (None, [])
  | NotReady elapsed :: rest =>
      if timeout <=? elapsed then
        Some (Some (Errorf
                      "server failed to start within %v (node type: %s)"
                      [FDuration timeout; FString nodeType]),
              [ServerShutdown])
      else waitReady timeout nodeType rest
  end.

(** The options the server is created with ([simpleOpts]). *)
Definition simpleOptsOf (c : KVConfig) : Options :=
  let nodeType := nodeTypeOf c in
  if nonempty (DataDir c) && String.eqb nodeType "center"
  then mkOptions "0.0.0.0" (-1) (String.eqb nodeType "center")
                 (DataDir c) (32 * 1024 * 1024) (256 * 1024 * 1024)
  else mkOptions "0.0.0.0" (-1) (String.eqb nodeType "center")
                 EmptyString 0 0.

(** [startEmbeddedServer]: the error, the store's configuration and
    whether [s.server] is set afterwards, and the effects. *)
Definition startEmbeddedServer (c : KVConfig)
  : option (option error * KVConfig * bool * list effect) :=
  let nodeType := nodeTypeOf c in
  match (if nonempty (DataDir c) then ensureDirectory (DataDir c)
         else None) with
  | Some err =>
      Some (Some (Errorw "failed to ensure data directory: %w" [] err),
            c, false, [])
  | None =>
      match (if String.eqb nodeType "center" then None
             else if String.eqb nodeType "leaf" then
                    if nonempty (CenterURL c)
                    then url_Parse env (CenterURL c) else None
                  else None) with
      | Some err =>
          Some (Some (Errorw "invalid center URL: %w" [] (Lib err)),
                c, false, [])
      | None =>
          match server_NewServer env (simpleOptsOf c) with
          | Some err =>
              Some (Some (Errorw "failed to create server: %w" []
                                 (Lib err)), c, false, [])
          | None =>
              let timeout := startTimeoutOf c in
              match waitReady timeout nodeType (probes env) with
              | None => None
              | Some (Some err, effs) =>
                  Some (Some err, c, false, ServerStart :: effs)
              | Some (None, effs) =>
                  Some (None, with_ServerURL c (ClientURL env), true,
                        ServerStart :: effs)
              end
          end
      end
  end.

Definition cleanup (conn server : bool) : list effect :=
  (if conn then [ConnClose] else [])
  ++ (if server then [ServerShutdown; ServerWaitForShutdown] else []).

(** [NewKVStore]: the store (or nil), the error, and the effects.
    [None]: the readiness loop has not decided yet. *)
Definition NewKVStore (c : KVConfig)
  : option (option (kvStore K) * option error * list effect) :=
  match (if Embedded c then startEmbeddedServer c
         else Some (None, c, false, [])) with
  | None => None
  | Some (Some err, _, _, effs) =>
      Some (None,
            Some (Errorw "failed to start embedded server: %w" [] err),
            effs)
  | Some (None, sc, srv, effs) =>
      let serverURL :=
        if String.eqb (ServerURL c) EmptyString then
          if String.eqb (NodeType c) "leaf" && nonempty (CenterURL c)
          then CenterURL c else DefaultURL
        else ServerURL c in
      match nats_Connect env serverURL with
      | Some err =>
          Some (None,
                Some (Errorw "failed to connect to NATS: %w" [] (Lib err)),
                effs ++ cleanup false srv)
      | None =>
          let nodeType := nodeTypeOf c in
          if String.eqb nodeType "center"
             || (String.eqb nodeType "leaf" && nonempty (CenterURL c))
          then
            match jetstream_New env with
            | Some err =>
                Some (None,
                      Some (Errorw
                              "failed to create JetStream context: %w" []
                              (Lib err)),
                      effs ++ cleanup true srv)
            | None =>
                let bucketName :=
                  if String.eqb (BucketName c) EmptyString
                  then "presence"%string else BucketName c in
                if String.eqb nodeType "center" then
                  match js_CreateKeyValue env bucketName with
                  | inl kv => Some (Some (mkKVStore sc srv true kv),
                                    None, effs)
                  | inr _ =>
                      match js_KeyValue env bucketName with
                      | inl kv => Some (Some (mkKVStore sc srv true kv),
                                        None, effs)
                      | inr err =>
                          Some (None,
                                Some (Errorw
                                  "failed to create/get KV bucket: %w" []
                                  (Lib err)),
                                effs ++ cleanup true srv)
                      end
                  end
                else
                  match js_KeyValue env bucketName with
                  | inl kv => Some (Some (mkKVStore sc srv true kv),
                                    None, effs)
                  | inr err =>
                      Some (None,
                            Some (Errorw
                              "failed to access KV bucket: %w" []
                              (Lib err)),
                            effs ++ cleanup true srv)
                  end
            end
          else
            Some (None,
                  Some (Errorf
                    "leaf nodes must specify center URL for KV operations"
                    []),
                  effs ++ cleanup true srv)
      end
  end.

End Construction.

(** [Close] runs [cleanup] on the handles the store holds and returns
    nil. *)
Definition kvStore_cleanup {K} (s : kvStore K) : list effect :=
  cleanup (conn s) (server s).

Definition kvStore_Close {K} (s : kvStore K) : option error * list effect :=
  (None, kvStore_cleanup s).

(** The method [Close] of the interface [KVStore]. *)
Class Closer (S : Type) : Type := {
  Close : S -> option error * S
}.

#[global] Instance kvStore_Closer {K} : Closer (kvStore K) := {
  Close := fun s => (fst (kvStore_Close s), s)
}.

(** *** Watch *)

Inductive WatchEventType : Type :=
| WatchEventNone   (* the zero value, the empty string *)
| WatchEventPut
| WatchEventDelete.

Record WatchEvent : Type := mkWatchEvent {
  Key : string;
  Type_ : WatchEventType;
  Presence_ : option Presence   (* the pointer [Presence]; nil is [None] *)
}.

(** [jetstream.KeyValueOp] and what the loop reads of an entry. *)
Inductive KeyValueOp : Type :=
| KeyValuePut
| KeyValueDelete
| KeyValuePurge.

Record KeyValueEntry : Type := mkEntry {
  entry_Key : string;
  entry_Value : bytes;
  entry_Operation : KeyValueOp
}.

(** What one turn of the goroutine's [select] receives: an entry (or
    nil) from [watcher.Updates()], or the end of the context. *)
Inductive signal : Type :=
| Update (entry : option KeyValueEntry)
| CtxDone.

Section Watching.
Context `{codec : JSON}.

(** The event built for an entry, from "event := WatchEvent{" to the
    call of the callback. *)
Definition eventOf (entry : KeyValueEntry) : WatchEvent :=
  match entry_Operation entry with
  | KeyValuePut =>
      mkWatchEvent (entry_Key entry) WatchEventPut
        (match Unmarshal (entry_Value entry) with
         | inl presence => Some presence
         | inr _ => None
         end)
  | KeyValueDelete => mkWatchEvent (entry_Key entry) WatchEventDelete None
  | KeyValuePurge => mkWatchEvent (entry_Key entry) WatchEventNone None
  end.

(** The goroutine of [Watch]: the events handed to the callback, in
    order, and whether it has returned (and so stopped the watcher) by
    the end of the recorded signals. *)
Fixpoint watchLoop (signals : list signal) : list WatchEvent * bool :=
  match signals with
  | [] => ([], false)
  | CtxDone :: _ => ([], true)
  | Update None :: _ => ([], true)
  | Update (Some entry) :: rest =>
      let '(events, stopped) := watchLoop rest in
      (eventOf entry :: events, stopped)
  end.

(** [Watch]: [WatchAll] fails, or the goroutine is started on the
    signals to come. *)
Definition kvStore_Watch (watchAll : option lib_error)
    (signals : list signal) : option error * (list WatchEvent * bool) :=
  match watchAll with
  | Some err =>
      (Some (Errorw "failed to create watcher: %w" [] (Lib err)),
       ([], false))
  | None => (None, watchLoop signals)
  end.

End Watching.

End nats.

(* ===================================================================== *)
(** ** package service: the orchestrator *)
(* ===================================================================== *)

Module service.

(** What the Go runtime contributes to a run: the successive readings of
    the wall clock, and the order in which [range] visits a map (any
    order, but each entry once). *)
Record Runtime : Type := mkRuntime {
  clock : nat -> time.Time;
  range : gmap string Presence -> list (string * Presence);
  range_perm : forall m, range m ≡ₚ map_to_list m
}.

(** A method call the service makes on one of its two collaborators. *)
Inductive call : Type :=
| CacheGet (userID : string)
| CacheSet (userID : string) (presence : Presence) (ttl : time.Duration)
| CacheDelete (userID : string)
| StoreGet (userID : string)
| StoreSet (userID : string) (presence : Presence) (ttl : time.Duration)
| StoreGetMultiple (userIDs : list string).

Definition is_store_call (c : call) : bool :=
  match c with
  | StoreGet _ | StoreSet _ _ _ | StoreGetMultiple _ => true
  | _ => false
  end.

Definition is_cache_call (c : call) : bool :=
  match c with
  | CacheGet _ | CacheSet _ _ _ | CacheDelete _ => true
  | _ => false
  end.

(** The state a service method runs in: the cache object, the store
    object, the number of clock readings taken so far and the calls made
    so far (oldest first). *)
Record world (C S : Type) : Type := mkWorld {
  w_cache : C;
  w_store : S;
  ticks : nat;
  calls : list call
}.
Arguments mkWorld {C S} _ _ _ _.
Arguments w_cache {C S} _.
Arguments w_store {C S} _.
Arguments ticks {C S} _.
Arguments calls {C S} _.

(** The struct [PresenceService]; its [cache] and [store] fields point
    to the two objects held in the [world]. *)
Record PresenceService : Type := mkPresenceService {
  nodeID : string
}.

Section Service.
Context {C S : Type} `{mc : cache.MemoryCache C} `{st : nats.KVStore S}.
Variable rt : Runtime.

Definition M (A : Type) : Type := world C S -> A * world C S.

Definition ret {A} (a : A) : M A := fun w => (a, w).

Definition bind {A B} (m : M A) (f : A -> M B) : M B :=
  fun w => let '(a, w) := m w in f a w.

Notation "x <- m ;; k" := (bind m (fun x => k))
  (at level 100, m at next level, right associativity).
Notation "m ;;; k" := (bind m (fun _ => k))
  (at level 100, right associativity).

(** A reading of the wall clock. *)
Definition Now : M time.Time :=
  fun w => (clock rt (ticks w),
            mkWorld (w_cache w) (w_store w) (Datatypes.S (ticks w))
                    (calls w)).

Definition record (c : call) : M unit :=
  fun w => (tt, mkWorld (w_cache w) (w_store w) (ticks w)
                        (calls w ++ [c])).

Definition on_cache {A} (f : C -> A * C) : M A :=
  fun w => let '(a, c) := f (w_cache w) in
           (a, mkWorld c (w_store w) (ticks w) (calls w)).

Definition on_store {A} (f : S -> A * S) : M A :=
  fun w => let '(a, s) := f (w_store w) in
           (a, mkWorld (w_cache w) s (ticks w) (calls w)).

Definition cache_Get (userID : string) : M (Presence * bool) :=
  record (CacheGet userID) ;;;
  now <- Now ;; on_cache (cache.Get now userID).

Definition cache_Set (userID : string) (presence : Presence)
    (ttl : time.Duration) : M unit :=
  record (CacheSet userID presence ttl) ;;;
  now <- Now ;;
  on_cache (fun c => (tt, cache.Set_ now userID presence ttl c)).

Definition cache_Delete (userID : string) : M unit :=
  record (CacheDelete userID) ;;;
  now <- Now ;; on_cache (fun c => (tt, cache.Delete now userID c)).

Definition store_Get (ctx : context.Context) (userID : string)
  : M (Presence * option error) :=
  record (StoreGet userID) ;;;
  now <- Now ;; on_store (nats.Get now ctx userID).

Definition store_Set (ctx : context.Context) (userID : string)
    (presence : Presence) (ttl : time.Duration) : M (option error) :=
  record (StoreSet userID presence ttl) ;;;
  now <- Now ;; on_store (nats.Set_ now ctx userID presence ttl).

Definition store_GetMultiple (ctx : context.Context)
    (userIDs : list string) : M (gmap string Presence * option error) :=
  record (StoreGetMultiple userIDs) ;;;
  now <- Now ;; on_store (nats.GetMultiple now ctx userIDs).

(** [presence.IsExpired()]: the clock is read only when a TTL is set. *)
Definition IsExpired (presence : Presence) : M bool :=
  if TTL presence =? 0 then ret false
  else now <- Now ;; ret (models.IsExpired now presence).

(** [GetPresence] from the comment "Fall back to KV store" on. *)
Definition GetPresence_store (s : PresenceService)
    (ctx : context.Context) (userID : string)
  : M (Presence * option error) :=
  r <- store_Get ctx userID ;;
  let '(presence, err) := r in
  match err with
  | Some _ => ret (models.zero, Some (PresenceNotFoundError userID))
  | None =>
      cache_Set userID presence (TTL presence) ;;;
      ret (presence, None)
  end.

Definition GetPresence (s : PresenceService) (ctx : context.Context)
    (userID : string) : M (Presence * option error) :=
  r <- cache_Get userID ;;
  let '(presence, found) := r in
  if found then
    expired <- IsExpired presence ;;
    if negb expired then ret (presence, None)
    else cache_Delete userID ;;; GetPresence_store s ctx userID
  else GetPresence_store s ctx userID.

(** The three assignments that open [SetPresence]. *)
Definition stamp (s : PresenceService) (now : time.Time)
    (presence : Presence) : Presence :=
  mkPresence (UserID presence) (Status presence) (Message presence)
             now now (nodeID s) (TTL presence).

Definition SetPresence (s : PresenceService) (ctx : context.Context)
    (userID : string) (presence : Presence) : M (option error) :=
  now <- Now ;;
  let presence := stamp s now presence in
  match models.Validate presence with
  | Some err => ret (Some (Errorw "invalid presence: %w" [] err))
  | None =>
      err <- store_Set ctx userID presence (TTL presence) ;;
      match err with
      | Some err =>
          ret (Some (Errorw "failed to store presence: %w" [] err))
      | None =>
          cache_Set userID presence (TTL presence) ;;; ret None
      end
  end.

(** The first loop of [GetMultiplePresences] ("Check cache first"). *)
Fixpoint checkCache (userIDs : list string)
    (result : gmap string Presence) (missingUsers : list string)
  : M (gmap string Presence * list string) :=
  match userIDs with
  | [] => ret (result, missingUsers)
  | userID :: rest =>
      r <- cache_Get userID ;;
      let '(presence, found) := r in
      hit <- (if found then e <- IsExpired presence ;; ret (negb e)
              else ret false) ;;
      if (hit : bool) then
        checkCache rest (<[userID := presence]> result) missingUsers
      else
        stale <- (if found then IsExpired presence else ret false) ;;
        (if (stale : bool) then cache_Delete userID else ret tt) ;;;
        checkCache rest result (missingUsers ++ [userID])
  end.

(** The second loop ("Add store results to final result and cache
    them"), over the entries in the order [range] yields them. *)
Fixpoint cacheResults (entries : list (string * Presence))
    (result : gmap string Presence) : M (gmap string Presence) :=
  match entries with
  | [] => ret result
  | (userID, presence) :: rest =>
      cache_Set userID presence (TTL presence) ;;;
      cacheResults rest (<[userID := presence]> result)
  end.

Definition GetMultiplePresences (s : PresenceService)
    (ctx : context.Context) (userIDs : list string)
  : M (gmap string Presence * option error) :=
  r <- checkCache userIDs ∅ [] ;;
  let '(result, missingUsers) := r in
  if (0 <? length missingUsers)%nat then
    r <- store_GetMultiple ctx missingUsers ;;
    let '(storeResults, err) := r in
    match err with
    | Some err =>
        ret (∅, Some (Errorw "failed to get presences from store: %w"
                             [] err))
    | None =>
        result <- cacheResults (range rt storeResults) result ;;
        ret (result, None)
    end
  else ret (result, None).

(** [Ready]: an empty batched read of the store. *)
Definition Ready (s : PresenceService) (ctx : context.Context)
  : M (option error) :=
  r <- store_GetMultiple ctx [] ;;
  ret (snd r).

End Service.

Section Closing.
Context {C S : Type} `{mc : cache.MemoryCache C} `{cl : nats.Closer S}.

Definition Close (s : PresenceService) : @M C S (option error) :=
  bind (on_store nats.Close) (fun err =>
    match err with
    | Some err => ret (Some (Errorw "failed to close store: %w" [] err))
    | None =>
        bind (on_cache (fun c => (tt, cache.Clear c))) (fun _ => ret None)
    end).

End Closing.

(** *** The builder *)

(** What [Build] hands back: the service and the two objects it points
    to ([None]: a nil store). *)
Record built (K : Type) : Type := mkBuilt {
  b_service : PresenceService;
  b_cache : cache.ristrettoCache;
  b_store : option (nats.kvStore K)
}.
Arguments mkBuilt {K} _ _ _.
Arguments b_service {K} _.
Arguments b_cache {K} _.
Arguments b_store {K} _.

(** The [nats.KVConfig] that [Build] fills in. *)
Definition natsConfigOf (c : config.Config) : nats.KVConfig :=
  nats.mkKVConfig (config.ServerURL (config.NATS c))
                  (config.KVBucket (config.NATS c))
                  (config.Embedded (config.NATS c))
                  (config.DataDir (config.NATS c))
                  (config.NodeType (config.Service c))
                  (config.CenterURL (config.NATS c))
                  (config.LeafPort (config.NATS c))
                  (config.ClusterPort (config.NATS c))
                  EmptyString.

Section Builder.
Context {K : Type}.
Variable env : nats.Env K.
Variable NewCache : cache.RistrettoConfig -> ristretto.Cache + lib_error.

(** The first half of [Build]: the cache. *)
Definition buildCache (c : config.Config)
  : outcome (cache.ristrettoCache + error) :=
  if 0 <? config.MaxCost (config.Cache c) then
    let ristrettoConfig :=
      cache.mkRistrettoConfig (config.MaxCost (config.Cache c))
                              (config.NumCounters (config.Cache c))
                              (config.BufferItems (config.Cache c))
                              (config.Metrics (config.Cache c)) in
    match cache.NewRistrettoCache NewCache ristrettoConfig with
    | inr err =>
        Returned (inr (Errorw "failed to create Ristretto cache: %w" []
                              err))
    | inl memCache => Returned (inl memCache)
    end
  else
    match nats.time_ParseDuration env (config.TTL (config.Cache c)) with
    | inr err => Returned (inr (Errorw "invalid cache TTL: %w" [] (Lib err)))
    | inl cacheTTL =>
        match cache.NewMemoryCache NewCache
                (config.MaxSize (config.Cache c)) cacheTTL with
        | Panicked msg => Panicked msg
        | Returned memCache => Returned (inl memCache)
        end
    end.

(** [Build]: how it ends and what it did to the broker and the
    connection.  [None]: the store's readiness loop has not decided
    yet. *)
Definition Build (c : config.Config)
  : option (outcome (built K + error) * list nats.effect) :=
  match buildCache c with
  | Panicked msg => Some (Panicked msg, [])
  | Returned (inr err) => Some (Returned (inr err), [])
  | Returned (inl memCache) =>
      match nats.NewKVStore env (natsConfigOf c) with
      | None => None
      | Some (_, Some err, effs) =>
          Some (Returned
                  (inr (Errorw "failed to create NATS KV store: %w" []
                               err)), effs)
      | Some (store, None, effs) =>
          Some (Returned
                  (inl (mkBuilt
                          (mkPresenceService
                             (config.NodeID (config.Service c)))
                          memCache store)), effs)
      end
  end.

End Builder.

End service.

(* ===================================================================== *)
(** ** package handlers *)
(* ===================================================================== *)

Module handlers.

(** An error as a handler receives it from its service: a pointer to the
    package's own [PresenceNotFoundError], or an error made elsewhere. *)
Inductive err : Type :=
| PresenceNotFoundError (UserID : string)
| Elsewhere (e : error).

Definition is_PresenceNotFoundError (e : err) : bool :=
  match e with
  | PresenceNotFoundError _ => true
  | Elsewhere _ => false
  end.

Definition Error (e : err) : string :=
  match e with
  | PresenceNotFoundError UserID =>
      fmt.Sprintf "presence not found for user %s" [UserID]
  | Elsewhere e => errors.Error e
  end.

(** The interface [PresenceService], over the state [T] of whatever
    implements it. *)
Class PresenceService (T : Type) : Type := {
  GetPresence : context.Context -> string -> T
                -> (Presence * option err) * T;
  SetPresence : context.Context -> string -> Presence -> T
                -> option err * T;
  GetMultiplePresences : context.Context -> list string -> T
                         -> (gmap string Presence * option err) * T
}.

Record SetPresenceRequest : Type := mkSetPresenceRequest {
  req_Status : PresenceStatus;
  req_Message : string;
  req_TTL : Z
}.

Record BatchPresenceRequest : Type := mkBatchPresenceRequest {
  UserIDs : list string
}.

(** [json.NewDecoder(r.Body).Decode(&req)] at the two request types. *)
Class Decoder : Type := {
  DecodeSetPresenceRequest : bytes -> SetPresenceRequest + lib_error;
  DecodeBatchPresenceRequest : bytes -> BatchPresenceRequest + lib_error
}.

Definition writeJSONResponse (w : http.ResponseWriter) (statusCode : Z)
    (data : PresenceResponse) : http.ResponseWriter :=
  let w := http.SetHeader w "Content-Type" "application/json" in
  let w := http.WriteHeader w statusCode in
  http.Encode w (http.PresenceDocument data).

Definition writeErrorResponse (w : http.ResponseWriter) (statusCode : Z)
    (message : string) : http.ResponseWriter :=
  writeJSONResponse w statusCode (mkPresenceResponse false ∅ message).

Section Handlers.
Context {T : Type} `{svc : PresenceService T} `{dec : Decoder}
        `{str : Strings}.

(** GET /api/v2/presence/{user_id} *)
Definition GetPresence_handler (w : http.ResponseWriter) (r : http.Request)
    (h : T) : http.ResponseWriter * T :=
  let userID := http.Get (http.Vars r) "user_id" in
  if String.eqb userID EmptyString then
    (writeErrorResponse w http.StatusBadRequest "user_id is required", h)
  else
    let '((presence, err), h) := GetPresence (http.Context r) userID h in
    match err with
    | Some err =>
        if is_PresenceNotFoundError err then
          (writeErrorResponse w http.StatusNotFound (Error err), h)
        else if Contains (Error err) "not found" then
          (writeErrorResponse w http.StatusNotFound (Error err), h)
        else
          (writeErrorResponse w http.StatusInternalServerError
                              "failed to get presence", h)
    | None =>
        (writeJSONResponse w http.StatusOK
           (mkPresenceResponse true {[ userID := presence ]} EmptyString),
         h)
    end.

(** The record the handler of PUT builds from a decoded body at the
    instant [now]. *)
Definition presenceOf (now : time.Time) (userID : string)
    (req : SetPresenceRequest) : Presence :=
  let presence :=
    mkPresence userID (req_Status req) (req_Message req) now now
               "current-node" 0 in
  if 0 <? req_TTL req
  then with_TTL presence (int64 (req_TTL req * time.Second))
  else presence.

(** PUT /api/v2/presence/{user_id}; [now] is the handler's reading of
    the clock. *)
Definition SetPresence_handler (now : time.Time) (w : http.ResponseWriter)
    (r : http.Request) (h : T) : http.ResponseWriter * T :=
  let userID := http.Get (http.Vars r) "user_id" in
  if String.eqb userID EmptyString then
    (writeErrorResponse w http.StatusBadRequest "user_id is required", h)
  else
    match DecodeSetPresenceRequest (http.Body r) with
    | inr _ =>
        (writeErrorResponse w http.StatusBadRequest "invalid JSON", h)
    | inl req =>
        if negb (IsValid (req_Status req)) then
          (writeErrorResponse w http.StatusBadRequest "invalid status", h)
        else
          let presence := presenceOf now userID req in
          let '(err, h) :=
            SetPresence (http.Context r) userID presence h in
          match err with
          | Some _ =>
              (writeErrorResponse w http.StatusInternalServerError
                                  "failed to set presence", h)
          | None =>
              (writeJSONResponse w http.StatusOK
                 (mkPresenceResponse true {[ userID := presence ]}
                                     EmptyString), h)
          end
    end.

(** The tail both batch handlers share. *)
Definition respondMultiple (w : http.ResponseWriter) (r : http.Request)
    (userIDs : list string) (h : T) : http.ResponseWriter * T :=
  let '((presences, err), h) :=
    GetMultiplePresences (http.Context r) userIDs h in
  match err with
  | Some _ =>
      (writeErrorResponse w http.StatusInternalServerError
                          "failed to get presences", h)
  | None =>
      (writeJSONResponse w http.StatusOK
         (mkPresenceResponse true presences EmptyString), h)
  end.

(** GET /api/v2/presence?users=user1,user2,user3 *)
Definition GetMultiplePresences_handler (w : http.ResponseWriter)
    (r : http.Request) (h : T) : http.ResponseWriter * T :=
  let usersParam := http.Get (http.Query r) "users" in
  if String.eqb usersParam EmptyString then
    (writeErrorResponse w http.StatusBadRequest
                        "users parameter is required", h)
  else
    let userIDs := map TrimSpace (Split usersParam ",") in
    respondMultiple w r userIDs h.

(** POST /api/v2/presence/batch *)
Definition BatchPresence (w : http.ResponseWriter) (r : http.Request)
    (h : T) : http.ResponseWriter * T :=
  match DecodeBatchPresenceRequest (http.Body r) with
  | inr _ => (writeErrorResponse w http.StatusBadRequest "invalid JSON", h)
  | inl req =>
      if (length (UserIDs req) =? 0)%nat then
        (writeErrorResponse w http.StatusBadRequest "user_ids is required",
         h)
      else respondMultiple w r (UserIDs req) h
  end.

End Handlers.

(** A handler, over the state [T] of the service behind it. *)
Definition Handler (T : Type) : Type :=
  http.ResponseWriter -> http.Request -> T -> http.ResponseWriter * T.

Record CORSConfig : Type := mkCORSConfig {
  Enabled : bool;
  AllowedOrigins : list string;
  AllowedMethods : list string;
  AllowedHeaders : list string;
  AllowCredentials : bool;
  MaxAge : Z
}.

Definition getEnvDefault (env : os.Environ) (k d : string) : string :=
  let v := os.Getenv env k in
  if String.eqb v EmptyString then d else v.

Section CORS.
Context `{str : Strings}.

Definition trimAll (ss : list string) : list string := map TrimSpace ss.

Definition loadCORSConfigFromEnv (env : os.Environ) : CORSConfig :=
  let enabled :=
    let v := os.Getenv env "CORS_ENABLED" in
    if String.eqb v EmptyString then true
    else match strconv.ParseBool v with Some b => b | None => true end in
  let origins := Split (getEnvDefault env "CORS_ALLOWED_ORIGINS" "*") "," in
  let methods :=
    Split (getEnvDefault env "CORS_ALLOWED_METHODS"
                         "GET,POST,PUT,DELETE,OPTIONS") "," in
  let headers :=
    Split (getEnvDefault env "CORS_ALLOWED_HEADERS"
                         "Authorization,Content-Type") "," in
  let allowCreds :=
    let v := os.Getenv env "CORS_ALLOW_CREDENTIALS" in
    if String.eqb v EmptyString then false
    else match strconv.ParseBool v with Some b => b | None => false end in
  let maxAge :=
    let v := os.Getenv env "CORS_MAX_AGE" in
    if String.eqb v EmptyString then 600
    else match strconv.Atoi v with Some n => n | None => 600 end in
  mkCORSConfig enabled (trimAll origins) (trimAll methods)
               (trimAll headers) allowCreds maxAge.

(** The loop that looks [origin] up in the allowed origins. *)
Fixpoint matchOrigin (allowedOrigins : list string) (origin : string)
  : string :=
  match allowedOrigins with
  | [] => EmptyString
  | o :: rest =>
      if String.eqb o origin then origin else matchOrigin rest origin
  end.

(** [CORSMiddleware], in the environment [env] it reads its
    configuration from. *)
Definition CORSMiddleware {T : Type} (env : os.Environ) (next : Handler T)
  : Handler T :=
  let cfg := loadCORSConfigFromEnv env in
  if negb (Enabled cfg) then next
  else
    let allowedMethods := Join (AllowedMethods cfg) ", " in
    let allowedHeaders := Join (AllowedHeaders cfg) ", " in
    let allowedOrigins := AllowedOrigins cfg in
    let wildcard :=
      (length allowedOrigins =? 1)%nat
      && String.eqb (nth 0 allowedOrigins EmptyString) "*" in
    fun w r h =>
      let origin := http.Get (http.Header r) "Origin" in
      if String.eqb origin EmptyString then next w r h
      else
        let allowOrigin :=
          if wildcard && negb (AllowCredentials cfg) then "*"%string
          else matchOrigin allowedOrigins origin in
        if String.eqb allowOrigin EmptyString then
          (http.WriteHeader w http.StatusForbidden, h)
        else
          let w :=
            http.SetHeader w "Access-Control-Allow-Origin" allowOrigin in
          let w :=
            if AllowCredentials cfg
            then http.SetHeader w "Access-Control-Allow-Credentials" "true"
            else w in
          let w := http.SetHeader w "Vary" "Origin" in
          if String.eqb (http.Method r) http.MethodOptions then
            let w :=
              http.SetHeader w "Access-Control-Allow-Methods"
                             allowedMethods in
            let w :=
              http.SetHeader w "Access-Control-Allow-Headers"
                             allowedHeaders in
            let w :=
              http.SetHeader w "Access-Control-Max-Age"
                             (strconv.Itoa (MaxAge cfg)) in
            (http.WriteHeader w http.StatusNoContent, h)
          else next w r h.

End CORS.

(** The interface [ReadinessChecker]. *)
Class ReadinessChecker (T : Type) : Type := {
  Ready : context.Context -> T -> option error * T
}.

Section Health.
Context {T : Type} `{chk : ReadinessChecker T}.

(** [Readiness]; [checker] tells whether [h.checker] is set, [ctx] is
    the request's context under its two-second timeout, [now] the clock
    when the answer is written. *)
Definition Readiness (checker : bool) (ctx : context.Context)
    (now : time.Time) (w : http.ResponseWriter) (h : T)
  : http.ResponseWriter * T :=
  let w := http.SetHeader w "Content-Type" "application/json" in
  let ready :=
    http.Encode w (http.StatusDocument "ready" None (Some now)) in
  if checker then
    let '(err, h) := Ready ctx h in
    match err with
    | Some err =>
        let w := http.WriteHeader w http.StatusServiceUnavailable in
        (http.Encode w
           (http.StatusDocument "unready" (Some (errors.Error err)) None), h)
    | None => (ready, h)
    end
  else (ready, h).

End Health.

(** The service of package service behind the handlers: the struct, the
    runtime it runs on and the state of its cache and store. *)
Record Served (C S : Type) : Type := mkServed {
  runtime : service.Runtime;
  presenceService : service.PresenceService;
  state : service.world C S
}.
Arguments mkServed {C S} _ _ _.
Arguments runtime {C S} _.
Arguments presenceService {C S} _.
Arguments state {C S} _.

Definition run {C S A} (m : service.Runtime -> service.PresenceService
                           -> service.world C S -> A * service.world C S)
    (h : Served C S) : A * Served C S :=
  let '(a, w) := m (runtime h) (presenceService h) (state h) in
  (a, mkServed (runtime h) (presenceService h) w).

Section Wiring.
Context {C S : Type} `{mc : cache.MemoryCache C} `{st : nats.KVStore S}.

#[global] Instance Served_PresenceService : PresenceService (Served C S) := {
  GetPresence ctx userID :=
    run (fun rt s w =>
           let '((presence, err), w) := service.GetPresence rt s ctx userID w in
           ((presence, option_map Elsewhere err), w));
  SetPresence ctx userID presence :=
    run (fun rt s w =>
           let '(err, w) := service.SetPresence rt s ctx userID presence w in
           (option_map Elsewhere err, w));
  GetMultiplePresences ctx userIDs :=
    run (fun rt s w =>
           let '((presences, err), w) :=
             service.GetMultiplePresences rt s ctx userIDs w in
           ((presences, option_map Elsewhere err), w))
}.

#[global] Instance Served_ReadinessChecker : ReadinessChecker (Served C S) := {
  Ready ctx := run (fun rt s w => service.Ready rt s ctx w)
}.

End Wiring.

End handlers.

(* ===================================================================== *)
(** ** The answers of the HTTP interface *)
(* ===================================================================== *)

Module api.

(** The state a handler leaves a fresh recorder in when it answers
    [statusCode] with the document [data]. *)
Definition answer (statusCode : Z) (data : PresenceResponse)
  : http.ResponseWriter :=
  http.mkResponseWriter statusCode true
    {[ "Content-Type"%string := "application/json"%string ]}
    [http.PresenceDocument data].

Definition success (data : gmap string Presence) : http.ResponseWriter :=
  answer http.StatusOK (mkPresenceResponse true data EmptyString).

Definition failure (statusCode : Z) (message : string)
  : http.ResponseWriter :=
  answer statusCode (mkPresenceResponse false ∅ message).

(** The largest number of seconds a request can ask for without the
    conversion to nanoseconds leaving the 64-bit range. *)
Definition maxSeconds : Z := 9223372036.

End api.

Module cors.

(** The headers the CORS middleware adds for an allowed origin. *)
Definition allowHeaders (credentials : bool) (allowOrigin : string)
  : gmap string string :=
  let h := <[ "Access-Control-Allow-Origin"%string := allowOrigin ]> ∅ in
  let h :=
    if credentials
    then <[ "Access-Control-Allow-Credentials"%string := "true"%string ]> h
    else h in
  <[ "Vary"%string := "Origin"%string ]> h.

(** Those it adds to the answer of a preflight request. *)
Definition preflightHeaders (cfg : handlers.CORSConfig)
    (allowOrigin : string) : gmap string string :=
  <[ "Access-Control-Max-Age"%string
     := strconv.Itoa (handlers.MaxAge cfg) ]>
    (<[ "Access-Control-Allow-Headers"%string
        := Join (handlers.AllowedHeaders cfg) ", " ]>
       (<[ "Access-Control-Allow-Methods"%string
           := Join (handlers.AllowedMethods cfg) ", " ]>
          (allowHeaders (handlers.AllowCredentials cfg) allowOrigin))).

(** Whether the configuration answers every origin with the wildcard. *)
Definition open (cfg : handlers.CORSConfig) : bool :=
  (length (handlers.AllowedOrigins cfg) =? 1)%nat
  && String.eqb (nth 0 (handlers.AllowedOrigins cfg) EmptyString) "*"
  && negb (handlers.AllowCredentials cfg).

End cors.

(* ===================================================================== *)
(** ** The read path as the design describes it *)
(* ===================================================================== *)

Module spec.

Import service.

Section ReadPath.
Context {C S : Type} `{mc : cache.MemoryCache C} `{st : nats.KVStore S}.
Variable rt : Runtime.

(** The clock readings [IsExpired] takes on a record. *)
Definition readings (p : Presence) : nat :=
  if TTL p =? 0 then 0%nat else 1%nat.

(** "Cache miss", or "cache hit + expired -> delete from cache, fall
    through": the world in which the store is consulted next. *)
Inductive fallthrough (userID : string) (w : world C S) : world C S -> Prop :=
| cache_miss p c :
    cache.Get (clock rt (ticks w)) userID (w_cache w) = ((p, false), c) ->
    fallthrough userID w
      (mkWorld c (w_store w) (1 + ticks w) (calls w ++ [CacheGet userID]))
| cache_expired p c :
    cache.Get (clock rt (ticks w)) userID (w_cache w) = ((p, true), c) ->
    models.IsExpired (clock rt (1 + ticks w)) p = true ->
    fallthrough userID w
      (mkWorld (cache.Delete (clock rt (2 + ticks w)) userID c) (w_store w)
               (3 + ticks w)
               (calls w ++ [CacheGet userID; CacheDelete userID])).

(** [GetPresence] as section 4.3 words it: the result and the world it
    leaves, for a call made in world [w]. *)
Inductive GetPresence_spec (ctx : context.Context) (userID : string)
    (w : world C S) : Presence * option error -> world C S -> Prop :=
| hit_not_expired p c :
    cache.Get (clock rt (ticks w)) userID (w_cache w) = ((p, true), c) ->
    models.IsExpired (clock rt (1 + ticks w)) p = false ->
    GetPresence_spec ctx userID w (p, None)
      (mkWorld c (w_store w) (readings p + 1 + ticks w)
               (calls w ++ [CacheGet userID]))
| store_hit w1 p s :
    fallthrough userID w w1 ->
    nats.Get (clock rt (ticks w1)) ctx userID (w_store w1) = ((p, None), s) ->
    GetPresence_spec ctx userID w (p, None)
      (mkWorld (cache.Set_ (clock rt (1 + ticks w1)) userID p (TTL p)
                           (w_cache w1))
               s (2 + ticks w1)
               (calls w1 ++ [StoreGet userID; CacheSet userID p (TTL p)]))
| store_miss w1 p e s :
    fallthrough userID w w1 ->
    nats.Get (clock rt (ticks w1)) ctx userID (w_store w1)
    = ((p, Some e), s) ->
    GetPresence_spec ctx userID w
      (models.zero, Some (PresenceNotFoundError userID))
      (mkWorld (w_cache w1) s (1 + ticks w1) (calls w1 ++ [StoreGet userID])).

End ReadPath.

Section BatchRead.
Context {C S : Type} `{mc : cache.MemoryCache C} `{st : nats.KVStore S}.
Variable rt : Runtime.

(** What the cache has for one id: the record, when it is found and not
    expired; nothing otherwise, an expired record being deleted. *)
Definition consult (userID : string) : @M C S (option Presence) :=
  bind (cache_Get rt userID) (fun r =>
    let '(presence, found) := r in
    if found then
      bind (IsExpired rt presence) (fun expired =>
        if expired then
          bind (IsExpired rt presence) (fun still =>
            bind (if still then cache_Delete rt userID else ret tt)
                 (fun _ => ret None))
        else ret (Some presence))
    else ret None).

Fixpoint consult_all (userIDs : list string)
  : @M C S (list (string * option Presence)) :=
  match userIDs with
  | [] => ret []
  | userID :: rest =>
      bind (consult userID) (fun o =>
        bind (consult_all rest) (fun os => ret ((userID, o) :: os)))
  end.

End BatchRead.

(** The two parts of the partition: the ids answered by the cache, with
    their records (the last answer for an id listed twice), and the ids
    left for the store, in the order of the request. *)
Definition hits_into (result : gmap string Presence)
    (outs : list (string * option Presence)) : gmap string Presence :=
  fold_left (fun m o => match o.2 with
                        | Some p => <[o.1 := p]> m
                        | None => m
                        end) outs result.

Definition hits (outs : list (string * option Presence))
  : gmap string Presence := hits_into ∅ outs.

Definition misses (outs : list (string * option Presence)) : list string :=
  (filter (fun o => o.2 = None) outs).*1.

(** The call that caches one fetched entry. *)
Definition caching (entry : string * Presence) : call :=
  CacheSet entry.1 entry.2 (TTL entry.2).

(** The cache once the records of [entries] are cached: each is handed
    to the cache's [Set] under its id and with its own TTL, in the order
    of the list, at the readings of the clock from number [t] on. *)
Fixpoint cached {C : Type} `{mc : cache.MemoryCache C} (rt : Runtime)
    (entries : list (string * Presence)) (t : nat) (c : C) : C :=
  match entries with
  | [] => c
  | entry :: rest =>
      cached rt rest (Datatypes.S t)
             (cache.Set_ (clock rt t) entry.1 entry.2 (TTL entry.2) c)
  end.

(** The state the cache wrapper leaves the library's cache in between
    two of its methods: nothing is buffered but deletions of keys that
    are already gone. *)
Definition settled (c : ristretto.Cache) : Prop :=
  Forall (fun op => match op with
                    | ristretto.BDel key => ristretto.items c !! key = None
                    | ristretto.BUpdate _ _ => False
                    | ristretto.BSet _ _ _ => False
                    end) (ristretto.setBuf c).

(** A host that differs from [env] in what creating a bucket answers. *)
Definition with_CreateKeyValue {K} (env : nats.Env K)
    (create : string -> K + lib_error) : nats.Env K :=
  nats.mkEnv K (nats.os_MkdirAll env) (nats.os_Create env)
             (nats.url_Parse env) (nats.server_NewServer env)
             (nats.probes env) (nats.ClientURL env)
             (nats.time_ParseDuration env) (nats.nats_Connect env)
             (nats.jetstream_New env) create (nats.js_KeyValue env).

(** A host that differs from [env] in what [nats.Connect] answers. *)
Definition with_Connect {K} (env : nats.Env K)
    (connect : string -> option lib_error) : nats.Env K :=
  nats.mkEnv K (nats.os_MkdirAll env) (nats.os_Create env)
             (nats.url_Parse env) (nats.server_NewServer env)
             (nats.probes env) (nats.ClientURL env)
             (nats.time_ParseDuration env) connect
             (nats.jetstream_New env) (nats.js_CreateKeyValue env)
             (nats.js_KeyValue env).

(** The URL [NewKVStore] hands to [nats.Connect] ([serverURL]). *)
Definition dialed (c : nats.KVConfig) : string :=
  if String.eqb (nats.ServerURL c) EmptyString then
    if String.eqb (nats.NodeType c) "leaf" && nats.nonempty (nats.CenterURL c)
    then nats.CenterURL c else nats.DefaultURL
  else nats.ServerURL c.

End spec.

(* ===================================================================== *)
(** ** Fixtures: a bucket, a codec and a policy to run the code on *)
(* ===================================================================== *)

Module fixtures.

Definition ErrKeyNotFound : lib_error := LibErr "nats: key not found" true.
Definition ErrTimeout : lib_error := LibErr "nats: timeout" false.
Definition SyntaxError : lib_error :=
  LibErr "invalid character 'b' looking for beginning of object key string"
         false.
Definition UnsupportedValue : lib_error :=
  LibErr "json: unsupported value" false.

(** A bucket held in memory.  During an [outage] every operation fails
    with the given error. *)
Record Bucket : Type := mkBucket {
  entries : gmap string bytes;
  outage : option lib_error
}.

#[global] Instance Bucket_KeyValue : jetstream.KeyValue Bucket := {
  jetstream.Get := fun _ key b =>
    match outage b with
    | Some err => (jetstream.GetErr err, b)
    | None =>
        match entries b !! key with
        | Some data => (jetstream.GetEntry (Some data), b)
        | None => (jetstream.GetErr ErrKeyNotFound, b)
        end
    end;
  jetstream.Put := fun _ key data b =>
    match outage b with
    | Some err => (Some err, b)
    | None => (None, mkBucket (<[key := data]> (entries b)) None)
    end;
  jetstream.Delete := fun _ key b =>
    match outage b with
    | Some err => (Some err, b)
    | None => (None, mkBucket (delete key (entries b)) None)
    end
}.

(** A codec that knows the documents of a table and nothing else. *)
Fixpoint decode (docs : list (bytes * Presence)) (data : bytes)
  : Presence + lib_error :=
  match docs with
  | [] => inr SyntaxError
  | (d, p) :: rest => if String.eqb d data then inl p else decode rest data
  end.

Fixpoint encode (docs : list (bytes * Presence)) (p : Presence)
  : bytes + lib_error :=
  match docs with
  | [] => inr UnsupportedValue
  | (d, q) :: rest => if decide (p = q) then inl d else encode rest p
  end.

Definition tableJSON (docs : list (bytes * Presence)) : JSON :=
  {| Marshal := encode docs; Unmarshal := decode docs |}.

Definition alice : Presence :=
  mkPresence "u1" models.StatusOnline "Working" 10 10 "n1" 0.
Definition bob : Presence :=
  mkPresence "u2" models.StatusAway EmptyString 20 20 "n1" 0.

(** What a client sends for [u1], and what the service makes of it when
    the clock shows 1000 and the node is [node-1]. *)
Definition request : Presence :=
  mkPresence "u1" models.StatusOnline "Working" 1 2 "client-supplied" 0.
Definition stamped : Presence :=
  mkPresence "u1" models.StatusOnline "Working" 1000 1000 "node-1" 0.

Definition docs : list (bytes * Presence) :=
  [("{alice}"%string, alice); ("{bob}"%string, bob);
   ("{}"%string, models.zero); ("{stamped}"%string, stamped)].

Definition json : JSON := tableJSON docs.

(** The store of the batch example: exactly [u1] and [u2]. *)
Definition twoUsers : Bucket :=
  mkBucket (<["user.u1"%string := "{alice}"%string]>
              (<["user.u2"%string := "{bob}"%string]> ∅)) None.

(** A bucket with an undecodable value under [u1], a decodable but
    invalid one under [u2], and an empty payload under [u3]. *)
Definition damaged : Bucket :=
  mkBucket (<["user.u1"%string := "{bad json"%string]>
              (<["user.u2"%string := "{}"%string]>
                 (<["user.u3"%string := EmptyString]> ∅))) None.

Definition unreachable : Bucket := mkBucket ∅ (Some ErrTimeout).

Definition cfg : nats.KVConfig :=
  nats.mkKVConfig EmptyString "presence" true EmptyString "leaf"
                  "nats://center:7422" 0 0 EmptyString.

Definition storeOf (b : Bucket) : nats.kvStore Bucket :=
  nats.mkKVStore cfg true true b.

(** The policy that admits every entry and evicts nothing. *)
Definition admitAll : nat -> ristretto.verdict :=
  fun _ => ristretto.Admit [].

(** The policy that drops every entry. *)
Definition rejectAll : nat -> ristretto.verdict :=
  fun _ => ristretto.Reject [].

Definition fullCache : cache.ristrettoCache :=
  cache.mkRistrettoCache (ristretto.NewCache rejectAll)
                         (cache.mkRistrettoConfig 1 1000 64 true).

Definition emptyCache : cache.ristrettoCache :=
  cache.mkRistrettoCache (ristretto.NewCache admitAll)
                         (cache.mkRistrettoConfig 10000 1000 64 true).

(** A cache that holds [u1] while the [Set] of [u2] is still buffered;
    the policy will admit [u2] and evict [u1] for it. *)
Definition pendingCache : cache.ristrettoCache :=
  cache.mkRistrettoCache
    (ristretto.mkCache
       {[ "u1"%string := ristretto.VPresence alice ]}
       [ristretto.BSet "u2" (ristretto.VPresence bob) 100]
       (fun n => match n with
                 | O => ristretto.Admit ["u1"%string]
                 | _ => ristretto.Admit []
                 end)
       0%nat)
    (cache.mkRistrettoConfig 10000 1000 64 true).

(** A host on which every call succeeds but the broker never answers
    ready: the first readiness probe fails after 100ms, ..., the last one
    recorded after 15.2s. *)
Definition slowBroker : nats.Env Bucket :=
  nats.mkEnv Bucket (fun _ => None) (fun _ => None) (fun _ => None)
             (fun _ => None)
             [nats.NotReady (100 * time.Millisecond);
              nats.NotReady (7 * time.Second);
              nats.NotReady (15 * time.Second + 200 * time.Millisecond)]
             "nats://0.0.0.0:4333"
             (fun _ => inr (LibErr "time: invalid duration" false))
             (fun _ => None) None
             (fun _ => inl (mkBucket ∅ None))
             (fun _ => inl (mkBucket ∅ None)).

(** A host on which every call succeeds and the broker answers ready at
    the second probe. *)
Definition healthyHost : nats.Env Bucket :=
  nats.mkEnv Bucket (fun _ => None) (fun _ => None) (fun _ => None)
             (fun _ => None)
             [nats.NotReady (100 * time.Millisecond); nats.Ready]
             "nats://0.0.0.0:4333"
             (fun _ => inr (LibErr "time: invalid duration" false))
             (fun _ => None) None
             (fun _ => inl (mkBucket ∅ None))
             (fun _ => inl (mkBucket ∅ None)).

(** [nats.Connect] with the option to retry a failed connect, as
    [NewKVStore] calls it: it returns a connection for every URL it can
    parse, whether or not a server answers there, and an error for a URL
    it cannot parse. *)
Definition retryingConnect (url : string) : option lib_error :=
  if String.eqb url "nats://[::1"
  then Some (LibErr "missing ']' in host" false)
  else None.

(** An embedded center, and a leaf that names no center. *)
Definition centerCfg : nats.KVConfig :=
  nats.mkKVConfig EmptyString "presence" true EmptyString "center"
                  EmptyString 7422 6222 EmptyString.

Definition orphanLeafCfg : nats.KVConfig :=
  nats.mkKVConfig "nats://127.0.0.1:1" "b1" false EmptyString "leaf"
                  EmptyString 0 0 EmptyString.

(** The store of the service's own test for a failing batch read
    ([fakeStore2]): every method succeeds with zero values, except
    [GetMultiple], which fails with "boom". *)
Inductive fakeStore2 : Type := FakeStore2.

#[global] Instance fakeStore2_KVStore : nats.KVStore fakeStore2 := {
  nats.Get := fun _ _ _ s => ((models.zero, None), s);
  nats.Set_ := fun _ _ _ _ _ s => (None, s);
  nats.Delete := fun _ _ _ s => (None, s);
  nats.GetMultiple := fun _ _ _ s => ((∅, Some (ErrorsNew "boom")), s)
}.

(** A store whose [Close] fails. *)
#[global] Instance fakeStore2_Closer : nats.Closer fakeStore2 := {
  nats.Close := fun s => (Some (ErrorsNew "close failed"), s)
}.

(** A runtime whose clock shows 1000, 1001, ... and whose [range]
    visits a map in the order of [map_to_list]. *)
Definition runtime : service.Runtime :=
  service.mkRuntime (fun n => 1000 + Z.of_nat n) map_to_list
                    (fun m => reflexivity (map_to_list m)).

Definition svc : service.PresenceService :=
  service.mkPresenceService "node-1".

Definition worldOf {C S} (c : C) (s : S) : service.world C S :=
  service.mkWorld c s 0%nat [].

(** [strings.TrimSpace] on text whose white space is ASCII. *)
Definition isSpace (c : ascii) : bool :=
  existsb (Ascii.eqb c)
          [ascii_of_nat 9; ascii_of_nat 10; ascii_of_nat 11;
           ascii_of_nat 12; ascii_of_nat 13; ascii_of_nat 32].

Fixpoint trimLeft (s : string) : string :=
  match s with
  | String c rest => if isSpace c then trimLeft rest else s
  | EmptyString => EmptyString
  end.

Fixpoint trimRight (s : string) : string :=
  match s with
  | EmptyString => EmptyString
  | String c rest =>
      match trimRight rest with
      | EmptyString =>
          if isSpace c then EmptyString else String c EmptyString
      | rest => String c rest
      end
  end.

Definition asciiStrings : Strings := {|
  TrimSpace := fun s => trimRight (trimLeft s)
|}.

(** The body of a PUT request, and a decoder that knows it. *)
Definition quote : string := String (ascii_of_nat 34) EmptyString.

Definition putBody : bytes :=
  ("{" ++ quote ++ "status" ++ quote ++ ":" ++ quote ++ "online" ++ quote
   ++ "," ++ quote ++ "message" ++ quote ++ ":" ++ quote ++ "Working"
   ++ quote ++ "}")%string.

Definition decoder : handlers.Decoder := {|
  handlers.DecodeSetPresenceRequest := fun body =>
    if String.eqb body putBody
    then inl (handlers.mkSetPresenceRequest models.StatusOnline "Working" 0)
    else inr SyntaxError;
  handlers.DecodeBatchPresenceRequest := fun _ => inr SyntaxError
|}.

Definition putRequest : http.Request :=
  http.mkRequest "PUT" ∅ ∅ {[ "user_id"%string := "u1"%string ]} putBody
                 context.Background.

(** The service over an empty cache and an empty bucket. *)
Definition served
  : handlers.Served cache.ristrettoCache (nats.kvStore Bucket) :=
  handlers.mkServed runtime svc
                    (worldOf emptyCache (storeOf (mkBucket ∅ None))).

(** An environment that only turns credentials on, a request from
    another origin, and a handler that answers 200 with no body. *)
Definition credentialsOnly : os.Environ :=
  {[ "CORS_ALLOW_CREDENTIALS"%string := "true"%string ]}.

Definition crossOrigin : http.Request :=
  http.mkRequest "GET" {[ "Origin"%string := "https://app.example"%string ]}
                 ∅ ∅ EmptyString context.Background.

Definition ok : handlers.Handler unit :=
  fun w _ h => (http.WriteHeader w http.StatusOK, h).

End fixtures.

(* ===================================================================== *)
(** ** Tactics to run the monadic code *)
(* ===================================================================== *)

(** Unfolds a service method down to the calls on its collaborators. *)
Ltac run_service :=
  cbv beta delta
    [service.GetPresence service.GetPresence_store service.SetPresence
     service.IsExpired service.cache_Get service.cache_Set
     service.cache_Delete service.store_Get service.store_Set
     service.store_GetMultiple service.bind service.ret service.Now
     service.record service.on_cache service.on_store];
  cbn [service.w_cache service.w_store service.ticks service.calls].

(** Brings worlds to a normal form: counters as successors, the call
    log as one list appended to the initial one. *)
Ltac norm_world :=
  cbn [Nat.add service.w_cache service.w_store service.ticks service.calls]
    in *;
  rewrite <- ?app_assoc; cbn [app].

(** Closes the goal with [H] once both are in normal form. *)
Ltac conclude H :=
  cbn [Nat.add service.w_cache service.w_store service.ticks service.calls]
    in H;
  rewrite <- ?app_assoc in H; cbn [app] in H;
  rewrite <- ?app_assoc; cbn [app]; exact H.

(** Case analysis on every [match] of the goal. *)
Ltac split_matches :=
  repeat match goal with
         | |- context [match ?x with _ => _ end] => destruct x eqn:?
         end.

(* ===================================================================== *)
(** * Properties *)
(* ===================================================================== *)

(** ** Validation of a record *)

Lemma IsValid_In (ps : models.PresenceStatus) :
  models.IsValid ps = true <->
  In ps [models.StatusOnline; models.StatusAway; models.StatusBusy;
         models.StatusOffline].
Proof.
  unfold models.IsValid. simpl.
  destruct (String.eqb_spec ps models.StatusOnline) as [->|Ho]; [tauto|].
  destruct (String.eqb_spec ps models.StatusAway) as [->|Ha]; [tauto|].
  destruct (String.eqb_spec ps models.StatusBusy) as [->|Hb]; [tauto|].
  destruct (String.eqb_spec ps models.StatusOffline) as [->|Hf]; [tauto|].
  split; [discriminate|].
  intros [E|[E|[E|[E|[]]]]]; congruence.
Qed.

Lemma Validate_None (p : Presence) :
  models.Validate p = None <->
  UserID p <> EmptyString /\ models.IsValid (Status p) = true
  /\ NodeID p <> EmptyString.
Proof.
  unfold models.Validate.
  destruct (String.eqb_spec (UserID p) EmptyString) as [Eu|Nu].
  { split; [discriminate|]. intros (H & _); contradiction. }
  destruct (models.IsValid (Status p)); simpl.
  2:{ split; [discriminate|]. intros (_ & H & _); discriminate. }
  destruct (String.eqb_spec (NodeID p) EmptyString) as [En|Nn].
  { split; [discriminate|]. intros (_ & _ & H); contradiction. }
  tauto.
Qed.

(** C9. [Validate] fails on a record whose UserID is empty, whose NodeID
    is empty, or whose Status is none of online, away, busy, offline; it
    succeeds on every record that meets the three constraints; and its
    result does not depend on Message, LastSeen, UpdatedAt or TTL. *)
Theorem Validate_three_constraints (p : Presence) :
  (UserID p = EmptyString \/ NodeID p = EmptyString
   \/ ~ In (Status p) [models.StatusOnline; models.StatusAway;
                       models.StatusBusy; models.StatusOffline]
   -> models.Validate p <> None)
  /\ (UserID p <> EmptyString -> NodeID p <> EmptyString
      -> In (Status p) [models.StatusOnline; models.StatusAway;
                        models.StatusBusy; models.StatusOffline]
      -> models.Validate p = None)
  /\ (forall message lastSeen updatedAt ttl,
        models.Validate
          (mkPresence (UserID p) (Status p) message lastSeen updatedAt
                      (NodeID p) ttl)
        = models.Validate p).
Proof.
  split; [|split].
  - intros H V. apply Validate_None in V as (Hu & Hs & Hn).
    apply IsValid_In in Hs. tauto.
  - intros Hu Hn Hs. apply Validate_None. rewrite IsValid_In. tauto.
  - intros. reflexivity.
Qed.

Lemma Validate_three_constraints_witness :
  models.Validate fixtures.alice = None
  /\ models.Validate models.zero <> None.
Proof.
  split.
  - destruct (Validate_three_constraints fixtures.alice) as (_ & H & _).
    apply H; [discriminate | discriminate | simpl; tauto].
  - destruct (Validate_three_constraints models.zero) as (H & _).
    apply H. left. reflexivity.
Defined.

(** ** The durable store's reads *)

Section StoreReads.
Context `{codec : JSON} {K : Type} `{bucket : jetstream.KeyValue K}.

Lemma len_zero (v : bytes) : (len v =? 0) = true <-> v = EmptyString.
Proof.
  unfold len. destruct v as [|a v].
  - split; reflexivity.
  - split; [|discriminate].
    intros H. apply Z.eqb_eq in H. simpl String.length in H. lia.
Qed.

(** Every result of [Get] is a valid record without an error, or the
    zero record with an error. *)
Lemma kvStore_Get_cases ctx userID (s : nats.kvStore K) :
  (exists p, fst (nats.kvStore_Get ctx userID s) = (p, None)
             /\ models.Validate p = None)
  \/ (exists e, fst (nats.kvStore_Get ctx userID s) = (models.zero, Some e)).
Proof.
  unfold nats.kvStore_Get.
  destruct (jetstream.Get ctx (nats.presenceKey userID) (nats.kv s))
    as [r k].
  destruct r as [err|[value|]]; simpl.
  - destruct (_ || _); simpl; right; eauto.
  - destruct (len value =? 0); [right; eauto|].
    destruct (Unmarshal value) as [p|e]; [|right; eauto].
    destruct (models.Validate p) eqn:V; [right; eauto|left; eauto].
  - right; eauto.
Qed.

End StoreReads.

Section StoreAbsence.
Context `{codec : JSON} {K : Type} `{bucket : jetstream.KeyValue K}.

(** C3 (amended). Whatever the bucket answers for the key of [userID]:
    an explicit not-found from the KV layer, a nil entry or an entry with
    an empty payload, and a payload that decodes to a record failing
    validation all make [Get] return the one "presence not found" error
    with the zero record; a non-empty payload that does not decode makes
    [Get] return the zero record with a different error, which wraps the
    decoder's error. *)
Theorem kvStore_Get_absent_signals ctx userID (s : nats.kvStore K) r k :
  jetstream.Get ctx (nats.presenceKey userID) (nats.kv s) = (r, k) ->
  (forall err,
      r = jetstream.GetErr err ->
      lib_is_ErrKeyNotFound err = true
      \/ Contains (lib_msg err) "not found" = true
      \/ Contains (lib_msg err) "no message found" = true ->
      fst (nats.kvStore_Get ctx userID s)
      = (models.zero, Some (nats.notFound userID)))
  /\ (r = jetstream.GetEntry None \/ r = jetstream.GetEntry (Some EmptyString)
      -> fst (nats.kvStore_Get ctx userID s)
         = (models.zero, Some (nats.notFound userID)))
  /\ (forall value p,
        r = jetstream.GetEntry (Some value) ->
        Unmarshal value = inl p ->
        models.Validate p <> None ->
        fst (nats.kvStore_Get ctx userID s)
        = (models.zero, Some (nats.notFound userID)))
  /\ (forall value e,
        r = jetstream.GetEntry (Some value) ->
        value <> EmptyString ->
        Unmarshal value = inr e ->
        fst (nats.kvStore_Get ctx userID s)
        = (models.zero,
           Some (Errorw "failed to unmarshal presence: %w" [] (Lib e)))
        /\ Errorw "failed to unmarshal presence: %w" [] (Lib e)
           <> nats.notFound userID).
Proof.
  intros Hget. unfold nats.kvStore_Get. rewrite Hget.
  split; [|split; [|split]].
  - intros err -> H.
    assert (E : lib_is_ErrKeyNotFound err
                || Contains (lib_msg err) "not found"
                || Contains (lib_msg err) "no message found" = true).
    { destruct H as [H|[H|H]]; rewrite H;
        rewrite ?orb_true_r; reflexivity. }
    rewrite E. reflexivity.
  - intros [->| ->]; reflexivity.
  - intros value p -> Hdec Hval.
    destruct (len value =? 0); [reflexivity|].
    rewrite Hdec. destruct (models.Validate p); [reflexivity|congruence].
  - intros value e -> Hne Hdec.
    destruct (len value =? 0) eqn:L.
    + apply len_zero in L. contradiction.
    + rewrite Hdec. split; [reflexivity|discriminate].
Qed.

(** The loop of [GetMultiple] only adds ids of its list, each with a
    record some individual [Get] returned without error. *)
Lemma GetMultiple_loop_lookup ctx userIDs :
  forall (result : gmap string Presence) (s : nats.kvStore K) id p,
    fst (nats.GetMultiple_loop ctx userIDs result s) !! id = Some p ->
    result !! id = Some p
    \/ (id ∈ userIDs
        /\ exists s0, fst (nats.kvStore_Get ctx id s0) = (p, None)).
Proof.
  induction userIDs as [|u rest IH]; intros result s id p; simpl.
  - auto.
  - destruct (nats.kvStore_Get ctx u s) as [[q err] s1] eqn:G.
    destruct err as [e|]; intros H; apply IH in H.
    + destruct H as [H|(Hin & Hs)]; [auto|].
      right. split; [apply list_elem_of_further, Hin|exact Hs].
    + destruct H as [H|(Hin & Hs)].
      * destruct (decide (u = id)) as [->|Hne].
        -- rewrite lookup_insert_eq in H. injection H as ->.
           right. split; [apply list_elem_of_here|].
           exists s. rewrite G. reflexivity.
        -- rewrite lookup_insert_ne in H by exact Hne. auto.
      * right. split; [apply list_elem_of_further, Hin|exact Hs].
Qed.

Lemma kvStore_GetMultiple_err ctx userIDs (s : nats.kvStore K) :
  snd (fst (nats.kvStore_GetMultiple ctx userIDs s)) = None.
Proof.
  unfold nats.kvStore_GetMultiple.
  destruct (nats.GetMultiple_loop ctx userIDs ∅ s). reflexivity.
Qed.

Lemma kvStore_GetMultiple_lookup ctx userIDs (s : nats.kvStore K) id p :
  fst (fst (nats.kvStore_GetMultiple ctx userIDs s)) !! id = Some p ->
  id ∈ userIDs /\ exists s0, fst (nats.kvStore_Get ctx id s0) = (p, None).
Proof.
  unfold nats.kvStore_GetMultiple.
  destruct (nats.GetMultiple_loop ctx userIDs ∅ s) as [m s1] eqn:L.
  simpl. intros H.
  pose proof (GetMultiple_loop_lookup ctx userIDs ∅ s id p) as X.
  rewrite L in X. destruct (X H) as [E|E]; [|exact E].
  rewrite lookup_empty in E. discriminate.
Qed.

Lemma kvStore_GetMultiple_nil ctx (s : nats.kvStore K) :
  nats.kvStore_GetMultiple ctx [] s = ((∅, None), s).
Proof. reflexivity. Qed.

End StoreAbsence.

Lemma kvStore_Get_absent_signals_witness :
  fst (@nats.kvStore_Get fixtures.json _ _ context.Background "u4"
         (fixtures.storeOf fixtures.damaged))
  = (models.zero, Some (nats.notFound "u4"))
  /\ fst (@nats.kvStore_Get fixtures.json _ _ context.Background "u3"
            (fixtures.storeOf fixtures.damaged))
     = (models.zero, Some (nats.notFound "u3"))
  /\ fst (@nats.kvStore_Get fixtures.json _ _ context.Background "u2"
            (fixtures.storeOf fixtures.damaged))
     = (models.zero, Some (nats.notFound "u2"))
  /\ fst (@nats.kvStore_Get fixtures.json _ _ context.Background "u1"
            (fixtures.storeOf fixtures.damaged))
     = (models.zero,
        Some (Errorw "failed to unmarshal presence: %w" []
                     (Lib fixtures.SyntaxError))).
Proof.
  pose (s := fixtures.storeOf fixtures.damaged).
  assert (E4 : jetstream.Get context.Background (nats.presenceKey "u4")
                 (nats.kv s)
               = (jetstream.GetErr fixtures.ErrKeyNotFound, fixtures.damaged))
    by (vm_compute; reflexivity).
  assert (E3 : jetstream.Get context.Background (nats.presenceKey "u3")
                 (nats.kv s)
               = (jetstream.GetEntry (Some EmptyString), fixtures.damaged))
    by (vm_compute; reflexivity).
  assert (E2 : jetstream.Get context.Background (nats.presenceKey "u2")
                 (nats.kv s)
               = (jetstream.GetEntry (Some "{}"%string), fixtures.damaged))
    by (vm_compute; reflexivity).
  assert (E1 : jetstream.Get context.Background (nats.presenceKey "u1")
                 (nats.kv s)
               = (jetstream.GetEntry (Some "{bad json"%string),
                  fixtures.damaged))
    by (vm_compute; reflexivity).
  split; [|split; [|split]].
  - destruct (@kvStore_Get_absent_signals fixtures.json _ _
                context.Background "u4" s _ _ E4) as (H & _).
    apply (H fixtures.ErrKeyNotFound eq_refl). left. reflexivity.
  - destruct (@kvStore_Get_absent_signals fixtures.json _ _
                context.Background "u3" s _ _ E3) as (_ & H & _).
    apply H. right. reflexivity.
  - destruct (@kvStore_Get_absent_signals fixtures.json _ _
                context.Background "u2" s _ _ E2) as (_ & _ & H & _).
    apply (H "{}"%string models.zero eq_refl eq_refl). discriminate.
  - destruct (@kvStore_Get_absent_signals fixtures.json _ _
                context.Background "u1" s _ _ E1) as (_ & _ & _ & H).
    apply (H "{bad json"%string fixtures.SyntaxError eq_refl);
      [discriminate | reflexivity].
Defined.

(** C3 (as stated) fails: the bucket holds the undecodable bytes
    "{bad json" under the key of u1, and [Get] returns an error that is
    not the uniform "presence not found" error. *)
Lemma kvStore_Get_corrupt_not_normalised :
  @Unmarshal fixtures.json "{bad json"%string = inr fixtures.SyntaxError
  /\ snd (fst (@nats.kvStore_Get fixtures.json _ _ context.Background "u1"
                 (fixtures.storeOf fixtures.damaged)))
     <> Some (nats.notFound "u1").
Proof. split; [reflexivity|]. vm_compute. discriminate. Qed.

(** ** The orchestrator's single-record read *)

Section ReadPathProofs.
Context {C S : Type} `{mc : cache.MemoryCache C} `{st : nats.KVStore S}.
Variable rt : service.Runtime.
Variable svc : service.PresenceService.

Lemma IsExpired_TTL_zero now p :
  TTL p = 0 -> models.IsExpired now p = false.
Proof. intros E. unfold models.IsExpired. rewrite E. reflexivity. Qed.

Lemma IsExpired_true_TTL now p :
  models.IsExpired now p = true -> (TTL p =? 0) = false.
Proof.
  unfold models.IsExpired. destruct (TTL p =? 0); [discriminate|reflexivity].
Qed.

(** What the store half of [GetPresence] does, from the world [w1] in
    which it starts. *)
Lemma GetPresence_store_run ctx userID (w1 : service.world C S) :
  service.GetPresence_store rt svc ctx userID w1
  = let '((p, err), s) :=
      nats.Get (service.clock rt (service.ticks w1)) ctx userID
               (service.w_store w1) in
    match err with
    | Some _ =>
        ((models.zero, Some (PresenceNotFoundError userID)),
         service.mkWorld (service.w_cache w1) s (1 + service.ticks w1)
                         (service.calls w1 ++ [service.StoreGet userID]))
    | None =>
        ((p, None),
         service.mkWorld
           (cache.Set_ (service.clock rt (1 + service.ticks w1)) userID p
                       (TTL p) (service.w_cache w1))
           s (2 + service.ticks w1)
           (service.calls w1
            ++ [service.StoreGet userID; service.CacheSet userID p (TTL p)]))
    end.
Proof.
  run_service.
  destruct (nats.Get _ ctx userID (service.w_store w1)) as [[p err] s].
  destruct err; cbn [service.w_cache service.w_store service.ticks
                     service.calls].
  - reflexivity.
  - rewrite <- app_assoc. reflexivity.
Qed.

(** C1. [GetPresence] consults the cache first.  A hit whose record is
    not expired is returned, the store is neither called nor changed.  A
    hit whose record is expired is deleted from the cache and the read
    falls through, as does a miss.  The store is then asked: a record it
    returns is written to the cache and returned; an error from it gives
    the [PresenceNotFoundError] of the user.  The code does this and
    nothing else: its result and final world are exactly those the
    description [spec.GetPresence_spec] allows. *)
Theorem GetPresence_cache_aside ctx userID (w : service.world C S) r w' :
  service.GetPresence rt svc ctx userID w = (r, w')
  <-> spec.GetPresence_spec rt ctx userID w r w'.
Proof.
  unfold service.GetPresence.
  cbv beta delta [service.bind service.cache_Get service.record
                  service.Now service.on_cache service.IsExpired
                  service.ret service.cache_Delete].
  split.
  - norm_world.
    destruct (cache.Get _ userID (service.w_cache w))
      as [[p found] c] eqn:G.
    destruct found.
    + destruct (TTL p =? 0) eqn:T.
      * intros [= <- <-]. apply Z.eqb_eq in T.
        pose proof (spec.hit_not_expired rt ctx userID w p c G
                      (IsExpired_TTL_zero _ p T)) as X.
        unfold spec.readings in X.
        rewrite (proj2 (Z.eqb_eq _ _) T) in X. exact X.
      * norm_world.
        destruct (models.IsExpired _ p) eqn:E; cbn [negb].
        -- norm_world. rewrite GetPresence_store_run. norm_world.
           pose proof (spec.cache_expired rt userID w p c G E) as F.
           destruct (nats.Get _ ctx userID (service.w_store w))
             as [[q err] s] eqn:SG.
           destruct err as [e|]; intros [= <- <-].
           ++ pose proof (spec.store_miss rt ctx userID w _ q e s F SG) as X.
              conclude X.
           ++ pose proof (spec.store_hit rt ctx userID w _ q s F SG) as X.
              conclude X.
        -- intros [= <- <-].
           pose proof (spec.hit_not_expired rt ctx userID w p c G E) as X.
           unfold spec.readings in X. rewrite T in X. exact X.
    + rewrite GetPresence_store_run. norm_world.
      pose proof (spec.cache_miss rt userID w p c G) as F.
      destruct (nats.Get _ ctx userID (service.w_store w))
        as [[q err] s] eqn:SG.
      destruct err as [e|]; intros [= <- <-].
      * pose proof (spec.store_miss rt ctx userID w _ q e s F SG) as X.
        conclude X.
      * pose proof (spec.store_hit rt ctx userID w _ q s F SG) as X.
        conclude X.
  - intros H.
    destruct H as [p c G E | w1 p s F SG | w1 p e s F SG].
    + norm_world. rewrite G. unfold spec.readings.
      destruct (TTL p =? 0) eqn:T; [reflexivity|].
      norm_world. rewrite E. reflexivity.
    + destruct F as [p0 c G | p0 c G E]; norm_world; rewrite G.
      * rewrite GetPresence_store_run. norm_world.
        rewrite SG. norm_world. reflexivity.
      * rewrite (IsExpired_true_TTL _ _ E). norm_world.
        rewrite E. cbn [negb]. norm_world.
        rewrite GetPresence_store_run. norm_world.
        rewrite SG. norm_world. reflexivity.
    + destruct F as [p0 c G | p0 c G E]; norm_world; rewrite G.
      * rewrite GetPresence_store_run. norm_world.
        rewrite SG. norm_world. reflexivity.
      * rewrite (IsExpired_true_TTL _ _ E). norm_world.
        rewrite E. cbn [negb]. norm_world.
        rewrite GetPresence_store_run. norm_world.
        rewrite SG. norm_world. reflexivity.
Qed.

End ReadPathProofs.

(** Whatever makes the store's [Get] fail, [GetPresence] reports the
    [PresenceNotFoundError] of the user. *)
Lemma GetPresence_error_kind {C S : Type} `{mc : cache.MemoryCache C}
    `{st : nats.KVStore S} rt svc ctx userID (w : service.world C S) e :
  snd (fst (service.GetPresence rt svc ctx userID w)) = Some e ->
  e = PresenceNotFoundError userID.
Proof.
  assert (St : forall w1 : service.world C S,
             snd (fst (service.GetPresence_store rt svc ctx userID w1))
             = Some e -> e = PresenceNotFoundError userID).
  { intros w1. rewrite GetPresence_store_run.
    destruct (nats.Get _ ctx userID (service.w_store w1)) as [[p err] s].
    destruct err; cbn; congruence. }
  unfold service.GetPresence.
  cbv beta delta [service.bind service.cache_Get service.record
                  service.Now service.on_cache service.IsExpired
                  service.ret service.cache_Delete].
  norm_world.
  destruct (cache.Get _ userID (service.w_cache w)) as [[p found] c].
  destruct found; [|apply St].
  destruct (TTL p =? 0); [cbn; discriminate|].
  norm_world. destruct (models.IsExpired _ p); cbn [negb].
  - norm_world. apply St.
  - cbn. discriminate.
Qed.

(** C2 (the code departs from it). Every error [GetPresence] returns is
    a [PresenceNotFoundError], whatever the store reported.  So with an
    unreachable bucket, where the KV layer answers "nats: timeout" and the
    store's [Get] reports a wrapped dependency error rather than
    "presence not found", [GetPresence] still returns the
    [PresenceNotFoundError] of u1, the error it returns when the bucket
    is reachable and holds no record for u1. *)
Theorem GetPresence_outage_reported_not_found :
  (forall (C S : Type) (mc : cache.MemoryCache C) (st : nats.KVStore S)
          rt svc ctx userID (w : service.world C S) e,
      snd (fst (service.GetPresence rt svc ctx userID w)) = Some e ->
      is_PresenceNotFoundError e = true)
  /\ fst (@nats.kvStore_Get fixtures.json _ _ context.Background "u1"
         (fixtures.storeOf fixtures.unreachable))
  = (models.zero,
     Some (Errorw "failed to get presence: %w" [] (Lib fixtures.ErrTimeout)))
  /\ fst (@service.GetPresence _ _
            (@cache.ristrettoCache_MemoryCache fixtures.json)
            (@nats.kvStore_KVStore fixtures.json _ _)
            fixtures.runtime fixtures.svc context.Background "u1"
            (fixtures.worldOf fixtures.emptyCache
               (fixtures.storeOf fixtures.unreachable)))
     = (models.zero, Some (PresenceNotFoundError "u1"))
  /\ fst (@service.GetPresence _ _
            (@cache.ristrettoCache_MemoryCache fixtures.json)
            (@nats.kvStore_KVStore fixtures.json _ _)
            fixtures.runtime fixtures.svc context.Background "u1"
            (fixtures.worldOf fixtures.emptyCache
               (fixtures.storeOf (fixtures.mkBucket ∅ None))))
     = (models.zero, Some (PresenceNotFoundError "u1")).
Proof.
  split.
  - intros C S mc st rt svc ctx userID w e H.
    apply GetPresence_error_kind in H. subst e. reflexivity.
  - repeat split; vm_compute; reflexivity.
Qed.

(** ** The orchestrator's write *)

(** C4. [SetPresence] replaces the NodeID of the record by the node
    identifier of the service and both UpdatedAt and LastSeen by the
    reading of the clock it takes first; what the client put in these
    three fields has no influence on the outcome.  Validation runs on the
    stamped record, every write it makes on the store or the cache
    carries the stamped record, and on success both are written, the
    store first.  On the ristretto cache and the KV store: a record sent
    for u1 with NodeID "client-supplied" ends up, in the cache and in the
    bucket alike, with the NodeID of the service and the clock's
    reading. *)
Theorem SetPresence_server_stamps :
  (forall (C S : Type) (mc : cache.MemoryCache C) (st : nats.KVStore S)
          (rt : service.Runtime) (svc : service.PresenceService)
          (ctx : context.Context) (userID : string) (presence : Presence)
          (w : service.world C S),
      let now := service.clock rt (service.ticks w) in
      let stamped :=
        mkPresence (UserID presence) (Status presence) (Message presence)
                   now now (service.nodeID svc) (TTL presence) in
      let run := service.SetPresence rt svc ctx userID presence w in
      (forall nodeID' lastSeen' updatedAt',
          service.SetPresence rt svc ctx userID
            (mkPresence (UserID presence) (Status presence)
                        (Message presence) lastSeen' updatedAt' nodeID'
                        (TTL presence)) w
          = run)
      /\ (forall e, models.Validate stamped = Some e ->
                    fst run = Some (Errorw "invalid presence: %w" [] e))
      /\ (exists made,
            service.calls (snd run) = service.calls w ++ made
            /\ (forall c, In c made ->
                          c = service.StoreSet userID stamped (TTL stamped)
                          \/ c = service.CacheSet userID stamped
                                                  (TTL stamped))
            /\ (fst run = None ->
                made = [service.StoreSet userID stamped (TTL stamped);
                        service.CacheSet userID stamped (TTL stamped)]
                /\ service.w_store (snd run)
                   = snd (nats.Set_ (service.clock rt (1 + service.ticks w))
                                    ctx userID stamped (TTL stamped)
                                    (service.w_store w))
                /\ service.w_cache (snd run)
                   = cache.Set_ (service.clock rt (2 + service.ticks w))
                                userID stamped (TTL stamped)
                                (service.w_cache w))))
  /\ (let run :=
        @service.SetPresence _ _
          (@cache.ristrettoCache_MemoryCache fixtures.json)
          (@nats.kvStore_KVStore fixtures.json _ _)
          fixtures.runtime fixtures.svc context.Background "u1"
          fixtures.request
          (fixtures.worldOf fixtures.emptyCache
             (fixtures.storeOf (fixtures.mkBucket ∅ None))) in
      fst run = None
      /\ NodeID fixtures.request = "client-supplied"%string
      /\ NodeID fixtures.stamped = service.nodeID fixtures.svc
      /\ ristretto.Get "u1" (cache.cache (service.w_cache (snd run)))
         = Some (ristretto.VPresence fixtures.stamped)
      /\ fixtures.entries (nats.kv (service.w_store (snd run)))
         !! nats.presenceKey "u1"
         = Some "{stamped}"%string
      /\ @Unmarshal fixtures.json "{stamped}"%string = inl fixtures.stamped).
Proof.
  split; [|vm_compute; repeat split; reflexivity].
  intros C S mc st rt svc ctx userID presence w now stamped run. subst run.
  split; [|split].
  - intros. reflexivity.
  - intros e V. run_service. unfold service.stamp. fold now. fold stamped.
    rewrite V. reflexivity.
  - run_service. unfold service.stamp. fold now. fold stamped.
    destruct (models.Validate stamped) as [e|] eqn:V.
    + exists []. cbn. rewrite app_nil_r.
      split; [reflexivity|]. split; [intros c []|discriminate].
    + norm_world.
      destruct (nats.Set_ _ ctx userID stamped (TTL stamped)
                          (service.w_store w)) as [err s] eqn:SS.
      destruct err as [e|]; norm_world.
      * exists [service.StoreSet userID stamped (TTL stamped)].
        split; [reflexivity|].
        split; [|discriminate].
        intros c [<-|[]]. left. reflexivity.
      * exists [service.StoreSet userID stamped (TTL stamped);
                service.CacheSet userID stamped (TTL stamped)].
        split; [reflexivity|]. split.
        -- intros c [<-|[<-|[]]]; [left|right]; reflexivity.
        -- intros _. split; [reflexivity|]. split; reflexivity.
Qed.

Section WritePathProofs.
Context {C S : Type} `{mc : cache.MemoryCache C} `{st : nats.KVStore S}.
Variable rt : service.Runtime.
Variable svc : service.PresenceService.

(** C5. When the stamped record fails validation, or the store's [Set]
    returns an error for it, [SetPresence] returns an error, the cache
    object is the one it was before the call, and no method of the cache
    has been called. *)
Theorem SetPresence_failure_keeps_cache ctx userID presence
    (w : service.world C S) :
  let now := service.clock rt (service.ticks w) in
  let stamped :=
    mkPresence (UserID presence) (Status presence) (Message presence)
               now now (service.nodeID svc) (TTL presence) in
  let run := service.SetPresence rt svc ctx userID presence w in
  models.Validate stamped <> None
  \/ fst (nats.Set_ (service.clock rt (1 + service.ticks w)) ctx userID
                    stamped (TTL stamped) (service.w_store w)) <> None ->
  fst run <> None
  /\ service.w_cache (snd run) = service.w_cache w
  /\ exists made,
       service.calls (snd run) = service.calls w ++ made
       /\ Forall (fun c => service.is_cache_call c = false) made.
Proof.
  intros now stamped run H. subst run.
  run_service. unfold service.stamp. fold now. fold stamped.
  destruct (models.Validate stamped) as [e|] eqn:V.
  - cbn. split; [discriminate|]. split; [reflexivity|].
    exists []. rewrite app_nil_r. split; [reflexivity|constructor].
  - destruct H as [H|H]; [congruence|].
    norm_world.
    destruct (nats.Set_ _ ctx userID stamped (TTL stamped)
                        (service.w_store w)) as [err s] eqn:SS.
    destruct err as [e|]; [|simpl in H; congruence].
    norm_world. cbn. split; [discriminate|]. split; [reflexivity|].
    exists [service.StoreSet userID stamped (TTL stamped)].
    split; [reflexivity|]. repeat constructor.
Qed.

End WritePathProofs.

(** ** The orchestrator's batch read *)

Section BatchProofs.
Context {C S : Type} `{mc : cache.MemoryCache C} `{st : nats.KVStore S}.
Variable rt : service.Runtime.

Lemma misses_cons_None u os :
  spec.misses ((u, None) :: os) = u :: spec.misses os.
Proof. reflexivity. Qed.

Lemma misses_cons_Some u p os :
  spec.misses ((u, Some p) :: os) = spec.misses os.
Proof. reflexivity. Qed.

Lemma checkCache_partition userIDs :
  forall result missing (w : service.world C S),
    service.checkCache rt userIDs result missing w
    = let '(outs, w1) := spec.consult_all rt userIDs w in
      ((spec.hits_into result outs, missing ++ spec.misses outs), w1).
Proof.
  induction userIDs as [|u rest IH]; intros result missing w.
  - cbn. rewrite app_nil_r. reflexivity.
  - cbn [service.checkCache spec.consult_all].
    cbv beta delta [service.bind service.ret spec.consult service.cache_Get
                    service.record service.Now service.on_cache
                    service.IsExpired service.cache_Delete].
    norm_world.
    destruct (cache.Get _ u (service.w_cache w)) as [[p found] c].
    destruct found.
    + destruct (TTL p =? 0).
      * cbn [negb]. rewrite IH.
        destruct (spec.consult_all rt rest _) as [outs w1].
        rewrite misses_cons_Some. reflexivity.
      * norm_world. destruct (models.IsExpired _ p); cbn [negb].
        -- norm_world. destruct (models.IsExpired _ p); norm_world.
           ++ rewrite IH. destruct (spec.consult_all rt rest _) as [outs w1].
              rewrite misses_cons_None, <- app_assoc. reflexivity.
           ++ rewrite IH. destruct (spec.consult_all rt rest _) as [outs w1].
              rewrite misses_cons_None, <- app_assoc. reflexivity.
        -- rewrite IH. destruct (spec.consult_all rt rest _) as [outs w1].
           rewrite misses_cons_Some. reflexivity.
    + rewrite IH. destruct (spec.consult_all rt rest _) as [outs w1].
      rewrite misses_cons_None, <- app_assoc. reflexivity.
Qed.


Lemma consult_all_cons u rest (w : service.world C S) :
  spec.consult_all rt (u :: rest) w
  = let '(o, w0) := spec.consult rt u w in
    let '(os, w1) := spec.consult_all rt rest w0 in
    ((u, o) :: os, w1).
Proof. reflexivity. Qed.

Lemma consult_all_keys userIDs :
  forall (w : service.world C S),
    (fst (spec.consult_all rt userIDs w)).*1 = userIDs.
Proof.
  induction userIDs as [|u rest IH]; intros w; [reflexivity|].
  rewrite consult_all_cons.
  destruct (spec.consult rt u w) as [o w0]. specialize (IH w0).
  destruct (spec.consult_all rt rest w0) as [os w1].
  cbn in *. rewrite IH. reflexivity.
Qed.

(** Consulting the cache leaves the store alone and calls the cache
    only. *)
Lemma consult_cache_only u (w : service.world C S) :
  service.w_store (snd (spec.consult rt u w)) = service.w_store w
  /\ exists made,
       service.calls (snd (spec.consult rt u w)) = service.calls w ++ made
       /\ Forall (fun c => service.is_cache_call c = true) made.
Proof.
  cbv beta delta [service.bind service.ret spec.consult service.cache_Get
                  service.record service.Now service.on_cache
                  service.IsExpired service.cache_Delete].
  norm_world.
  destruct (cache.Get _ u (service.w_cache w)) as [[p found] c].
  destruct found; [|split; [reflexivity|]; eexists; split;
                     [reflexivity|repeat constructor]].
  destruct (TTL p =? 0); [split; [reflexivity|]; eexists; split;
                           [reflexivity|repeat constructor]|].
  norm_world.
  destruct (models.IsExpired _ p); norm_world;
    [|split; [reflexivity|]; eexists; split;
       [reflexivity|repeat constructor]].
  destruct (models.IsExpired _ p); norm_world;
    (split; [reflexivity|]; eexists; split;
     [reflexivity|repeat constructor]).
Qed.

Lemma consult_all_cache_only userIDs :
  forall (w : service.world C S),
    service.w_store (snd (spec.consult_all rt userIDs w)) = service.w_store w
    /\ exists made,
         service.calls (snd (spec.consult_all rt userIDs w))
         = service.calls w ++ made
         /\ Forall (fun c => service.is_cache_call c = true) made.
Proof.
  induction userIDs as [|u rest IH]; intros w.
  - split; [reflexivity|]. exists []. rewrite app_nil_r.
    split; [reflexivity|constructor].
  - rewrite consult_all_cons.
    destruct (consult_cache_only u w) as (Hs & made0 & Hc & Hf).
    destruct (spec.consult rt u w) as [o w0]. cbn [snd] in Hs, Hc.
    destruct (IH w0) as (Hs1 & made1 & Hc1 & Hf1).
    destruct (spec.consult_all rt rest w0) as [os w1]. cbn [snd] in *.
    split; [congruence|].
    exists (made0 ++ made1). rewrite Hc1, Hc, app_assoc.
    split; [reflexivity|]. apply Forall_app; split; assumption.
Qed.

Lemma cacheResults_run entries :
  forall result (w : service.world C S),
    fst (service.cacheResults rt entries result w)
    = fold_left (fun m e => <[e.1 := e.2]> m) entries result
    /\ service.calls (snd (service.cacheResults rt entries result w))
       = service.calls w ++ map spec.caching entries
    /\ service.w_store (snd (service.cacheResults rt entries result w))
       = service.w_store w
    /\ service.w_cache (snd (service.cacheResults rt entries result w))
       = spec.cached rt entries (service.ticks w) (service.w_cache w).
Proof.
  induction entries as [|[k p] rest IH]; intros result w.
  - cbn. rewrite app_nil_r. auto.
  - cbn [service.cacheResults].
    cbv beta delta [service.bind service.cache_Set service.record
                    service.Now service.on_cache].
    norm_world.
    match goal with
    | |- context [service.cacheResults rt rest ?r ?w0] =>
        destruct (IH r w0) as (H1 & H2 & H3 & H4)
    end.
    rewrite H1, H2, H3, H4. norm_world. auto.
Qed.

Lemma fold_left_insert_union (l : list (string * Presence)) :
  forall result : gmap string Presence,
    NoDup l.*1 ->
    fold_left (fun m e => <[e.1 := e.2]> m) l result
    = list_to_map l ∪ result.
Proof.
  induction l as [|[k p] rest IH]; intros result Hnd.
  - cbn. rewrite (left_id_L ∅ (∪)). reflexivity.
  - rewrite fmap_cons in Hnd. apply NoDup_cons in Hnd as [Hk Hnd].
    cbn [fold_left fst snd]. rewrite IH by exact Hnd.
    rewrite list_to_map_cons.
    apply map_eq. intros i. rewrite !lookup_union.
    destruct (decide (k = i)) as [->|Hne].
    + rewrite !lookup_insert_eq.
      rewrite (not_elem_of_list_to_map_1 rest i Hk).
      destruct (result !! i); reflexivity.
    + rewrite !lookup_insert_ne by exact Hne. reflexivity.
Qed.

Lemma range_union (m result : gmap string Presence) :
  fold_left (fun r e => <[e.1 := e.2]> r) (service.range rt m) result
  = m ∪ result.
Proof.
  pose proof (service.range_perm rt m) as P.
  assert (Hnd : NoDup (service.range rt m).*1).
  { rewrite P. apply NoDup_fst_map_to_list. }
  rewrite fold_left_insert_union by exact Hnd.
  rewrite (list_to_map_proper _ _ Hnd P), list_to_map_to_list. reflexivity.
Qed.

End BatchProofs.

Lemma hits_into_dom outs :
  forall (result : gmap string Presence) id,
    id ∈ dom (spec.hits_into result outs)
    <-> id ∈ dom result \/ exists p, (id, Some p) ∈ outs.
Proof.
  induction outs as [|[u o] rest IH]; intros result id.
  - cbn. split; [auto|]. intros [H|[p H]]; [exact H|].
    apply elem_of_nil in H. contradiction.
  - unfold spec.hits_into in *. cbn [fold_left fst snd].
    rewrite IH. destruct o as [q|].
    + rewrite dom_insert_L, elem_of_union, elem_of_singleton.
      split.
      * intros [[->|H]|[p H]].
        -- right. exists q. apply list_elem_of_here.
        -- left. exact H.
        -- right. exists p. apply list_elem_of_further, H.
      * intros [H|[p H]]; [left; right; exact H|].
        apply elem_of_cons in H as [E|H].
        -- injection E as -> _. left. left. reflexivity.
        -- right. exists p. exact H.
    + split.
      * intros [H|[p H]]; [left; exact H|].
        right. exists p. apply list_elem_of_further, H.
      * intros [H|[p H]]; [left; exact H|].
        apply elem_of_cons in H as [E|H]; [discriminate|].
        right. exists p. exact H.
Qed.

Section BatchRun.
Context {C S : Type} `{mc : cache.MemoryCache C} `{st : nats.KVStore S}.
Variable rt : service.Runtime.
Variable svc : service.PresenceService.

(** [GetMultiplePresences], one phase after the other. *)
Lemma GetMultiplePresences_run ctx userIDs (w : service.world C S) :
  service.GetMultiplePresences rt svc ctx userIDs w
  = let '(outs, w1) := spec.consult_all rt userIDs w in
    match spec.misses outs with
    | [] => ((spec.hits outs, None), w1)
    | _ :: _ =>
        let '((fetched, err), w2) :=
          service.store_GetMultiple rt ctx (spec.misses outs) w1 in
        match err with
        | Some e =>
            ((∅, Some (Errorw "failed to get presences from store: %w" []
                              e)), w2)
        | None =>
            let '(result, w3) :=
              service.cacheResults rt (service.range rt fetched)
                                   (spec.hits outs) w2 in
            ((result, None), w3)
        end
    end.
Proof.
  unfold service.GetMultiplePresences. unfold service.bind at 1.
  rewrite checkCache_partition.
  destruct (spec.consult_all rt userIDs w) as [outs w1].
  rewrite app_nil_l. fold (spec.hits outs).
  destruct (spec.misses outs) as [|m ms]; [reflexivity|].
  cbn [length Nat.ltb Nat.leb]. unfold service.bind at 1.
  destruct (service.store_GetMultiple rt ctx (m :: ms) w1)
    as [[fetched err] w2].
  destruct err; [reflexivity|]. unfold service.bind, service.ret.
  reflexivity.
Qed.

End BatchRun.

(** C6. [GetMultiplePresences] asks the cache for every id in turn,
    which splits the request into the ids answered by an unexpired cached
    record and the ids missed (this phase calls the cache only).  When
    there are misses they go to the store in one [GetMultiple] call;
    every entry that call returns is passed to the cache's [Set], so
    that the cache afterwards is the one these [Set]s make of the cache
    the first phase left, and the map returned is the union of the
    fetched entries and the cache hits, so its keys are exactly the ids
    found in either tier; the error is nil.  With an empty cache and a
    store holding u1 and u2 only, asking for u1, u2 and u4 returns
    exactly the records of u1 and u2 and a nil error, and the cache then
    holds these two records. *)
Theorem GetMultiplePresences_partition_merge :
  (forall (C K : Type) (codec : JSON) (mc : cache.MemoryCache C)
          (bucket : jetstream.KeyValue K) (rt : service.Runtime)
          (svc : service.PresenceService) (ctx : context.Context)
          (userIDs : list string)
          (w : service.world C (nats.kvStore K)),
      let outs := fst (spec.consult_all rt userIDs w) in
      let w1 := snd (spec.consult_all rt userIDs w) in
      let batch :=
        nats.kvStore_GetMultiple ctx (spec.misses outs)
                                 (service.w_store w1) in
      let fetched := fst (fst batch) in
      let run := service.GetMultiplePresences rt svc ctx userIDs w in
      outs.*1 = userIDs
      /\ service.w_store w1 = service.w_store w
      /\ (exists made,
            service.calls w1 = service.calls w ++ made
            /\ Forall (fun c => service.is_cache_call c = true) made)
      /\ snd (fst run) = None
      /\ fst (fst run) = fetched ∪ spec.hits outs
      /\ (forall id,
             id ∈ dom (fst (fst run))
             <-> (exists p, (id, Some p) ∈ outs) \/ id ∈ dom fetched)
      /\ service.calls (snd run)
         = service.calls w1
           ++ match spec.misses outs with
              | [] => []
              | _ :: _ =>
                  service.StoreGetMultiple (spec.misses outs)
                  :: map spec.caching (service.range rt fetched)
              end
      /\ service.w_store (snd run) = snd batch
      /\ service.w_cache (snd run)
         = match spec.misses outs with
           | [] => service.w_cache w1
           | _ :: _ =>
               spec.cached rt (service.range rt fetched)
                           (Datatypes.S (service.ticks w1))
                           (service.w_cache w1)
           end)
  /\ fst (@service.GetMultiplePresences _ _
            (@cache.ristrettoCache_MemoryCache fixtures.json)
            (@nats.kvStore_KVStore fixtures.json _ _)
            fixtures.runtime fixtures.svc context.Background
            ["u1"; "u2"; "u4"]%string
            (fixtures.worldOf fixtures.emptyCache
               (fixtures.storeOf fixtures.twoUsers)))
     = ({["u1"%string := fixtures.alice; "u2"%string := fixtures.bob]}, None)
  /\ ristretto.items
       (cache.cache
          (service.w_cache
             (snd (@service.GetMultiplePresences _ _
                     (@cache.ristrettoCache_MemoryCache fixtures.json)
                     (@nats.kvStore_KVStore fixtures.json _ _)
                     fixtures.runtime fixtures.svc context.Background
                     ["u1"; "u2"; "u4"]%string
                     (fixtures.worldOf fixtures.emptyCache
                        (fixtures.storeOf fixtures.twoUsers))))))
     = {["u1"%string := ristretto.VPresence fixtures.alice;
         "u2"%string := ristretto.VPresence fixtures.bob]}.
Proof.
  split; [|split; vm_compute; reflexivity].
  intros C K codec mc bucket rt svc ctx userIDs w outs w1 batch fetched run.
  assert (Hdom : forall (m : gmap string Presence) id,
             id ∈ dom (m ∪ spec.hits outs)
             <-> (exists p, (id, Some p) ∈ outs) \/ id ∈ dom m).
  { intros m id. rewrite dom_union_L, elem_of_union.
    unfold spec.hits. rewrite hits_into_dom, dom_empty_L.
    rewrite elem_of_empty. tauto. }
  split; [apply consult_all_keys|].
  split; [apply (consult_all_cache_only rt userIDs w)|].
  split; [apply (consult_all_cache_only rt userIDs w)|].
  subst run. rewrite GetMultiplePresences_run.
  subst fetched batch outs w1.
  destruct (spec.consult_all rt userIDs w) as [outs w1]. cbn [fst snd].
  destruct (spec.misses outs) as [|m ms] eqn:Hm.
  - rewrite kvStore_GetMultiple_nil. cbn [fst snd].
    rewrite (left_id_L ∅ (∪)), app_nil_r.
    split; [reflexivity|]. split; [reflexivity|].
    split; [|split; [|split]; reflexivity].
    intros id. rewrite <- (Hdom ∅ id), (left_id_L ∅ (∪)). reflexivity.
  - cbv beta delta [service.store_GetMultiple service.bind service.record
                    service.Now service.on_store].
    norm_world. cbn [nats.GetMultiple nats.kvStore_KVStore].
    pose proof (kvStore_GetMultiple_err ctx (m :: ms) (service.w_store w1))
      as Herr.
    destruct (nats.kvStore_GetMultiple ctx (m :: ms) (service.w_store w1))
      as [[fetched err] s2].
    cbn [fst snd] in Herr |- *. subst err.
    match goal with
    | |- context [service.cacheResults rt ?l ?r ?w0] =>
        destruct (cacheResults_run rt l r w0) as (H1 & H2 & H3 & H4);
        destruct (service.cacheResults rt l r w0) as [result w3]
    end.
    cbn [fst snd] in *. norm_world.
    rewrite range_union in H1. subst result.
    split; [reflexivity|]. split; [reflexivity|].
    split; [apply Hdom|]. split; [rewrite H2; norm_world; reflexivity|].
    split; [exact H3|exact H4].
Qed.

Lemma SetPresence_failure_keeps_cache_witness :
  fst (@service.SetPresence _ _
         (@cache.ristrettoCache_MemoryCache fixtures.json)
         (@nats.kvStore_KVStore fixtures.json _ _)
         fixtures.runtime fixtures.svc context.Background "u1"
         fixtures.request
         (fixtures.worldOf fixtures.emptyCache
            (fixtures.storeOf fixtures.unreachable))) <> None
  /\ service.w_cache
       (snd (@service.SetPresence _ _
               (@cache.ristrettoCache_MemoryCache fixtures.json)
               (@nats.kvStore_KVStore fixtures.json _ _)
               fixtures.runtime fixtures.svc context.Background "u1"
               fixtures.request
               (fixtures.worldOf fixtures.emptyCache
                  (fixtures.storeOf fixtures.unreachable))))
     = fixtures.emptyCache.
Proof.
  assert (H : fst (@nats.Set_ _ (@nats.kvStore_KVStore fixtures.json _ _)
                     (service.clock fixtures.runtime 1) context.Background
                     "u1" fixtures.stamped 0
                     (fixtures.storeOf fixtures.unreachable)) <> None)
    by (vm_compute; discriminate).
  destruct (@SetPresence_failure_keeps_cache _ _
              (@cache.ristrettoCache_MemoryCache fixtures.json)
              (@nats.kvStore_KVStore fixtures.json _ _)
              fixtures.runtime fixtures.svc context.Background "u1"
              fixtures.request
              (fixtures.worldOf fixtures.emptyCache
                 (fixtures.storeOf fixtures.unreachable))
              (or_intror H)) as (He & Hc & _).
  split; [exact He|exact Hc].
Defined.

(** ** The store's batch read never fails *)

(** The loop of [GetMultiple] on a list extended by one id. *)
Lemma GetMultiple_loop_snoc `{codec : JSON} {K : Type}
    `{bucket : jetstream.KeyValue K} ctx userIDs id :
  forall result (s : nats.kvStore K),
    nats.GetMultiple_loop ctx (userIDs ++ [id]) result s
    = let '(m, s1) := nats.GetMultiple_loop ctx userIDs result s in
      let '((p, err), s2) := nats.kvStore_Get ctx id s1 in
      (match err with
       | None => <[id := p]> m
       | Some _ => m
       end, s2).
Proof.
  induction userIDs as [|u rest IH]; intros result s.
  - cbn. destruct (nats.kvStore_Get ctx id s) as [[p [e|]] s2]; reflexivity.
  - cbn [app nats.GetMultiple_loop].
    destruct (nats.kvStore_Get ctx u s) as [[p [e|]] s1]; apply IH.
Qed.

(** During an outage of the in-memory bucket every [Get] of the store
    fails and leaves the store as it is. *)
Lemma kvStore_Get_outage ctx userID entries err :
  exists e,
    @nats.kvStore_Get fixtures.json _ _ ctx userID
      (fixtures.storeOf (fixtures.mkBucket entries (Some err)))
    = ((models.zero, Some e),
       fixtures.storeOf (fixtures.mkBucket entries (Some err))).
Proof.
  unfold nats.kvStore_Get. cbn.
  destruct (lib_is_ErrKeyNotFound err || Contains (lib_msg err) "not found"
            || Contains (lib_msg err) "no message found");
    eexists; reflexivity.
Qed.

(** C10. The store's [GetMultiple] returns a nil error for every context
    and id list.  It calls [Get] once for each id, in the order of the
    list and each in the state the one before left the store in: an id
    whose [Get] returns a record is entered in the map, an id whose
    [Get] fails -- for whatever reason -- leaves the map as it was, and
    nothing is tried again.  So during an outage of the bucket, whatever
    the error, the answer for any list is the empty map with a nil
    error, the answer an empty bucket gives (shown on u1, u2), although
    the two [Get]s fail differently.  With this store
    [GetMultiplePresences] therefore never returns an error. *)
Theorem kvStore_GetMultiple_never_fails :
  (forall (codec : JSON) (K : Type) (bucket : jetstream.KeyValue K)
          (ctx : context.Context) (userIDs : list string)
          (s : nats.kvStore K),
      snd (fst (nats.kvStore_GetMultiple ctx userIDs s)) = None
      /\ nats.kvStore_GetMultiple ctx [] s = ((∅, None), s)
      /\ (forall id,
             nats.kvStore_GetMultiple ctx (userIDs ++ [id]) s
             = let '((m, _), s1) := nats.kvStore_GetMultiple ctx userIDs s in
               let '((p, err), s2) := nats.kvStore_Get ctx id s1 in
               ((match err with
                 | None => <[id := p]> m
                 | Some _ => m
                 end, None), s2))
      /\ (forall (C : Type) (mc : cache.MemoryCache C) rt svc
                 (w : service.world C (nats.kvStore K)),
             snd (fst (service.GetMultiplePresences rt svc ctx userIDs w))
             = None))
  /\ (forall ctx userIDs entries err,
         @nats.kvStore_GetMultiple fixtures.json _ _ ctx userIDs
           (fixtures.storeOf (fixtures.mkBucket entries (Some err)))
         = ((∅, None),
            fixtures.storeOf (fixtures.mkBucket entries (Some err))))
  /\ fst (@nats.kvStore_GetMultiple fixtures.json _ _ context.Background
            ["u1"; "u2"]%string (fixtures.storeOf fixtures.unreachable))
     = (∅, None)
  /\ fst (@nats.kvStore_GetMultiple fixtures.json _ _ context.Background
            ["u1"; "u2"]%string
            (fixtures.storeOf (fixtures.mkBucket ∅ None)))
     = (∅, None)
  /\ snd (fst (@nats.kvStore_Get fixtures.json _ _ context.Background "u1"
                 (fixtures.storeOf fixtures.unreachable)))
     <> snd (fst (@nats.kvStore_Get fixtures.json _ _ context.Background
                    "u1" (fixtures.storeOf (fixtures.mkBucket ∅ None)))).
Proof.
  split; [|split; [|repeat split; vm_compute; (reflexivity || discriminate)]].
  - intros codec K bucket ctx userIDs s.
    split; [apply kvStore_GetMultiple_err|].
    split; [reflexivity|]. split.
    + intros id. unfold nats.kvStore_GetMultiple.
      rewrite GetMultiple_loop_snoc.
      destruct (nats.GetMultiple_loop ctx userIDs ∅ s) as [m s1].
      destruct (nats.kvStore_Get ctx id s1) as [[p err] s2]. reflexivity.
    + intros C mc rt svc w. rewrite GetMultiplePresences_run.
      destruct (spec.consult_all rt userIDs w) as [outs w1].
      destruct (spec.misses outs) as [|m ms]; [reflexivity|].
      cbv beta delta [service.store_GetMultiple service.bind service.record
                      service.Now service.on_store].
      norm_world. cbn [nats.GetMultiple nats.kvStore_KVStore].
      pose proof (kvStore_GetMultiple_err ctx (m :: ms) (service.w_store w1))
        as Herr.
      destruct (nats.kvStore_GetMultiple ctx (m :: ms) (service.w_store w1))
        as [[fetched err] s2].
      cbn [fst snd] in Herr. subst err.
      destruct (service.cacheResults _ _ _ _). reflexivity.
  - intros ctx userIDs entries err. unfold nats.kvStore_GetMultiple.
    assert (L : forall result,
               @nats.GetMultiple_loop fixtures.json _ _ ctx userIDs result
                 (fixtures.storeOf (fixtures.mkBucket entries (Some err)))
               = (result,
                  fixtures.storeOf (fixtures.mkBucket entries (Some err)))).
    { induction userIDs as [|u rest IH]; intros result; [reflexivity|].
      cbn [nats.GetMultiple_loop].
      destruct (kvStore_Get_outage ctx u entries err) as [e ->].
      apply IH. }
    rewrite L. reflexivity.
Qed.

(** ** The cache: a write followed by a read *)

(** Flushing a settled cache changes neither its entries nor the number
    of verdicts given. *)
Lemma fold_apply_deletions (l : list ristretto.buffered) :
  forall c : ristretto.Cache,
    Forall (fun op => match op with
                      | ristretto.BDel key => ristretto.items c !! key = None
                      | ristretto.BUpdate _ _ => False
                      | ristretto.BSet _ _ _ => False
                      end) l ->
    ristretto.items (fold_left ristretto.apply l c) = ristretto.items c
    /\ ristretto.decided (fold_left ristretto.apply l c)
       = ristretto.decided c
    /\ ristretto.verdicts (fold_left ristretto.apply l c)
       = ristretto.verdicts c.
Proof.
  induction l as [|op rest IH]; intros c H; [cbn; auto|].
  apply Forall_cons in H as [Hop Hrest]. cbn [fold_left].
  destruct op as [k v cost|k cost|k]; [contradiction|contradiction|].
  assert (E : ristretto.items (ristretto.apply c (ristretto.BDel k))
              = ristretto.items c).
  { cbn. apply delete_id. exact Hop. }
  destruct (IH (ristretto.apply c (ristretto.BDel k))) as (Hi & Hd & Hv).
  { rewrite E. exact Hrest. }
  rewrite Hi, Hd, Hv, E. cbn. auto.
Qed.

Lemma flushed_settled (c : ristretto.Cache) :
  spec.settled c ->
  ristretto.items (ristretto.flushed c) = ristretto.items c
  /\ ristretto.decided (ristretto.flushed c) = ristretto.decided c
  /\ ristretto.verdicts (ristretto.flushed c) = ristretto.verdicts c.
Proof. apply fold_apply_deletions. Qed.

Lemma settled_nil (c : ristretto.Cache) :
  ristretto.setBuf c = [] -> spec.settled c.
Proof. unfold spec.settled. intros ->. constructor. Qed.

Lemma apply_buffer_irrelevant op c buf :
  let c' := ristretto.mkCache (ristretto.items c) buf (ristretto.verdicts c)
                              (ristretto.decided c) in
  ristretto.items (ristretto.apply c' op)
  = ristretto.items (ristretto.apply c op)
  /\ ristretto.decided (ristretto.apply c' op)
     = ristretto.decided (ristretto.apply c op)
  /\ ristretto.verdicts (ristretto.apply c' op) = ristretto.verdicts c
  /\ ristretto.verdicts (ristretto.apply c op) = ristretto.verdicts c
  /\ ristretto.setBuf (ristretto.apply c' op) = buf.
Proof.
  destruct op as [k v cost|k cost|k]; cbn.
  - destruct (ristretto.verdicts c (ristretto.decided c)); cbn; auto.
  - auto.
  - auto.
Qed.

Lemma fold_apply_buffer_irrelevant l :
  forall c buf,
    let c' := ristretto.mkCache (ristretto.items c) buf
                (ristretto.verdicts c) (ristretto.decided c) in
    ristretto.items (fold_left ristretto.apply l c')
    = ristretto.items (fold_left ristretto.apply l c)
    /\ ristretto.decided (fold_left ristretto.apply l c')
       = ristretto.decided (fold_left ristretto.apply l c)
    /\ ristretto.verdicts (fold_left ristretto.apply l c')
       = ristretto.verdicts c
    /\ ristretto.verdicts (fold_left ristretto.apply l c)
       = ristretto.verdicts c.
Proof.
  induction l as [|op rest IH]; intros c buf c'; [cbn; auto|].
  cbn [fold_left].
  destruct (apply_buffer_irrelevant op c buf) as (Hi & Hd & Hv' & Hv & Hb).
  fold c' in Hi, Hd, Hv', Hb.
  pose proof (IH (ristretto.apply c op) buf) as J. cbn zeta in J.
  rewrite Hv in J.
  destruct (ristretto.apply c' op) as [i' b' v' d'] eqn:E'.
  cbn [ristretto.items ristretto.decided ristretto.verdicts
       ristretto.setBuf] in Hi, Hd, Hv', Hb.
  subst i' b' v' d'. exact J.
Qed.

(** After [Set_] and [Wait], the value of a key that was not cached is
    what [Get] finds when the policy admits it. *)
Lemma Wait_Set_admitted key v cost (c : ristretto.Cache) victims :
  ristretto.Get key c = None ->
  ristretto.verdicts c (ristretto.decided (ristretto.flushed c))
  = ristretto.Admit victims ->
  ristretto.Get key (ristretto.Wait (ristretto.Set_ key v cost c)) = Some v
  /\ ristretto.setBuf (ristretto.Wait (ristretto.Set_ key v cost c)) = [].
Proof.
  intros Habs H. unfold ristretto.Get in Habs.
  unfold ristretto.Wait, ristretto.Get, ristretto.flushed.
  cbn [ristretto.items ristretto.setBuf]. split; [|reflexivity].
  unfold ristretto.Set_. rewrite Habs. cbn [ristretto.setBuf].
  rewrite fold_left_app. cbn [fold_left].
  destruct (fold_apply_buffer_irrelevant (ristretto.setBuf c) c
              (ristretto.setBuf c ++ [ristretto.BSet key v cost]))
    as (Hi & Hd & Hv' & Hv).
  set (c1 := fold_left ristretto.apply (ristretto.setBuf c) _) in *.
  unfold ristretto.apply. rewrite Hv', Hd.
  unfold ristretto.flushed in H. rewrite H.
  cbn [ristretto.items]. apply lookup_insert_eq.
Qed.

(** On a cache with no pending write, the value of a key that is cached
    is replaced, whatever the policy says. *)
Lemma Wait_Set_present key v cost (c : ristretto.Cache) :
  spec.settled c ->
  ristretto.Get key c <> None ->
  ristretto.items (ristretto.Wait (ristretto.Set_ key v cost c))
  = <[key := v]> (ristretto.items c)
  /\ ristretto.decided (ristretto.Wait (ristretto.Set_ key v cost c))
     = ristretto.decided c
  /\ ristretto.verdicts (ristretto.Wait (ristretto.Set_ key v cost c))
     = ristretto.verdicts c
  /\ ristretto.setBuf (ristretto.Wait (ristretto.Set_ key v cost c)) = [].
Proof.
  intros Hs Hin. unfold ristretto.Get in Hin.
  unfold ristretto.Wait, ristretto.flushed, ristretto.Set_.
  destruct (ristretto.items c !! key) as [x|] eqn:L; [|contradiction].
  cbn [ristretto.items ristretto.setBuf ristretto.decided
       ristretto.verdicts].
  rewrite fold_left_app. cbn [fold_left ristretto.apply].
  match goal with
  | |- context [fold_left ristretto.apply (ristretto.setBuf c) ?c0] =>
      destruct (fold_apply_deletions (ristretto.setBuf c) c0)
        as (Hi & Hd & Hv)
  end.
  - cbn [ristretto.items]. eapply Forall_impl; [exact Hs|].
    intros [k0 v0 cost0|k0 cost0|k0]; [auto|auto|]. cbn. intros H.
    rewrite lookup_insert_ne; [exact H|]. intros ->. congruence.
  - rewrite Hi, Hd, Hv. cbn. auto.
Qed.

(** The time since an instant never exceeds the largest duration. *)
Lemma Since_le_maxDuration now u : time.Since now u <= time.maxDuration.
Proof.
  unfold time.Since, time.Sub, time.minDuration, time.maxDuration.
  destruct (Z.ltb_spec (now - u) (- 2 ^ 63)); [lia|].
  destruct (Z.ltb_spec (2 ^ 63 - 1) (now - u)); lia.
Qed.

(** What [Get] of the library finds under a key after the wrapper's
    [Set], for a new key that is admitted and for a key that was
    cached. *)
Lemma Set_then_found `{codec : JSON} k v ttl (c : cache.ristrettoCache) :
  (ristretto.Get k (cache.cache c) = None
   /\ exists victims,
        ristretto.verdicts (cache.cache c)
          (ristretto.decided (ristretto.flushed (cache.cache c)))
        = ristretto.Admit victims)
  \/ (ristretto.Get k (cache.cache c) <> None
      /\ spec.settled (cache.cache c)) ->
  ristretto.Get k (cache.cache (cache.ristrettoCache_Set k v ttl c))
  = Some (ristretto.VPresence
            (if 0 <? ttl then models.with_TTL v ttl else v)).
Proof.
  intros [(Habs & victims & Hadmit)|(Hin & Hs)];
    unfold cache.ristrettoCache_Set; cbn [cache.cache].
  - apply (Wait_Set_admitted k _ _ _ victims Habs Hadmit).
  - unfold ristretto.Get at 1.
    rewrite (proj1 (Wait_Set_present k _ _ _ Hs Hin)).
    apply lookup_insert_eq.
Qed.

(** C7 (amended). Let [r] be [v] with the argument [ttl] as its TTL when
    [ttl] is positive.  Let [k] be a key that is not cached and whose
    entry the policy admits, or a key that is cached in a cache with no
    pending write.  After [Set(k, v, ttl)], which awaits the flush
    itself, [Get(k)] returns [(r, true)] when [r] is not expired at the
    read, and the zero record with [false] when it is.  Here [r] is
    expired when its TTL is positive and smaller than the time since its
    UpdatedAt, a difference that saturates at the largest duration: a
    record whose TTL is the largest duration is never expired.  [r] has
    the UserID, Status, Message, LastSeen, UpdatedAt and NodeID of [v]. *)
Theorem ristrettoCache_Set_then_Get `{codec : JSON} k v ttl
    (c : cache.ristrettoCache) now :
  let r := if 0 <? ttl then models.with_TTL v ttl else v in
  let expired := (0 <? TTL r) && (TTL r <? time.Since now (UpdatedAt r)) in
  (ristretto.Get k (cache.cache c) = None
   /\ exists victims,
        ristretto.verdicts (cache.cache c)
          (ristretto.decided (ristretto.flushed (cache.cache c)))
        = ristretto.Admit victims)
  \/ (ristretto.Get k (cache.cache c) <> None
      /\ spec.settled (cache.cache c)) ->
  fst (cache.ristrettoCache_Get now k (cache.ristrettoCache_Set k v ttl c))
  = (if expired then (models.zero, false) else (r, true))
  /\ (TTL r = time.maxDuration -> expired = false)
  /\ UserID r = UserID v /\ Status r = Status v /\ Message r = Message v
  /\ LastSeen r = LastSeen v /\ UpdatedAt r = UpdatedAt v
  /\ NodeID r = NodeID v
  /\ TTL r = (if 0 <? ttl then ttl else TTL v).
Proof.
  intros r expired Hk. split; [|split].
  - pose proof (Set_then_found k v ttl c Hk) as Hget. fold r in Hget.
    unfold cache.ristrettoCache_Get. rewrite Hget. fold expired.
    destruct expired; reflexivity.
  - intros Hmax. subst expired. rewrite Hmax.
    pose proof (Since_le_maxDuration now (UpdatedAt r)).
    destruct (Z.ltb_spec time.maxDuration (time.Since now (UpdatedAt r)));
      [lia|]. apply andb_false_r.
  - subst r. destruct (0 <? ttl); cbn; repeat split; reflexivity.
Qed.

Lemma ristrettoCache_Set_then_Get_witness :
  fst (@cache.ristrettoCache_Get 1000 "u1"
         (@cache.ristrettoCache_Set fixtures.json "u1" fixtures.alice
            time.Hour fixtures.emptyCache))
  = (models.with_TTL fixtures.alice time.Hour, true).
Proof.
  refine (proj1 (@ristrettoCache_Set_then_Get fixtures.json "u1"
                   fixtures.alice time.Hour fixtures.emptyCache 1000 _)).
  left. split; [reflexivity|]. exists []. reflexivity.
Defined.

(** C7 (as stated) fails.  With a policy that admits everything, a record
    without TTL set with ttl = 1h comes back with TTL = 1h, so not equal
    in all fields, and a record set with ttl = 1s whose UpdatedAt is 5s
    old when read does not come back at all.  With a policy that admits
    nothing, no record comes back. *)
Lemma ristrettoCache_round_trip_fails :
  fst (@cache.ristrettoCache_Get 1000 "u1"
         (@cache.ristrettoCache_Set fixtures.json "u1" fixtures.alice
            time.Hour fixtures.emptyCache))
  <> (fixtures.alice, true)
  /\ fst (@cache.ristrettoCache_Get (10 + 5 * time.Second) "u1"
            (@cache.ristrettoCache_Set fixtures.json "u1" fixtures.alice
               time.Second fixtures.emptyCache))
     = (models.zero, false)
  /\ fst (@cache.ristrettoCache_Get 1000 "u1"
            (@cache.ristrettoCache_Set fixtures.json "u1" fixtures.alice 0
               fixtures.fullCache))
     = (models.zero, false).
Proof.
  split; [vm_compute; discriminate|].
  split; vm_compute; reflexivity.
Qed.

(** ** Construction: the readiness timeout *)

Section Readiness.
Context {K : Type}.
Variable env : nats.Env K.

(** The loop gives up at the first probe that fails with the timeout
    reached, when every earlier probe failed before it. *)
Lemma waitReady_gives_up timeout nodeType early :
  forall elapsed rest,
    Forall (fun e => e < timeout) early ->
    timeout <= elapsed ->
    nats.waitReady timeout nodeType
      (map nats.NotReady early ++ nats.NotReady elapsed :: rest)
    = Some (Some (Errorf "server failed to start within %v (node type: %s)"
                         [FDuration timeout; FString nodeType]),
            [nats.ServerShutdown]).
Proof.
  induction early as [|e early IH]; intros elapsed rest Hearly Hlate.
  - cbn. destruct (Z.leb_spec timeout elapsed); [reflexivity|lia].
  - apply Forall_cons in Hearly as [He Hearly]. cbn.
    destruct (Z.leb_spec timeout e); [lia|].
    apply IH; assumption.
Qed.

(** C8 (amended). The broker is embedded and has been launched.  If the
    readiness probes fail one after the other and, after one of them, the
    time elapsed has reached the startup timeout (all earlier failures
    having come before it), construction shuts the broker down, returns
    no store, and fails with an error naming the startup timeout and the
    node role.  The timeout is the configured one, or by default 30s for
    the center role and 15s for any other. *)
Theorem NewKVStore_readiness_timeout (c : nats.KVConfig) early elapsed rest :
  nats.Embedded c = true ->
  (nats.nonempty (nats.DataDir c) = true ->
   nats.ensureDirectory env (nats.DataDir c) = None) ->
  nats.url_Parse env (nats.CenterURL c) = None ->
  nats.server_NewServer env (nats.simpleOptsOf c) = None ->
  nats.probes env
  = map nats.NotReady early ++ nats.NotReady elapsed :: rest ->
  Forall (fun e => e < nats.startTimeoutOf env c) early ->
  nats.startTimeoutOf env c <= elapsed ->
  nats.NewKVStore env c
  = Some (None,
          Some (Errorw "failed to start embedded server: %w" []
                  (Errorf "server failed to start within %v (node type: %s)"
                     [FDuration (nats.startTimeoutOf env c);
                      FString (nats.nodeTypeOf c)])),
          [nats.ServerStart; nats.ServerShutdown])
  /\ (nats.nonempty (nats.StartTimeout c) = false ->
      nats.startTimeoutOf env c
      = if String.eqb (nats.nodeTypeOf c) "center" then 30 * time.Second
        else 15 * time.Second).
Proof.
  intros Hemb Hdir Hurl Hnew Hprobes Hearly Hlate. split.
  - unfold nats.NewKVStore. rewrite Hemb.
    unfold nats.startEmbeddedServer.
    assert (D : (if nats.nonempty (nats.DataDir c)
                 then nats.ensureDirectory env (nats.DataDir c)
                 else None) = None).
    { destruct (nats.nonempty (nats.DataDir c)); [auto|reflexivity]. }
    rewrite D.
    assert (U : (if String.eqb (nats.nodeTypeOf c) "center" then None
                 else if String.eqb (nats.nodeTypeOf c) "leaf" then
                        if nats.nonempty (nats.CenterURL c)
                        then nats.url_Parse env (nats.CenterURL c)
                        else None
                      else None) = None).
    { repeat match goal with |- context [if ?b then _ else _] =>
                               destruct b end; auto. }
    rewrite U, Hnew, Hprobes.
    rewrite (waitReady_gives_up _ _ early elapsed rest Hearly Hlate).
    reflexivity.
  - intros Hno. unfold nats.startTimeoutOf. rewrite Hno. reflexivity.
Qed.

End Readiness.

Lemma NewKVStore_readiness_timeout_witness :
  nats.NewKVStore fixtures.slowBroker fixtures.cfg
  = Some (None,
          Some (Errorw "failed to start embedded server: %w" []
                  (Errorf "server failed to start within %v (node type: %s)"
                     [FDuration (15 * time.Second); FString "leaf"])),
          [nats.ServerStart; nats.ServerShutdown]).
Proof.
  refine (proj1 (@NewKVStore_readiness_timeout _ fixtures.slowBroker
                   fixtures.cfg
                   [100 * time.Millisecond; 7 * time.Second]
                   (15 * time.Second + 200 * time.Millisecond) []
                   eq_refl _ eq_refl eq_refl eq_refl _ _)).
  - discriminate.
  - repeat constructor.
  - vm_compute. discriminate.
Defined.

(** C8 (as stated) fails.  The broker is still not ready 15.2s after its
    start and the timeout is 15s: the error names 15s, the timeout, and
    the role; the 15.2s that had elapsed appear nowhere in it. *)
Lemma NewKVStore_error_names_timeout_not_elapsed :
  exists err,
    nats.NewKVStore fixtures.slowBroker fixtures.cfg
    = Some (None, Some err, [nats.ServerStart; nats.ServerShutdown])
    /\ operands err = [FDuration (15 * time.Second); FString "leaf"]
    /\ ~ In (FDuration (15 * time.Second + 200 * time.Millisecond))
            (operands err).
Proof.
  eexists. split; [vm_compute; reflexivity|].
  split; [reflexivity|].
  intros [H|[H|[]]]; discriminate.
Qed.

(* ===================================================================== *)
(** * Further properties *)
(* ===================================================================== *)

(** ** Expiry *)

Lemma Since_bounds now u :
  time.minDuration <= time.Since now u <= time.maxDuration.
Proof.
  unfold time.Since, time.Sub, time.minDuration, time.maxDuration. cbn zeta.
  destruct (Z.ltb_spec (now - u) (- 2 ^ 63)); [lia|].
  destruct (Z.ltb_spec (2 ^ 63 - 1) (now - u)); lia.
Qed.

(** X1. For a record whose TTL fits a 64-bit duration, [IsExpired] holds
    exactly when the TTL is set (not zero), is not the largest duration,
    and less than the time since UpdatedAt; once a record is expired it
    stays expired as the clock advances. *)
Theorem IsExpired_exactly (p : Presence) (now : time.Time) :
  time.minDuration <= TTL p <= time.maxDuration ->
  (models.IsExpired now p = true
   <-> TTL p <> 0 /\ TTL p < time.maxDuration /\ TTL p < now - UpdatedAt p)
  /\ (forall later, now <= later ->
                    models.IsExpired now p = true ->
                    models.IsExpired later p = true).
Proof.
  intros Hr.
  assert (E : forall t,
             models.IsExpired t p = true
             <-> TTL p <> 0 /\ TTL p < time.maxDuration
                 /\ TTL p < t - UpdatedAt p).
  { intros t. unfold models.IsExpired.
    destruct (Z.eqb_spec (TTL p) 0) as [Z0|NZ].
    { split; [discriminate|]. intros (H & _); contradiction. }
    rewrite Z.ltb_lt.
    unfold time.Since, time.Sub, time.minDuration, time.maxDuration in *.
    cbn zeta.
    destruct (Z.ltb_spec (t - UpdatedAt p) (- 2 ^ 63)); [lia|].
    destruct (Z.ltb_spec (2 ^ 63 - 1) (t - UpdatedAt p)); lia. }
  split; [apply E|].
  intros later Hl H. apply E. apply E in H. lia.
Qed.

Lemma IsExpired_exactly_witness :
  models.IsExpired (20 + 2 * time.Hour) (models.with_TTL fixtures.bob time.Hour)
  = true.
Proof.
  apply (proj1 (IsExpired_exactly (models.with_TTL fixtures.bob time.Hour)
                  (20 + 2 * time.Hour) ltac:(vm_compute; split; discriminate))).
  vm_compute. repeat split; discriminate || reflexivity.
Defined.

(** ** The cache *)

Section CacheReads.
Context `{codec : JSON}.

(** X2. The cache's expiry test is [IsExpired] on every record whose TTL
    is not negative; on a record with a negative TTL the cache never
    applies expiry, while [IsExpired] holds as soon as the time since
    UpdatedAt exceeds that negative TTL -- in particular for a record
    updated just now. *)
Theorem cache_expiry_agrees_with_IsExpired (p : Presence) (now : time.Time) :
  (0 <= TTL p ->
   (0 <? TTL p) && (TTL p <? time.Since now (UpdatedAt p))
   = models.IsExpired now p)
  /\ (TTL p < 0 ->
      (0 <? TTL p) && (TTL p <? time.Since now (UpdatedAt p)) = false
      /\ (UpdatedAt p <= now -> models.IsExpired now p = true)).
Proof.
  unfold models.IsExpired. split.
  - intros H. destruct (Z.eqb_spec (TTL p) 0) as [E|N].
    + rewrite E. reflexivity.
    + destruct (Z.ltb_spec 0 (TTL p)); [reflexivity|lia].
  - intros H. split.
    + destruct (Z.ltb_spec 0 (TTL p)); [lia|reflexivity].
    + intros Hu. destruct (Z.eqb_spec (TTL p) 0); [lia|].
      apply Z.ltb_lt.
      unfold time.Since, time.Sub, time.minDuration, time.maxDuration.
      cbn zeta.
      destruct (Z.ltb_spec (now - UpdatedAt p) (- 2 ^ 63)); [lia|].
      destruct (Z.ltb_spec (2 ^ 63 - 1) (now - UpdatedAt p)); lia.
Qed.

(** X3. [Get] never adds to the cache and never touches another key.  A
    hit returns the stored record, leaves the cache as it is, and the
    record is not past a positive TTL.  A miss returns the zero record,
    and the key then stays missing at every later read: an entry of the
    wrong type or past its TTL is dropped when found. *)
Theorem ristrettoCache_Get_outcomes now userID (c : cache.ristrettoCache) :
  let r := cache.ristrettoCache_Get now userID c in
  (snd (fst r) = true ->
   snd r = c
   /\ ristretto.Get userID (cache.cache c)
      = Some (ristretto.VPresence (fst (fst r)))
   /\ (0 <? TTL (fst (fst r)))
      && (TTL (fst (fst r)) <? time.Since now (UpdatedAt (fst (fst r))))
      = false)
  /\ (snd (fst r) = false ->
      fst (fst r) = models.zero
      /\ forall later,
           fst (cache.ristrettoCache_Get later userID (snd r))
           = (models.zero, false))
  /\ (forall other,
         other <> userID ->
         ristretto.Get other (cache.cache (snd r))
         = ristretto.Get other (cache.cache c))
  /\ (forall key v,
         ristretto.Get key (cache.cache (snd r)) = Some v ->
         ristretto.Get key (cache.cache c) = Some v).
Proof.
  unfold cache.ristrettoCache_Get, ristretto.Get.
  destruct (ristretto.items (cache.cache c) !! userID) as [[p|n]|] eqn:L.
  - destruct ((0 <? TTL p) && (TTL p <? time.Since now (UpdatedAt p)))
      eqn:X; cbn [fst snd cache.cache ristretto.Del ristretto.items].
    + split; [discriminate|]. split.
      * intros _. split; [reflexivity|]. intros later.
        rewrite lookup_delete_eq. reflexivity.
      * split.
        -- intros other Hne. apply lookup_delete_ne. congruence.
        -- intros key v H. apply lookup_delete_Some in H as [_ H]. exact H.
    + split; [intros _; auto|].
      split; [discriminate|]. auto.
  - cbn [fst snd cache.cache ristretto.Del ristretto.items].
    split; [discriminate|]. split.
    + intros _. split; [reflexivity|]. intros later.
      rewrite lookup_delete_eq. reflexivity.
    + split.
      * intros other Hne. apply lookup_delete_ne. congruence.
      * intros key v H. apply lookup_delete_Some in H as [_ H]. exact H.
  - cbn [fst snd]. split; [discriminate|]. split.
    + intros _. split; [reflexivity|]. intros later. rewrite L. reflexivity.
    + auto.
Qed.

End CacheReads.

(** ** The cache: removal *)

Section CacheWrites.
Context `{codec : JSON}.

Lemma Get_found now k (c : cache.ristrettoCache) p c' :
  cache.ristrettoCache_Get now k c = ((p, true), c') ->
  c' = c /\ ristretto.Get k (cache.cache c) = Some (ristretto.VPresence p).
Proof.
  unfold cache.ristrettoCache_Get, ristretto.Get.
  destruct (ristretto.items (cache.cache c) !! k) as [[q|n]|];
    [|discriminate|discriminate].
  destruct (_ && _); [discriminate|]. intros [= -> ->]. auto.
Qed.

Lemma Get_never_adds now k (c : cache.ristrettoCache) key v :
  ristretto.Get key (cache.cache (snd (cache.ristrettoCache_Get now k c)))
  = Some v ->
  ristretto.Get key (cache.cache c) = Some v.
Proof.
  unfold cache.ristrettoCache_Get, ristretto.Get.
  destruct (ristretto.items (cache.cache c) !! k) as [[q|n]|];
    [destruct (_ && _)| |]; cbn [snd cache.cache ristretto.Del ristretto.items];
    try (intros H; apply lookup_delete_Some in H as [_ H]; exact H); auto.
Qed.

(** A record that cannot expire in the cache survives any [Get]. *)
Lemma Get_keeps_unexpiring now k (c : cache.ristrettoCache) key p :
  ristretto.Get key (cache.cache c) = Some (ristretto.VPresence p) ->
  TTL p <= 0 ->
  ristretto.Get key (cache.cache (snd (cache.ristrettoCache_Get now k c)))
  = Some (ristretto.VPresence p)
  /\ (k = key ->
      fst (cache.ristrettoCache_Get now k c) = (p, true)).
Proof.
  intros L Hp. unfold cache.ristrettoCache_Get, ristretto.Get in *.
  assert (F : forall x, (0 <? TTL p) && x = false).
  { intros x. destruct (Z.ltb_spec 0 (TTL p)); [lia|reflexivity]. }
  destruct (decide (k = key)) as [->|Hne].
  - rewrite L, F. cbn [snd fst]. split; [exact L|auto].
  - split; [|intros; contradiction].
    destruct (ristretto.items (cache.cache c) !! k) as [[q|n]|];
      [destruct (_ && _)| |];
      cbn [snd cache.cache ristretto.Del ristretto.items];
      rewrite ?lookup_delete_ne by exact Hne; exact L.
Qed.

Lemma flushed_Del_absent key (rc : ristretto.Cache) :
  ristretto.items (ristretto.flushed (ristretto.Del key rc)) !! key = None.
Proof.
  unfold ristretto.flushed, ristretto.Del. cbn [ristretto.setBuf].
  rewrite fold_left_app. cbn [fold_left ristretto.apply ristretto.items].
  apply lookup_delete_eq.
Qed.

(** X4. After [Delete(k)], [Get(k)] misses, whatever the cache held,
    whatever was still buffered and whatever the policy decides; after
    [Clear], [Get] misses on every key. *)
Theorem ristrettoCache_removed_then_missing (c : cache.ristrettoCache) :
  (forall userID now,
      fst (cache.ristrettoCache_Get now userID
             (cache.ristrettoCache_Delete userID c))
      = (models.zero, false))
  /\ (forall userID now,
         fst (cache.ristrettoCache_Get now userID
                (cache.ristrettoCache_Clear c))
         = (models.zero, false))
  /\ (forall userID presence ttl now,
         fst (cache.ristrettoCache_Get now userID
                (cache.ristrettoCache_Delete userID
                   (cache.ristrettoCache_Set userID presence ttl c)))
         = (models.zero, false)).
Proof.
  assert (D : forall userID now c0,
             fst (cache.ristrettoCache_Get now userID
                    (cache.ristrettoCache_Delete userID c0))
             = (models.zero, false)).
  { intros userID now c0.
    unfold cache.ristrettoCache_Get, cache.ristrettoCache_Delete,
      ristretto.Get, ristretto.Wait.
    cbn [cache.cache ristretto.items].
    rewrite flushed_Del_absent. reflexivity. }
  split; [intros; apply D|]. split; [|intros; apply D].
  intros userID now.
  unfold cache.ristrettoCache_Get, cache.ristrettoCache_Clear,
    ristretto.Get, ristretto.Clear.
  cbn [cache.cache ristretto.items]. rewrite lookup_empty. reflexivity.
Qed.

End CacheWrites.

(** ** The cache as a map *)

Section CacheAsMap.
Context `{codec : JSON}.

(** X5. Every method of the wrapper that writes awaits the flush, so
    the wrapper leaves no write pending: a cache with no pending write
    (as it is when created) stays so under [Get], [Set], [Delete] and
    [Clear].  On such a cache [Delete(k)] removes exactly [k].
    [Set(k, v, ttl)] touches no record but that of [k]: a record found
    under another key afterwards was there before, unchanged.  If [k]
    was cached, its record afterwards is [v] (with the TTL argument, if
    positive), whatever the policy says; if it was not, [k] is
    afterwards absent or holds that record. *)
Theorem ristrettoCache_settled_map (c : cache.ristrettoCache) :
  spec.settled (cache.cache c) ->
  (forall now userID,
      spec.settled (cache.cache (snd (cache.ristrettoCache_Get now userID c))))
  /\ (forall userID presence ttl,
         spec.settled (cache.cache (cache.ristrettoCache_Set userID presence
                                                            ttl c)))
  /\ (forall userID,
         spec.settled (cache.cache (cache.ristrettoCache_Delete userID c)))
  /\ spec.settled (cache.cache (cache.ristrettoCache_Clear c))
  /\ (forall userID,
         ristretto.items (cache.cache (cache.ristrettoCache_Delete userID c))
         = delete userID (ristretto.items (cache.cache c)))
  /\ (forall userID presence ttl,
         let r := if 0 <? ttl then models.with_TTL presence ttl
                  else presence in
         let after :=
           cache.cache (cache.ristrettoCache_Set userID presence ttl c) in
         (forall other x,
             other <> userID ->
             ristretto.Get other after = Some x ->
             ristretto.Get other (cache.cache c) = Some x)
         /\ (ristretto.Get userID (cache.cache c) <> None ->
             ristretto.Get userID after = Some (ristretto.VPresence r))
         /\ (ristretto.Get userID after = None
             \/ ristretto.Get userID after = Some (ristretto.VPresence r))).
Proof.
  intros Hs.
  destruct (flushed_settled _ Hs) as (Fi & Fd & Fv).
  split; [|split; [|split; [|split; [|split]]]].
  - intros now userID. unfold cache.ristrettoCache_Get, ristretto.Get.
    assert (D : spec.settled (ristretto.Del userID (cache.cache c))).
    { unfold spec.settled, ristretto.Del.
      cbn [ristretto.setBuf ristretto.items].
      apply Forall_app. split.
      - eapply Forall_impl; [exact Hs|].
        intros [k v cost|k cost|k]; [auto|auto|]. cbn. intros H.
        apply lookup_delete_None. auto.
      - constructor; [|constructor]. apply lookup_delete_eq. }
    destruct (ristretto.items (cache.cache c) !! userID) as [[p|n]|];
      [destruct (_ && _)| |]; cbn [snd cache.cache]; assumption.
  - intros. apply settled_nil. reflexivity.
  - intros. apply settled_nil. reflexivity.
  - apply settled_nil. reflexivity.
  - intros userID.
    unfold cache.ristrettoCache_Delete, ristretto.Wait.
    cbn [cache.cache ristretto.items].
    unfold ristretto.flushed, ristretto.Del. cbn [ristretto.setBuf].
    rewrite fold_left_app. cbn [fold_left ristretto.apply ristretto.items].
    match goal with
    | |- delete _ (ristretto.items (fold_left _ _ ?c0)) = _ =>
        destruct (fold_apply_deletions (ristretto.setBuf (cache.cache c)) c0)
          as (Hi & _)
    end.
    + cbn [ristretto.items]. eapply Forall_impl; [exact Hs|].
      intros [k v cost|k cost|k]; [auto|auto|]. cbn. intros H.
      apply lookup_delete_None. auto.
    + rewrite Hi. cbn [ristretto.items]. apply delete_delete_eq.
  - intros userID presence ttl r after. subst after.
    unfold cache.ristrettoCache_Set. cbn [cache.cache]. fold r.
    destruct (ristretto.items (cache.cache c) !! userID) as [x0|] eqn:L.
    + assert (Hin : ristretto.Get userID (cache.cache c) <> None)
        by (unfold ristretto.Get; congruence).
      destruct (Wait_Set_present userID (ristretto.VPresence r)
                  (cache.estimateCost presence) _ Hs Hin) as (Hi & _).
      unfold ristretto.Get. rewrite Hi.
      split; [|split].
      * intros other x Hne. rewrite lookup_insert_ne by congruence. auto.
      * intros _. apply lookup_insert_eq.
      * right. apply lookup_insert_eq.
    + unfold ristretto.Get, ristretto.Wait, ristretto.flushed,
        ristretto.Set_. rewrite L.
      cbn [ristretto.items ristretto.setBuf].
      rewrite fold_left_app. cbn [fold_left].
      match goal with
      | |- context [fold_left ristretto.apply _ ?c0] =>
          destruct (fold_apply_deletions (ristretto.setBuf (cache.cache c))
                      c0) as (Hi & Hd & Hv); [exact Hs|];
          set (c1 := fold_left ristretto.apply
                       (ristretto.setBuf (cache.cache c)) c0) in *
      end.
      unfold ristretto.apply.
      assert (Ev : forall victims key x,
                 ristretto.evict victims (ristretto.items c1) !! key
                 = Some x ->
                 ristretto.items (cache.cache c) !! key = Some x).
      { intros victims key x. rewrite Hi. cbn [ristretto.items].
        induction victims as [|vk victims IH]; cbn; [auto|].
        intros H. apply lookup_delete_Some in H as [_ H]. auto. }
      destruct (ristretto.verdicts c1 (ristretto.decided c1)) as [vs|vs];
        cbn [ristretto.items].
      * split; [|split].
        -- intros other x _. apply Ev.
        -- intros H. contradiction.
        -- left.
           destruct (ristretto.evict vs (ristretto.items c1) !! userID)
             as [x|] eqn:E; [|reflexivity].
           apply Ev in E. congruence.
      * split; [|split].
        -- intros other x Hne. rewrite lookup_insert_ne by congruence.
           apply Ev.
        -- intros H. contradiction.
        -- right. apply lookup_insert_eq.
Qed.

End CacheAsMap.

Lemma ristrettoCache_settled_map_witness :
  ristretto.items
    (cache.cache (@cache.ristrettoCache_Delete "u1"
                    (@cache.ristrettoCache_Set fixtures.json "u2" fixtures.bob
                       0 fixtures.emptyCache)))
  = delete "u1"%string
      (ristretto.items
         (cache.cache (@cache.ristrettoCache_Set fixtures.json "u2"
                         fixtures.bob 0 fixtures.emptyCache))).
Proof.
  refine (proj1 (proj2 (proj2 (proj2 (proj2
            (@ristrettoCache_settled_map fixtures.json
               (@cache.ristrettoCache_Set fixtures.json "u2" fixtures.bob 0
                  fixtures.emptyCache) _))))) "u1"%string).
  apply settled_nil. reflexivity.
Defined.

(** ** The cache's batch read *)

Section CacheBatch.
Context `{codec : JSON}.

Lemma GetMultiple_loop_sound userIDs :
  forall clock result (c : cache.ristrettoCache) id p,
    fst (cache.ristrettoCache_GetMultiple_loop clock userIDs result c) !! id
    = Some p ->
    result !! id = Some p
    \/ (id ∈ userIDs
        /\ ristretto.Get id (cache.cache c) = Some (ristretto.VPresence p)).
Proof.
  induction userIDs as [|u rest IH]; intros clock result c id p; [cbn; auto|].
  cbn [cache.ristrettoCache_GetMultiple_loop].
  destruct (cache.ristrettoCache_Get (clock 0%nat) u c) as [[q found] c1]
    eqn:G.
  intros H. apply IH in H as [H|(Hin & H)].
  - destruct found; [|auto].
    destruct (decide (u = id)) as [->|Hne].
    + rewrite lookup_insert_eq in H. injection H as ->.
      apply Get_found in G as (_ & G). right.
      split; [apply list_elem_of_here|exact G].
    + rewrite lookup_insert_ne in H by exact Hne. auto.
  - right. split; [apply list_elem_of_further, Hin|].
    pose proof (Get_never_adds (clock 0%nat) u c id (ristretto.VPresence p))
      as N.
    rewrite G in N. apply N. exact H.
Qed.

Lemma GetMultiple_loop_never_adds userIDs :
  forall clock result (c : cache.ristrettoCache) key v,
    ristretto.Get key
      (cache.cache
         (snd (cache.ristrettoCache_GetMultiple_loop clock userIDs result c)))
    = Some v ->
    ristretto.Get key (cache.cache c) = Some v.
Proof.
  induction userIDs as [|u rest IH]; intros clock result c key v; [cbn; auto|].
  cbn [cache.ristrettoCache_GetMultiple_loop].
  destruct (cache.ristrettoCache_Get (clock 0%nat) u c) as [[q found] c1]
    eqn:G.
  intros H. apply IH in H.
  pose proof (Get_never_adds (clock 0%nat) u c key v) as N.
  rewrite G in N. auto.
Qed.

Lemma GetMultiple_loop_complete userIDs :
  forall clock result (c : cache.ristrettoCache) id p,
    ristretto.Get id (cache.cache c) = Some (ristretto.VPresence p) ->
    TTL p <= 0 ->
    (id ∈ userIDs \/ result !! id = Some p) ->
    fst (cache.ristrettoCache_GetMultiple_loop clock userIDs result c) !! id
    = Some p.
Proof.
  induction userIDs as [|u rest IH]; intros clock result c id p L Hp Hin.
  - cbn. destruct Hin as [Hin|H]; [|exact H].
    apply elem_of_nil in Hin. contradiction.
  - cbn [cache.ristrettoCache_GetMultiple_loop].
    destruct (Get_keeps_unexpiring (clock 0%nat) u c id p L Hp) as (K1 & K2).
    destruct (cache.ristrettoCache_Get (clock 0%nat) u c) as [[q found] c1]
      eqn:G.
    cbn [snd fst] in K1, K2. apply IH; [exact K1|exact Hp|].
    destruct (decide (u = id)) as [->|Hne].
    + right. specialize (K2 eq_refl). injection K2 as -> ->.
      apply lookup_insert_eq.
    + destruct Hin as [Hin|H].
      * apply elem_of_cons in Hin as [E|Hin]; [congruence|auto].
      * right. destruct found; [|exact H].
        rewrite lookup_insert_ne by exact Hne. exact H.
Qed.

(** X6. The cache's [GetMultiple] returns, under requested ids only,
    records the cache held for these ids; it returns every requested id
    whose record has no positive TTL; it adds nothing to the cache; and
    on an empty list it returns the empty map and leaves the cache
    alone. *)
Theorem ristrettoCache_GetMultiple_partial clock userIDs
    (c : cache.ristrettoCache) :
  let r := cache.ristrettoCache_GetMultiple clock userIDs c in
  (forall id p,
      fst r !! id = Some p ->
      id ∈ userIDs
      /\ ristretto.Get id (cache.cache c) = Some (ristretto.VPresence p))
  /\ (forall id p,
         id ∈ userIDs ->
         ristretto.Get id (cache.cache c) = Some (ristretto.VPresence p) ->
         TTL p <= 0 ->
         fst r !! id = Some p)
  /\ (forall key v,
         ristretto.Get key (cache.cache (snd r)) = Some v ->
         ristretto.Get key (cache.cache c) = Some v)
  /\ cache.ristrettoCache_GetMultiple clock [] c = (∅, c).
Proof.
  unfold cache.ristrettoCache_GetMultiple. cbn zeta.
  split; [|split; [|split]].
  - intros id p H. apply GetMultiple_loop_sound in H as [H|H]; [|exact H].
    rewrite lookup_empty in H. discriminate.
  - intros id p Hin L Hp. apply GetMultiple_loop_complete; auto.
  - apply GetMultiple_loop_never_adds.
  - reflexivity.
Qed.

End CacheBatch.

(** ** The durable store: keys, writes, deletions *)

(** The key of a user in the bucket is "user." followed by the user
    id, so two users never share a key. *)
Lemma presenceKey_injective (a b : string) :
  (nats.presenceKey a = nats.presenceKey b -> a = b)
  /\ String.prefix "user." (nats.presenceKey a) = true
  /\ String.length (nats.presenceKey a) = (5 + String.length a)%nat.
Proof.
  unfold nats.presenceKey. split; [|split].
  - intros H. cbn in H. injection H as H. exact H.
  - cbn. destruct a; reflexivity.
  - reflexivity.
Qed.

Section StoreWrites.
Context `{codec : JSON} {K : Type} `{bucket : jetstream.KeyValue K}.

(** X7. Whatever the bucket holds, a record the store returns -- from
    [Get] or inside the map of [GetMultiple] -- passes [Validate]; when
    [Get] returns an error the record it returns is the zero record; and
    [GetMultiple] only has keys among the requested ids. *)
Theorem kvStore_returns_valid_records ctx (s : nats.kvStore K) :
  (forall userID,
      let r := fst (nats.kvStore_Get ctx userID s) in
      match snd r with
      | None => models.Validate (fst r) = None
      | Some _ => fst r = models.zero
      end)
  /\ (forall userIDs id p,
         fst (fst (nats.kvStore_GetMultiple ctx userIDs s)) !! id = Some p ->
         id ∈ userIDs /\ models.Validate p = None).
Proof.
  split.
  - intros userID. cbn zeta.
    destruct (kvStore_Get_cases ctx userID s) as [(p & E & V)|(e & E)];
      rewrite E; cbn; auto.
  - intros userIDs id p H.
    apply kvStore_GetMultiple_lookup in H as (Hin & s0 & E).
    split; [exact Hin|].
    destruct (kvStore_Get_cases ctx id s0) as [(q & E' & V)|(e & E')];
      rewrite E' in E; [congruence|discriminate].
Qed.

(** X8. [Set] does not validate and ignores its ttl argument: it
    succeeds whenever the record encodes and the bucket accepts the
    bytes.  Reading the key back from a bucket that returns these bytes
    gives the decoded record if the bytes are not empty and the record
    passes [Validate], and the "presence not found" error otherwise. *)
Theorem kvStore_Set_then_Get ctx userID presence ttl (s : nats.kvStore K)
    data decoded k1 k2 :
  Marshal presence = inl data ->
  Unmarshal data = inl decoded ->
  jetstream.Put ctx (nats.presenceKey userID) data (nats.kv s) = (None, k1) ->
  jetstream.Get ctx (nats.presenceKey userID) k1
  = (jetstream.GetEntry (Some data), k2) ->
  fst (nats.kvStore_Set ctx userID presence ttl s) = None
  /\ (forall ttl',
         nats.kvStore_Set ctx userID presence ttl' s
         = nats.kvStore_Set ctx userID presence ttl s)
  /\ fst (nats.kvStore_Get ctx userID
            (snd (nats.kvStore_Set ctx userID presence ttl s)))
     = match data, models.Validate decoded with
       | String _ _, None => (decoded, None)
       | _, _ => (models.zero, Some (nats.notFound userID))
       end.
Proof.
  intros Hm Hu Hput Hget.
  unfold nats.kvStore_Set. rewrite Hm, Hput. cbn [fst snd].
  split; [reflexivity|]. split; [reflexivity|].
  unfold nats.kvStore_Get. cbn [nats.kv nats.with_kv]. rewrite Hget.
  destruct data as [|a data].
  - reflexivity.
  - assert (L : (len (String a data) =? 0) = false).
    { destruct (len (String a data) =? 0) eqn:L; [|reflexivity].
      apply len_zero in L. discriminate. }
    rewrite L, Hu. destruct (models.Validate decoded); reflexivity.
Qed.

(** X9. [Delete] returns nil exactly when the KV layer deleted the key
    or answered with its key-not-found error.  Its notion of "absent" is
    narrower than that of [Get]: a KV error that is not the key-not-found
    error but whose text contains "not found" makes [Delete] fail, while
    [Get] reports the same error as "presence not found". *)
Theorem kvStore_Delete_absent_is_success ctx userID (s : nats.kvStore K) :
  (fst (nats.kvStore_Delete ctx userID s) = None
   <-> match fst (jetstream.Delete ctx (nats.presenceKey userID) (nats.kv s))
       with
       | None => True
       | Some err => lib_is_ErrKeyNotFound err = true
       end)
  /\ (forall err k,
         lib_is_ErrKeyNotFound err = false ->
         Contains (lib_msg err) "not found" = true ->
         (jetstream.Delete ctx (nats.presenceKey userID) (nats.kv s)
          = (Some err, k) ->
          fst (nats.kvStore_Delete ctx userID s)
          = Some (Errorw "failed to delete presence: %w" [] (Lib err)))
         /\ (jetstream.Get ctx (nats.presenceKey userID) (nats.kv s)
             = (jetstream.GetErr err, k) ->
             fst (nats.kvStore_Get ctx userID s)
             = (models.zero, Some (nats.notFound userID)))).
Proof.
  split.
  - unfold nats.kvStore_Delete.
    destruct (jetstream.Delete ctx (nats.presenceKey userID) (nats.kv s))
      as [[err|] k]; cbn [fst]; [|tauto].
    destruct (lib_is_ErrKeyNotFound err); cbn; split;
      (reflexivity || discriminate).
  - intros err k Hno Hc. split.
    + intros H. unfold nats.kvStore_Delete. rewrite H, Hno. reflexivity.
    + intros H. unfold nats.kvStore_Get. rewrite H, Hno, Hc. reflexivity.
Qed.

End StoreWrites.

Lemma kvStore_Set_then_Get_witness :
  fst (@nats.kvStore_Get fixtures.json _ _ context.Background "u1"
         (snd (@nats.kvStore_Set fixtures.json _ _ context.Background "u1"
                 fixtures.stamped time.Hour
                 (fixtures.storeOf (fixtures.mkBucket ∅ None)))))
  = (fixtures.stamped, None).
Proof.
  assert (P : jetstream.Put context.Background (nats.presenceKey "u1")
                "{stamped}"%string
                (nats.kv (fixtures.storeOf (fixtures.mkBucket ∅ None)))
              = (None,
                 fixtures.mkBucket
                   (<[nats.presenceKey "u1" := "{stamped}"%string]> ∅) None))
    by reflexivity.
  assert (G : jetstream.Get context.Background (nats.presenceKey "u1")
                (fixtures.mkBucket
                   (<[nats.presenceKey "u1" := "{stamped}"%string]> ∅) None)
              = (jetstream.GetEntry (Some "{stamped}"%string),
                 fixtures.mkBucket
                   (<[nats.presenceKey "u1" := "{stamped}"%string]> ∅) None))
    by (vm_compute; reflexivity).
  exact (proj2 (proj2
           (@kvStore_Set_then_Get fixtures.json _ _ context.Background "u1"
              fixtures.stamped time.Hour
              (fixtures.storeOf (fixtures.mkBucket ∅ None))
              "{stamped}"%string fixtures.stamped _ _
              eq_refl eq_refl P G))).
Defined.

(** ** Watch *)

Section WatchProofs.
Context `{codec : JSON}.

(** X10. The goroutine of [Watch] hands the callback one event per entry
    received, in order, each under the entry's key, until the first nil
    entry or the end of the context; it then returns, and nothing that
    arrives later is delivered.  A PUT event carries the decoded record
    whenever the payload decodes (valid or not) and no record otherwise;
    DELETE events and events of any other operation carry no record.
    When the watcher cannot be created, [Watch] fails and no event is
    delivered. *)
Theorem Watch_delivers_until_stopped (entries : list nats.KeyValueEntry)
    (later : list nats.signal) :
  nats.watchLoop (map (fun e => nats.Update (Some e)) entries)
  = (map nats.eventOf entries, false)
  /\ nats.watchLoop
       (map (fun e => nats.Update (Some e)) entries
        ++ nats.Update None :: later)
     = (map nats.eventOf entries, true)
  /\ nats.watchLoop
       (map (fun e => nats.Update (Some e)) entries ++ nats.CtxDone :: later)
     = (map nats.eventOf entries, true)
  /\ (forall e,
         nats.Key (nats.eventOf e) = nats.entry_Key e
         /\ (nats.Presence_ (nats.eventOf e)
             = match nats.entry_Operation e, Unmarshal (nats.entry_Value e)
               with
               | nats.KeyValuePut, inl presence => Some presence
               | _, _ => None
               end)
         /\ (nats.Type_ (nats.eventOf e) = nats.WatchEventDelete
             <-> nats.entry_Operation e = nats.KeyValueDelete))
  /\ (forall err signals,
         nats.kvStore_Watch (Some err) signals
         = (Some (Errorw "failed to create watcher: %w" [] (Lib err)),
            ([], false))).
Proof.
  split; [|split; [|split; [|split]]].
  - induction entries as [|e rest IH]; [reflexivity|].
    cbn [map nats.watchLoop]. rewrite IH. reflexivity.
  - induction entries as [|e rest IH]; [reflexivity|].
    cbn [map app nats.watchLoop]. rewrite IH. reflexivity.
  - induction entries as [|e rest IH]; [reflexivity|].
    cbn [map app nats.watchLoop]. rewrite IH. reflexivity.
  - intros e. unfold nats.eventOf.
    destruct (nats.entry_Operation e); cbn.
    + destruct (Unmarshal (nats.entry_Value e)); repeat split; discriminate.
    + repeat split; auto.
    + repeat split; discriminate.
  - reflexivity.
Qed.

End WatchProofs.

(** ** Construction of the store: outcomes and resources *)

Lemma waitReady_outcomes timeout nodeType ps r :
  nats.waitReady timeout nodeType ps = Some r ->
  r = (None, [])
  \/ r = (Some (Errorf "server failed to start within %v (node type: %s)"
                       [FDuration timeout; FString nodeType]),
          [nats.ServerShutdown]).
Proof.
  induction ps as [|[|elapsed] rest IH]; cbn; [discriminate| |].
  - intros [= <-]. auto.
  - destruct (timeout <=? elapsed); [intros [= <-]; auto|exact IH].
Qed.

Section ConstructionProofs.
Context {K : Type}.
Variable env : nats.Env K.

(** What [startEmbeddedServer] can return. *)
Lemma startEmbeddedServer_outcomes c r :
  nats.startEmbeddedServer env c = Some r ->
  (exists e, r = (Some e, c, false, []))
  \/ (exists e, r = (Some e, c, false,
                     [nats.ServerStart; nats.ServerShutdown]))
  \/ r = (None, nats.with_ServerURL c (nats.ClientURL env), true,
          [nats.ServerStart]).
Proof.
  unfold nats.startEmbeddedServer.
  destruct (if nats.nonempty (nats.DataDir c) then _ else None);
    [intros [= <-]; eauto|].
  match goal with
  | |- context [match ?x with Some _ => _ | None => _ end] =>
      destruct x; [intros [= <-]; eauto|]
  end.
  destruct (nats.server_NewServer env _); [intros [= <-]; eauto|].
  destruct (nats.waitReady _ _ _) as [w|] eqn:W; [|discriminate].
  apply waitReady_outcomes in W as [-> | ->]; intros [= <-]; eauto.
Qed.

End ConstructionProofs.

(** ** Construction: what is returned *)

Section ConstructionOutcomes.
Context {K : Type}.
Variable env : nats.Env K.

(** When [NewKVStore] returns, the store is nil exactly when the error
    is not, and with a nil store a broker that was started has been shut
    down. *)
Lemma NewKVStore_exclusive (c : nats.KVConfig) st err effs :
  nats.NewKVStore env c = Some (st, err, effs) ->
  (st = None <-> err <> None)
  /\ (st = None -> In nats.ServerStart effs -> In nats.ServerShutdown effs).
Proof.
  unfold nats.NewKVStore.
  destruct (nats.Embedded c).
  - destruct (nats.startEmbeddedServer env c) as [r|] eqn:E; [|discriminate].
    apply startEmbeddedServer_outcomes in E
      as [(e & ->)|[(e & ->)| ->]].
    + intros [= <- <- <-]. repeat split; try discriminate; cbn; tauto.
    + intros [= <- <- <-]. repeat split; try discriminate; cbn; tauto.
    + split_matches; intros [= <- <- <-];
        (split; [split; [discriminate || congruence
                        |discriminate || congruence]|]);
        cbn; intuition congruence.
  - split_matches; intros [= <- <- <-];
      (split; [split; [discriminate || congruence
                      |discriminate || congruence]|]);
      cbn; intuition congruence.
Qed.

(** The store [NewKVStore] returns, and what was done to obtain it. *)
Lemma NewKVStore_kept (c : nats.KVConfig) s err effs :
  nats.NewKVStore env c = Some (Some s, err, effs) ->
  effs = (if nats.Embedded c then [nats.ServerStart] else [])
  /\ nats.conn s = true
  /\ nats.server s = nats.Embedded c
  /\ nats.config s
     = (if nats.Embedded c
        then nats.with_ServerURL c (nats.ClientURL env) else c).
Proof.
  unfold nats.NewKVStore.
  destruct (nats.Embedded c).
  - destruct (nats.startEmbeddedServer env c) as [r|] eqn:E; [|discriminate].
    apply startEmbeddedServer_outcomes in E
      as [(e & ->)|[(e & ->)| ->]]; [discriminate|discriminate|].
    split_matches; intros [= <- <- <-]; cbn; auto.
  - split_matches; intros [= <- <- <-]; cbn; auto.
Qed.

(** X11. When [NewKVStore] returns, it returns a store or an error,
    never both and never neither.  With an error, a broker that was
    started has been shut down.  With a store, nothing has been shut
    down or closed, the connection is set, the broker handle is set
    exactly in embedded mode, and the configuration kept is the given
    one, with the broker's client URL as ServerURL in embedded mode. *)
Theorem NewKVStore_store_or_error (c : nats.KVConfig) st err effs :
  nats.NewKVStore env c = Some (st, err, effs) ->
  (st = None <-> err <> None)
  /\ (st = None -> In nats.ServerStart effs -> In nats.ServerShutdown effs)
  /\ (forall s,
         st = Some s ->
         effs = (if nats.Embedded c then [nats.ServerStart] else [])
         /\ nats.conn s = true
         /\ nats.server s = nats.Embedded c
         /\ nats.config s
            = (if nats.Embedded c
               then nats.with_ServerURL c (nats.ClientURL env) else c)).
Proof.
  intros H.
  destruct (NewKVStore_exclusive c st err effs H) as [Hx Hs].
  split; [exact Hx|]. split; [exact Hs|].
  intros s ->. exact (NewKVStore_kept c s err effs H).
Qed.

End ConstructionOutcomes.

Lemma NewKVStore_store_or_error_witness :
  exists s,
    nats.NewKVStore fixtures.healthyHost fixtures.centerCfg
    = Some (Some s, None, [nats.ServerStart])
    /\ nats.conn s = true /\ nats.server s = true
    /\ nats.ServerURL (nats.config s) = "nats://0.0.0.0:4333"%string.
Proof.
  destruct (nats.NewKVStore fixtures.healthyHost fixtures.centerCfg)
    as [[[st err] effs]|] eqn:E; [|vm_compute in E; discriminate].
  destruct (@NewKVStore_store_or_error _ fixtures.healthyHost
              fixtures.centerCfg st err effs E) as (_ & _ & H).
  destruct st as [s|]; [|vm_compute in E; discriminate].
  destruct (H s eq_refl) as (He & Hc & Hs & Hcfg).
  exists s. split; [|split; [exact Hc|split; [exact Hs|]]].
  - rewrite He. vm_compute in E. injection E as _ <-. reflexivity.
  - rewrite Hcfg. reflexivity.
Defined.

Section ConstructionRoles.
Context {K : Type}.
Variable env : nats.Env K.

(** X12. A configuration whose role is not the center, and which is not
    a leaf naming a center, never yields a store.  When the broker is
    not embedded and the connection succeeds, the failure is the error
    "leaf nodes must specify center URL for KV operations", reported
    after the connection was opened, and the connection is closed. *)
Theorem NewKVStore_needs_center_or_attached_leaf (c : nats.KVConfig) :
  String.eqb (nats.nodeTypeOf c) "center" = false ->
  String.eqb (nats.nodeTypeOf c) "leaf" && nats.nonempty (nats.CenterURL c)
  = false ->
  (forall st err effs,
      nats.NewKVStore env c = Some (st, err, effs) -> st = None)
  /\ (nats.Embedded c = false ->
      (forall url, nats.nats_Connect env url = None) ->
      nats.NewKVStore env c
      = Some (None,
              Some (Errorf
                      "leaf nodes must specify center URL for KV operations"
                      []),
              [nats.ConnClose])).
Proof.
  intros Hc Hl. unfold nats.NewKVStore. rewrite Hc, Hl. cbn [orb].
  split.
  - intros st err effs.
    destruct (nats.Embedded c).
    + destruct (nats.startEmbeddedServer env c) as [[[[e sc] srv] ef]|];
        [|discriminate].
      destruct e; [intros [= <- _ _]; reflexivity|].
      destruct (nats.nats_Connect env _); intros [= <- _ _]; reflexivity.
    + destruct (nats.nats_Connect env _); intros [= <- _ _]; reflexivity.
  - intros He Hconn. rewrite He, Hconn. reflexivity.
Qed.

End ConstructionRoles.

Lemma NewKVStore_needs_center_or_attached_leaf_witness :
  nats.NewKVStore fixtures.healthyHost fixtures.orphanLeafCfg
  = Some (None,
          Some (Errorf "leaf nodes must specify center URL for KV operations"
                       []),
          [nats.ConnClose]).
Proof.
  apply (proj2 (@NewKVStore_needs_center_or_attached_leaf _
                  fixtures.healthyHost fixtures.orphanLeafCfg
                  eq_refl eq_refl)); reflexivity.
Defined.

(** ** Construction: the bucket and the dialed URL *)

Section ConstructionBucket.
Context {K : Type}.
Variable env : nats.Env K.

Lemma startEmbeddedServer_with_CreateKeyValue create c :
  nats.startEmbeddedServer (spec.with_CreateKeyValue env create) c
  = nats.startEmbeddedServer env c.
Proof. reflexivity. Qed.

(** X13. Only a center creates the bucket.  For any other role the
    outcome of construction does not depend on what creating a bucket
    would answer.  For a center whose attempt to create the bucket fails,
    attaching to the existing bucket gives the outcome that creating it
    would have given with the same handle; if attaching fails too,
    construction fails with the error of the attach, wrapped. *)
Theorem NewKVStore_create_or_attach (c : nats.KVConfig) :
  (String.eqb (nats.nodeTypeOf c) "center" = false ->
   forall create,
     nats.NewKVStore (spec.with_CreateKeyValue env create) c
     = nats.NewKVStore env c)
  /\ (String.eqb (nats.nodeTypeOf c) "center" = true ->
      forall bucketName e,
        bucketName = (if String.eqb (nats.BucketName c) EmptyString
                      then "presence"%string else nats.BucketName c) ->
        nats.js_CreateKeyValue env bucketName = inr e ->
        match nats.js_KeyValue env bucketName with
        | inl kv =>
            nats.NewKVStore env c
            = nats.NewKVStore
                (spec.with_CreateKeyValue env (fun _ => inl kv)) c
        | inr err =>
            forall st er effs,
              nats.NewKVStore env c = Some (st, er, effs) ->
              st = None
              /\ (nats.Embedded c = false ->
                  nats.jetstream_New env = None ->
                  nats.nats_Connect env (spec.dialed c) = None ->
                  er = Some (Errorw "failed to create/get KV bucket: %w" []
                                    (Lib err)))
        end).
Proof.
  split.
  - intros Hc create. unfold nats.NewKVStore.
    rewrite startEmbeddedServer_with_CreateKeyValue. rewrite Hc.
    reflexivity.
  - intros Hc bucketName e -> Hcreate.
    destruct (nats.js_KeyValue env _) as [kv|err] eqn:Hkv.
    + unfold nats.NewKVStore.
      rewrite startEmbeddedServer_with_CreateKeyValue. rewrite Hc.
      cbn [orb spec.with_CreateKeyValue nats.nats_Connect
           nats.jetstream_New nats.js_CreateKeyValue nats.js_KeyValue].
      rewrite Hcreate, Hkv. reflexivity.
    + intros st er effs. unfold nats.NewKVStore. rewrite Hc.
      cbn [orb]. rewrite Hcreate, Hkv. fold (spec.dialed c).
      destruct (nats.Embedded c);
        split_matches; intros [= <- <- _];
        (split; [reflexivity|]); intros; congruence.
Qed.

Lemma startEmbeddedServer_with_Connect connect c :
  nats.startEmbeddedServer (spec.with_Connect env connect) c
  = nats.startEmbeddedServer env c.
Proof. reflexivity. Qed.

(** X14. The one URL [NewKVStore] hands to [nats.Connect] is the
    ServerURL of its argument, else the center URL for a leaf that names
    one, else the default URL nats://127.0.0.1:4222: what [Connect]
    would answer on any other URL does not change the outcome.  This
    holds in embedded mode too, where the store that is returned carries
    as its ServerURL the client URL of the broker just started, a URL
    that is not dialed unless the configuration names it. *)
Theorem NewKVStore_embedded_dials_configured_url (c : nats.KVConfig)
    (connect : string -> option lib_error) :
  connect (spec.dialed c) = nats.nats_Connect env (spec.dialed c) ->
  nats.NewKVStore (spec.with_Connect env connect) c = nats.NewKVStore env c
  /\ (forall s err effs,
         nats.Embedded c = true ->
         nats.NewKVStore env c = Some (Some s, err, effs) ->
         nats.ServerURL (nats.config s) = nats.ClientURL env)
  /\ (nats.ServerURL c <> EmptyString -> spec.dialed c = nats.ServerURL c)
  /\ (nats.ServerURL c = EmptyString ->
      spec.dialed c
      = if String.eqb (nats.NodeType c) "leaf"
           && nats.nonempty (nats.CenterURL c)
        then nats.CenterURL c else nats.DefaultURL).
Proof.
  intros Hd. split; [|split; [|split]].
  - unfold nats.NewKVStore. rewrite startEmbeddedServer_with_Connect.
    fold (spec.dialed c).
    cbn [spec.with_Connect nats.nats_Connect nats.jetstream_New
         nats.js_CreateKeyValue nats.js_KeyValue].
    rewrite Hd. reflexivity.
  - intros s err effs He H.
    destruct (NewKVStore_kept env c s err effs H) as (_ & _ & _ & Hc).
    rewrite Hc, He. reflexivity.
  - intros H. unfold spec.dialed.
    destruct (String.eqb_spec (nats.ServerURL c) EmptyString);
      [contradiction|reflexivity].
  - intros H. unfold spec.dialed. rewrite H. reflexivity.
Qed.

End ConstructionBucket.

Lemma NewKVStore_embedded_dials_configured_url_witness :
  nats.NewKVStore
    (spec.with_Connect fixtures.healthyHost fixtures.retryingConnect)
    fixtures.centerCfg
  = nats.NewKVStore fixtures.healthyHost fixtures.centerCfg.
Proof.
  exact (proj1 (@NewKVStore_embedded_dials_configured_url _
                  fixtures.healthyHost fixtures.centerCfg
                  fixtures.retryingConnect eq_refl)).
Defined.

Lemma NewKVStore_create_or_attach_witness :
  nats.NewKVStore
    (spec.with_CreateKeyValue fixtures.healthyHost
       (fun _ => inr fixtures.ErrTimeout)) fixtures.cfg
  = nats.NewKVStore fixtures.healthyHost fixtures.cfg.
Proof.
  exact (proj1 (@NewKVStore_create_or_attach _ fixtures.healthyHost
                  fixtures.cfg) eq_refl (fun _ => inr fixtures.ErrTimeout)).
Defined.

(** ** The orchestrator: readiness, shutdown, validation, failed batch *)

(** X15. [Ready] makes one store call, an empty batched read, and
    returns its error.  Over the KV store that call never consults the
    bucket and never fails: [Ready] returns nil in every world, also
    when the bucket is unreachable. *)
Theorem Ready_never_fails_on_kvStore :
  (forall (C S : Type) (mc : cache.MemoryCache C) (st : nats.KVStore S)
          rt svc ctx (w : service.world C S),
      fst (service.Ready rt svc ctx w)
      = snd (fst (nats.GetMultiple (service.clock rt (service.ticks w)) ctx []
                                   (service.w_store w)))
      /\ service.calls (snd (service.Ready rt svc ctx w))
         = service.calls w ++ [service.StoreGetMultiple []]
      /\ service.w_cache (snd (service.Ready rt svc ctx w))
         = service.w_cache w)
  /\ (forall (C K : Type) (codec : JSON) (mc : cache.MemoryCache C)
             (bucket : jetstream.KeyValue K) rt svc ctx
             (w : service.world C (nats.kvStore K)),
         fst (service.Ready rt svc ctx w) = None
         /\ service.w_store (snd (service.Ready rt svc ctx w))
            = service.w_store w)
  /\ fst (@service.Ready cache.ristrettoCache _
            (@nats.kvStore_KVStore fixtures.json _ _)
            fixtures.runtime fixtures.svc context.Background
            (fixtures.worldOf fixtures.emptyCache
               (fixtures.storeOf fixtures.unreachable)))
     = None.
Proof.
  split; [|split; [|reflexivity]].
  - intros C S mc st rt svc ctx w. unfold service.Ready.
    run_service.
    destruct (nats.GetMultiple _ ctx [] (service.w_store w)) as [[m e] s].
    cbn. auto.
  - intros C K codec mc bucket rt svc ctx w. split; reflexivity.
Qed.

(** X16. [Close] closes the store first.  If that fails, the error is
    returned wrapped and the cache is left as it is; otherwise the cache
    is cleared and nil is returned.  The KV store's [Close] never fails,
    so over it [Close] always clears the cache: on the ristretto cache
    every later [Get] misses. *)
Theorem Close_store_then_cache :
  (forall (C S : Type) (mc : cache.MemoryCache C) (cl : nats.Closer S)
          svc (w : service.world C S),
      match fst (nats.Close (service.w_store w)) with
      | Some e =>
          fst (service.Close svc w)
          = Some (Errorw "failed to close store: %w" [] e)
          /\ service.w_cache (snd (service.Close svc w)) = service.w_cache w
      | None =>
          fst (service.Close svc w) = None
          /\ service.w_cache (snd (service.Close svc w))
             = cache.Clear (service.w_cache w)
      end)
  /\ (forall (codec : JSON) (K : Type) svc
             (w : service.world cache.ristrettoCache (nats.kvStore K))
             now userID,
         fst (service.Close svc w) = None
         /\ fst (cache.ristrettoCache_Get now userID
                   (service.w_cache (snd (service.Close svc w))))
            = (models.zero, false)
         /\ fst (nats.kvStore_Close (service.w_store w)) = None
         /\ snd (nats.kvStore_Close (service.w_store w))
            = (if nats.conn (service.w_store w) then [nats.ConnClose]
               else [])
              ++ (if nats.server (service.w_store w)
                  then [nats.ServerShutdown; nats.ServerWaitForShutdown]
                  else [])).
Proof.
  split.
  - intros C S mc cl svc w. unfold service.Close, service.bind,
      service.on_store, service.on_cache, service.ret.
    destruct (nats.Close (service.w_store w)) as [[e|] s]; cbn; auto.
  - intros codec K svc w now userID.
    repeat split; reflexivity.
Qed.

Section Validation.
Context {C S : Type} `{mc : cache.MemoryCache C} `{st : nats.KVStore S}.
Variable rt : service.Runtime.
Variable svc : service.PresenceService.

(** X17. What [SetPresence] validates.  A record with an empty UserID is
    refused ("user_id is required") whatever the userID argument; else a
    record with a status outside the four is refused ("invalid status");
    else every record is refused ("node_id is required") when the
    service has no node identifier.  A refusal calls neither the store
    nor the cache.  In every other case -- also when the client sent an
    empty NodeID -- validation passes and the store is written. *)
Theorem SetPresence_validation_outcomes ctx userID presence
    (w : service.world C S) :
  let run := service.SetPresence rt svc ctx userID presence w in
  let refused msg :=
    run = (Some (Errorw "invalid presence: %w" [] (ErrorsNew msg)),
           service.mkWorld (service.w_cache w) (service.w_store w)
                           (1 + service.ticks w) (service.calls w)) in
  (UserID presence = EmptyString -> refused "user_id is required"%string)
  /\ (UserID presence <> EmptyString ->
      models.IsValid (Status presence) = false ->
      refused "invalid status"%string)
  /\ (UserID presence <> EmptyString ->
      models.IsValid (Status presence) = true ->
      service.nodeID svc = EmptyString ->
      refused "node_id is required"%string)
  /\ (UserID presence <> EmptyString ->
      models.IsValid (Status presence) = true ->
      service.nodeID svc <> EmptyString ->
      exists rest,
        service.calls (snd run)
        = service.calls w
          ++ service.StoreSet userID
               (service.stamp svc (service.clock rt (service.ticks w))
                              presence)
               (TTL presence) :: rest).
Proof.
  cbn zeta. run_service. unfold models.Validate, service.stamp.
  cbn [UserID Status NodeID TTL].
  split; [|split; [|split]].
  - intros ->. reflexivity.
  - intros Hu Hs. destruct (String.eqb_spec (UserID presence) EmptyString);
      [contradiction|]. rewrite Hs. reflexivity.
  - intros Hu Hs Hn. destruct (String.eqb_spec (UserID presence) EmptyString);
      [contradiction|]. rewrite Hs, Hn. reflexivity.
  - intros Hu Hs Hn. destruct (String.eqb_spec (UserID presence) EmptyString);
      [contradiction|]. rewrite Hs. cbn [negb].
    destruct (String.eqb_spec (service.nodeID svc) EmptyString);
      [contradiction|].
    norm_world.
    destruct (nats.Set_ _ ctx userID _ _ (service.w_store w)) as [[e|] s];
      norm_world; eexists; reflexivity.
Qed.

(** X18. A failed batch read of the store aborts [GetMultiplePresences]:
    it returns no entry at all, not even the records the cache had
    answered, together with the store's error wrapped; nothing is
    written to the cache.  When the cache answers every id, the store is
    not called and no error can arise. *)
Theorem GetMultiplePresences_store_failure_aborts ctx userIDs
    (w : service.world C S) :
  let outs := fst (spec.consult_all rt userIDs w) in
  let w1 := snd (spec.consult_all rt userIDs w) in
  let run := service.GetMultiplePresences rt svc ctx userIDs w in
  (forall e,
      spec.misses outs <> [] ->
      snd (fst (nats.GetMultiple (service.clock rt (service.ticks w1)) ctx
                                 (spec.misses outs) (service.w_store w1)))
      = Some e ->
      fst run
      = (∅, Some (Errorw "failed to get presences from store: %w" [] e))
      /\ service.calls (snd run)
         = service.calls w1 ++ [service.StoreGetMultiple (spec.misses outs)]
      /\ service.w_cache (snd run) = service.w_cache w1)
  /\ (spec.misses outs = [] ->
      run = ((spec.hits outs, None), w1)).
Proof.
  cbn zeta. rewrite GetMultiplePresences_run.
  destruct (spec.consult_all rt userIDs w) as [outs w1]. cbn [fst snd].
  split.
  - intros e Hne He.
    destruct (spec.misses outs) as [|m ms]; [contradiction|].
    cbv beta delta [service.store_GetMultiple service.bind service.record
                    service.Now service.on_store].
    norm_world.
    destruct (nats.GetMultiple _ ctx (m :: ms) (service.w_store w1))
      as [[fetched err] s2].
    cbn [fst snd] in He. subst err. cbn. auto.
  - intros ->. reflexivity.
Qed.

End Validation.

Lemma GetMultiplePresences_store_failure_aborts_witness :
  fst (@service.GetMultiplePresences _ _
         (@cache.ristrettoCache_MemoryCache fixtures.json)
         fixtures.fakeStore2_KVStore
         fixtures.runtime fixtures.svc context.Background
         ["a"; "b"]%string
         (fixtures.worldOf fixtures.emptyCache fixtures.FakeStore2))
  = (∅, Some (Errorw "failed to get presences from store: %w" []
                     (ErrorsNew "boom"))).
Proof.
  refine (proj1 (proj1 (@GetMultiplePresences_store_failure_aborts _ _
            (@cache.ristrettoCache_MemoryCache fixtures.json)
            fixtures.fakeStore2_KVStore
            fixtures.runtime fixtures.svc context.Background
            ["a"; "b"]%string
            (fixtures.worldOf fixtures.emptyCache fixtures.FakeStore2))
            (ErrorsNew "boom") _ _)).
  - vm_compute. discriminate.
  - reflexivity.
Defined.

Lemma SetPresence_validation_outcomes_witness :
  fst (@service.SetPresence _ _
         (@cache.ristrettoCache_MemoryCache fixtures.json)
         (@nats.kvStore_KVStore fixtures.json _ _)
         fixtures.runtime fixtures.svc context.Background "u1"
         (mkPresence EmptyString models.StatusOnline EmptyString 0 0
                     "client-supplied" 0)
         (fixtures.worldOf fixtures.emptyCache
            (fixtures.storeOf (fixtures.mkBucket ∅ None))))
  = Some (Errorw "invalid presence: %w" []
                 (ErrorsNew "user_id is required")).
Proof.
  rewrite (proj1 (@SetPresence_validation_outcomes _ _
            (@cache.ristrettoCache_MemoryCache fixtures.json)
            (@nats.kvStore_KVStore fixtures.json _ _)
            fixtures.runtime fixtures.svc context.Background "u1"
            (mkPresence EmptyString models.StatusOnline EmptyString 0 0
                        "client-supplied" 0)
            (fixtures.worldOf fixtures.emptyCache
               (fixtures.storeOf (fixtures.mkBucket ∅ None))))
            eq_refl).
  reflexivity.
Defined.

(** ** Reads after writes, through the ristretto cache *)

Lemma with_TTL_same (p : Presence) : models.with_TTL p (TTL p) = p.
Proof. destruct p. reflexivity. Qed.

Lemma not_IsExpired_cache_test now (p : Presence) :
  models.IsExpired now p = false ->
  (0 <? TTL p) && (TTL p <? time.Since now (UpdatedAt p)) = false.
Proof.
  unfold models.IsExpired.
  destruct (Z.eqb_spec (TTL p) 0) as [->|N]; [reflexivity|].
  intros ->. apply andb_false_r.
Qed.

Section ReadAfterWrite.
Context `{codec : JSON} {S : Type} `{st : nats.KVStore S}.
Variable rt : service.Runtime.
Variable svc : service.PresenceService.

(** After a [Get] that misses, the key is not in the cache. *)
Lemma Get_miss_absent now k (c : cache.ristrettoCache) q c1 :
  cache.ristrettoCache_Get now k c = ((q, false), c1) ->
  ristretto.Get k (cache.cache c1) = None.
Proof.
  unfold cache.ristrettoCache_Get, ristretto.Get.
  destruct (ristretto.items (cache.cache c) !! k) as [[p|n]|] eqn:L.
  - destruct (_ && _); [|discriminate]. intros [= _ <-].
    cbn [cache.cache ristretto.Del ristretto.items]. apply lookup_delete_eq.
  - intros [= _ <-].
    cbn [cache.cache ristretto.Del ristretto.items]. apply lookup_delete_eq.
  - intros [= _ <-]. exact L.
Qed.

(** A record the ristretto cache holds, and that is not expired at the
    two readings a read takes, is served by [GetPresence] from the cache
    alone. *)
Lemma GetPresence_served_from_cache ctx userID
    (w : service.world cache.ristrettoCache S) p :
  ristretto.Get userID (cache.cache (service.w_cache w))
  = Some (ristretto.VPresence p) ->
  models.IsExpired (service.clock rt (service.ticks w)) p = false ->
  models.IsExpired (service.clock rt (1 + service.ticks w)) p = false ->
  service.GetPresence rt svc ctx userID w
  = ((p, None),
     service.mkWorld (service.w_cache w) (service.w_store w)
                     (spec.readings p + 1 + service.ticks w)
                     (service.calls w ++ [service.CacheGet userID])).
Proof.
  intros L E0 E1. unfold service.GetPresence.
  cbv beta delta [service.bind service.cache_Get service.record
                  service.Now service.on_cache service.IsExpired
                  service.ret service.cache_Delete].
  norm_world. cbn [cache.Get cache.ristrettoCache_MemoryCache].
  unfold cache.ristrettoCache_Get. rewrite L.
  rewrite (not_IsExpired_cache_test _ _ E0).
  unfold spec.readings. destruct (TTL p =? 0); [reflexivity|].
  norm_world. rewrite E1. reflexivity.
Qed.

(** X19. Read-your-write.  Let the id be new to the cache and its entry
    admitted by the policy, or let it be cached in a cache with no
    pending write.  If [SetPresence] succeeds, a [GetPresence] for the
    same id right after it returns the record as stamped by the service
    -- not as sent by the client -- from the cache, without calling the
    store, as long as the record is not expired at the read. *)
Theorem SetPresence_then_GetPresence ctx userID presence
    (w : service.world cache.ristrettoCache S) :
  let stamped :=
    service.stamp svc (service.clock rt (service.ticks w)) presence in
  let w1 := snd (service.SetPresence rt svc ctx userID presence w) in
  let rc := cache.cache (service.w_cache w) in
  fst (service.SetPresence rt svc ctx userID presence w) = None ->
  (ristretto.Get userID rc = None
   /\ exists victims,
        ristretto.verdicts rc (ristretto.decided (ristretto.flushed rc))
        = ristretto.Admit victims)
  \/ (ristretto.Get userID rc <> None /\ spec.settled rc) ->
  models.IsExpired (service.clock rt (3 + service.ticks w)) stamped = false ->
  models.IsExpired (service.clock rt (4 + service.ticks w)) stamped = false ->
  service.GetPresence rt svc ctx userID w1
  = ((stamped, None),
     service.mkWorld (service.w_cache w1) (service.w_store w1)
                     (spec.readings stamped + 1 + service.ticks w1)
                     (service.calls w1 ++ [service.CacheGet userID])).
Proof.
  intros stamped w1 rc Hok Hk E0 E1.
  assert (W : service.ticks w1 = (3 + service.ticks w)%nat
              /\ ristretto.Get userID (cache.cache (service.w_cache w1))
                 = Some (ristretto.VPresence stamped)).
  { subst w1. revert Hok. run_service. fold stamped.
    destruct (models.Validate stamped); [discriminate|].
    norm_world.
    destruct (nats.Set_ _ ctx userID stamped (TTL stamped)
                        (service.w_store w)) as [[e|] s];
      [discriminate|].
    norm_world. intros _. split; [reflexivity|].
    cbn [cache.Set_ cache.ristrettoCache_MemoryCache].
    assert (X : (if 0 <? TTL stamped
                 then models.with_TTL stamped (TTL stamped) else stamped)
                = stamped).
    { destruct (0 <? TTL stamped); [apply with_TTL_same|reflexivity]. }
    pose proof (Set_then_found userID stamped (TTL stamped)
                  (service.w_cache w) Hk) as F.
    rewrite X in F. exact F. }
  destruct W as (Wt & Wg).
  apply GetPresence_served_from_cache; [exact Wg| |]; rewrite Wt; assumption.
Qed.

(** X20. Read-through.  When the cache misses, the store returns a
    record without error and the policy admits it, [GetPresence] returns
    that record, and a second [GetPresence] returns it again from the
    cache, without calling the store, as long as the record is not
    expired at the second read. *)
Theorem GetPresence_read_through_then_cached ctx userID
    (w : service.world cache.ristrettoCache S) q c1 p s1 victims :
  let w1 := snd (service.GetPresence rt svc ctx userID w) in
  cache.ristrettoCache_Get (service.clock rt (service.ticks w)) userID
                           (service.w_cache w) = ((q, false), c1) ->
  nats.Get (service.clock rt (1 + service.ticks w)) ctx userID
           (service.w_store w) = ((p, None), s1) ->
  ristretto.verdicts (cache.cache c1)
    (ristretto.decided (ristretto.flushed (cache.cache c1)))
  = ristretto.Admit victims ->
  models.IsExpired (service.clock rt (3 + service.ticks w)) p = false ->
  models.IsExpired (service.clock rt (4 + service.ticks w)) p = false ->
  fst (service.GetPresence rt svc ctx userID w) = (p, None)
  /\ service.w_store w1 = s1
  /\ service.GetPresence rt svc ctx userID w1
     = ((p, None),
        service.mkWorld (service.w_cache w1) s1
                        (spec.readings p + 1 + service.ticks w1)
                        (service.calls w
                         ++ [service.CacheGet userID;
                             service.StoreGet userID;
                             service.CacheSet userID p (TTL p);
                             service.CacheGet userID])).
Proof.
  intros w1 Hmiss Hstore Hadmit E0 E1.
  assert (R : service.GetPresence rt svc ctx userID w
              = ((p, None),
                 service.mkWorld
                   (cache.ristrettoCache_Set userID p (TTL p) c1) s1
                   (3 + service.ticks w)
                   (service.calls w
                    ++ [service.CacheGet userID; service.StoreGet userID;
                        service.CacheSet userID p (TTL p)]))).
  { unfold service.GetPresence.
    cbv beta delta [service.bind service.cache_Get service.record
                    service.Now service.on_cache service.IsExpired
                    service.ret service.cache_Delete].
    norm_world. cbn [cache.Get cache.ristrettoCache_MemoryCache].
    rewrite Hmiss. run_service. norm_world. rewrite Hstore.
    norm_world. reflexivity. }
  subst w1. rewrite R. cbn [fst snd service.w_store].
  split; [reflexivity|]. split; [reflexivity|].
  rewrite GetPresence_served_from_cache with (p := p).
  - norm_world. reflexivity.
  - cbn [service.w_cache]. unfold cache.ristrettoCache_Set.
    cbn [cache.cache].
    assert (X : (if 0 <? TTL p then models.with_TTL p (TTL p) else p) = p).
    { destruct (0 <? TTL p); [apply with_TTL_same|reflexivity]. }
    rewrite X.
    apply (Wait_Set_admitted userID (ristretto.VPresence p) _ _ victims
             (Get_miss_absent _ _ _ _ _ Hmiss) Hadmit).
  - exact E0.
  - exact E1.
Qed.

End ReadAfterWrite.

Lemma SetPresence_then_GetPresence_witness :
  fst (@service.GetPresence _ _
         (@cache.ristrettoCache_MemoryCache fixtures.json)
         (@nats.kvStore_KVStore fixtures.json _ _)
         fixtures.runtime fixtures.svc context.Background "u1"
         (snd (@service.SetPresence _ _
                 (@cache.ristrettoCache_MemoryCache fixtures.json)
                 (@nats.kvStore_KVStore fixtures.json _ _)
                 fixtures.runtime fixtures.svc context.Background "u1"
                 fixtures.request
                 (fixtures.worldOf fixtures.emptyCache
                    (fixtures.storeOf (fixtures.mkBucket ∅ None))))))
  = (fixtures.stamped, None).
Proof.
  rewrite (@SetPresence_then_GetPresence fixtures.json _
             (@nats.kvStore_KVStore fixtures.json _ _)
             fixtures.runtime fixtures.svc context.Background "u1"
             fixtures.request
             (fixtures.worldOf fixtures.emptyCache
                (fixtures.storeOf (fixtures.mkBucket ∅ None))));
    try reflexivity.
  left. split; [reflexivity|]. exists []. reflexivity.
Defined.

(** Why a key that is cached needs a cache with no pending write: the
    record written is in the cache at once, but a [Set] of another key
    that was still buffered may evict it when the flush applies it, and
    the read then goes to the store. *)
Lemma read_after_write_evicted_by_pending_write :
  let w := fixtures.worldOf fixtures.pendingCache
             (fixtures.storeOf (fixtures.mkBucket ∅ None)) in
  let written :=
    @service.SetPresence _ _
      (@cache.ristrettoCache_MemoryCache fixtures.json)
      (@nats.kvStore_KVStore fixtures.json _ _)
      fixtures.runtime fixtures.svc context.Background "u1"
      fixtures.request w in
  let read :=
    @service.GetPresence _ _
      (@cache.ristrettoCache_MemoryCache fixtures.json)
      (@nats.kvStore_KVStore fixtures.json _ _)
      fixtures.runtime fixtures.svc context.Background "u1" (snd written) in
  fst written = None
  /\ ristretto.Get "u1" (cache.cache (service.w_cache (snd written))) = None
  /\ fst read = (fixtures.stamped, None)
  /\ service.calls (snd read)
     = service.calls (snd written)
       ++ [service.CacheGet "u1"; service.StoreGet "u1";
           service.CacheSet "u1" fixtures.stamped 0].
Proof. cbv zeta. repeat split; vm_compute; reflexivity. Qed.

Lemma GetPresence_read_through_then_cached_witness :
  fst (@service.GetPresence _ _
         (@cache.ristrettoCache_MemoryCache fixtures.json)
         (@nats.kvStore_KVStore fixtures.json _ _)
         fixtures.runtime fixtures.svc context.Background "u1"
         (fixtures.worldOf fixtures.emptyCache
            (fixtures.storeOf fixtures.twoUsers)))
  = (fixtures.alice, None).
Proof.
  assert (G : @nats.Get _ (@nats.kvStore_KVStore fixtures.json _ _)
                (service.clock fixtures.runtime 1) context.Background "u1"
                (fixtures.storeOf fixtures.twoUsers)
              = ((fixtures.alice, None), fixtures.storeOf fixtures.twoUsers))
    by (vm_compute; reflexivity).
  exact (proj1 (@GetPresence_read_through_then_cached fixtures.json _
                  (@nats.kvStore_KVStore fixtures.json _ _)
                  fixtures.runtime fixtures.svc context.Background "u1"
                  (fixtures.worldOf fixtures.emptyCache
                     (fixtures.storeOf fixtures.twoUsers))
                  models.zero fixtures.emptyCache fixtures.alice
                  (fixtures.storeOf fixtures.twoUsers) []
                  eq_refl G eq_refl eq_refl eq_refl)).
Defined.

(** ** The HTTP handlers *)

Lemma notFound_text_matches userID :
  Contains (fmt.Sprintf "presence not found for user %s" [userID])
           "not found" = true.
Proof. reflexivity. Qed.

Lemma append_empty (s : string) : (s ++ EmptyString)%string = s.
Proof.
  induction s as [|c s IH]; [reflexivity|].
  change (String c (s ++ EmptyString)%string = String c s). now rewrite IH.
Qed.

Lemma notFound_text userID :
  fmt.Sprintf "presence not found for user %s" [userID]
  = ("presence not found for user " ++ userID)%string.
Proof.
  change (("presence not found for user " ++ (userID ++ EmptyString))%string
          = ("presence not found for user " ++ userID)%string).
  now rewrite append_empty.
Qed.

Section HandlerProofs.
Context {T : Type} `{svc : handlers.PresenceService T}.

(** X21. The handler of GET /api/v2/presence/{user_id}, over any
    service.  With an empty user id it answers 400 and the service is
    not called.  Otherwise the service is called once.  Without an error
    the answer is 200 with the record under the requested id and nothing
    else.  An error of the handlers' own not-found type, or one whose
    text contains "not found", gives 404 with that text.  Any other
    error gives 500 with the fixed text "failed to get presence": its
    own text does not reach the client. *)
Theorem GetPresence_handler_statuses (r : http.Request) (h : T) :
  let userID := http.Get (http.Vars r) "user_id" in
  let out := handlers.GetPresence_handler http.NewRecorder r h in
  let run := handlers.GetPresence (http.Context r) userID h in
  (userID = EmptyString ->
   out = (api.failure http.StatusBadRequest "user_id is required", h))
  /\ (userID <> EmptyString ->
      snd out = snd run
      /\ match snd (fst run) with
         | None => fst out = api.success {[ userID := fst (fst run) ]}
         | Some e =>
             if handlers.is_PresenceNotFoundError e
                || Contains (handlers.Error e) "not found"
             then fst out = api.failure http.StatusNotFound (handlers.Error e)
             else fst out = api.failure http.StatusInternalServerError
                                        "failed to get presence"
         end).
Proof.
  cbn zeta. unfold handlers.GetPresence_handler. split.
  - intros ->. reflexivity.
  - intros Hne.
    destruct (String.eqb_spec (http.Get (http.Vars r) "user_id") EmptyString);
      [contradiction|].
    destruct (handlers.GetPresence (http.Context r) _ h) as [[p [e|]] h'];
      cbn [fst snd].
    + destruct (handlers.is_PresenceNotFoundError e); cbn [orb];
        [split; reflexivity|].
      destruct (Contains (handlers.Error e) "not found"); split; reflexivity.
    + split; reflexivity.
Qed.

End HandlerProofs.

Section ServedProofs.
Context {C S : Type} `{mc : cache.MemoryCache C} `{st : nats.KVStore S}.

(** X22. Behind the handler of GET sits the service of package
    service.  Whatever its cache and its store do, the answer is 400 (no
    user id), 200 with the record the service returned, or 404 with the
    text "presence not found for user <id>": never 500.  The 404 is
    found through the text of the error, the service's not-found error
    being of another type than the handlers'; an outage of the store is
    answered 404 as well. *)
Theorem GetPresence_handler_never_500 (r : http.Request)
    (h : handlers.Served C S) :
  let userID := http.Get (http.Vars r) "user_id" in
  let out := handlers.GetPresence_handler http.NewRecorder r h in
  let run :=
    service.GetPresence (handlers.runtime h) (handlers.presenceService h)
                        (http.Context r) userID (handlers.state h) in
  (userID = EmptyString ->
   out = (api.failure http.StatusBadRequest "user_id is required", h))
  /\ (userID <> EmptyString ->
      handlers.state (snd out) = snd run
      /\ fst out
         = match snd (fst run) with
           | None => api.success {[ userID := fst (fst run) ]}
           | Some _ =>
               api.failure http.StatusNotFound
                 ("presence not found for user " ++ userID)
           end)
  /\ http.Code (fst out) <> http.StatusInternalServerError.
Proof.
  cbn zeta. unfold handlers.GetPresence_handler.
  destruct (String.eqb_spec (http.Get (http.Vars r) "user_id") EmptyString)
    as [E|NE].
  - split; [reflexivity|]. split; [contradiction|]. cbn. discriminate.
  - split; [contradiction|].
    unfold handlers.GetPresence, handlers.Served_PresenceService,
      handlers.run.
    pose proof (@GetPresence_error_kind C S mc st (handlers.runtime h)
                  (handlers.presenceService h) (http.Context r)
                  (http.Get (http.Vars r) "user_id") (handlers.state h))
      as K.
    destruct (service.GetPresence _ _ _ _ (handlers.state h))
      as [[p [e|]] w']; cbn [fst snd option_map] in *.
    + rewrite (K e eq_refl). cbn [handlers.is_PresenceNotFoundError].
      cbn [handlers.Error errors.Error].
      rewrite notFound_text_matches, notFound_text.
      split; [split; reflexivity|]. cbn. discriminate.
    + split; [split; reflexivity|]. cbn. discriminate.
Qed.

End ServedProofs.

Lemma int64_small z :
  - 2 ^ 63 <= z < 2 ^ 63 -> int64 z = z.
Proof. intros H. unfold int64. rewrite Z.mod_small; lia. Qed.

Lemma int64_range z : - 2 ^ 63 <= int64 z < 2 ^ 63.
Proof.
  unfold int64.
  pose proof (Z.mod_pos_bound (z + 2 ^ 63) (2 ^ 64) ltac:(lia)). lia.
Qed.

(** X24. The TTL of the record the handler of PUT builds from the
    request's [ttl], a number of seconds.  A [ttl] that is not positive
    gives no TTL: the record never expires.  A [ttl] up to 9223372036
    gives that many seconds.  Beyond, the product wraps around: the TTL
    is not the one asked for, and it is negative for 9223372037.  The
    result always fits 64 bits. *)
Theorem presenceOf_TTL now userID (req : handlers.SetPresenceRequest) :
  let ttl := handlers.req_TTL req in
  let p := handlers.presenceOf now userID req in
  (ttl <= 0 -> TTL p = 0)
  /\ (0 < ttl <= api.maxSeconds -> TTL p = ttl * time.Second /\ 0 < TTL p)
  /\ (api.maxSeconds < ttl -> TTL p <> ttl * time.Second)
  /\ (ttl = api.maxSeconds + 1 -> TTL p < 0)
  /\ time.minDuration <= TTL p <= time.maxDuration.
Proof.
  cbn zeta. unfold handlers.presenceOf, api.maxSeconds, time.Second,
    time.minDuration, time.maxDuration.
  destruct (Z.ltb_spec 0 (handlers.req_TTL req)) as [Hp|Hn];
    cbn [TTL with_TTL].
  - pose proof (int64_range (handlers.req_TTL req * 1000000000)) as R.
    split; [lia|]. split; [|split; [|split]].
    + intros H. rewrite int64_small by lia. lia.
    + intros H E. lia.
    + intros ->. vm_compute. reflexivity.
    + lia.
  - split; [reflexivity|]. repeat split; try lia.
Qed.

Lemma stamped_Validate svc t now userID (req : handlers.SetPresenceRequest) :
  userID <> EmptyString ->
  models.IsValid (handlers.req_Status req) = true ->
  models.Validate (service.stamp svc t (handlers.presenceOf now userID req))
  = if String.eqb (service.nodeID svc) EmptyString
    then Some (ErrorsNew "node_id is required")
    else None.
Proof.
  intros NE V. unfold models.Validate, service.stamp, handlers.presenceOf.
  destruct (0 <? handlers.req_TTL req);
    cbn [with_TTL UserID Status Message LastSeen UpdatedAt NodeID TTL];
    rewrite V; cbn [negb];
    destruct (String.eqb_spec userID EmptyString); try contradiction;
    reflexivity.
Qed.

Section ServedWrites.
Context {C S : Type} `{mc : cache.MemoryCache C} `{st : nats.KVStore S}
        `{dec : handlers.Decoder} `{str : Strings}.

(** X23. The handler of PUT /api/v2/presence/{user_id} over the service
    of package service.  An empty user id, a body that does not decode
    and a status outside the four are answered 400, the service not
    being called.  Otherwise, if the service has no node identifier the
    answer is 500 and the store is not called.  Else the store is asked
    to write the record as the service stamps it, and the answer is 200
    when that write succeeds and 500 when it fails.  The 200 echoes the
    record the handler built, with its own reading of the clock and the
    node "current-node": it is the record stored only when the two
    readings agree and the service's node is named "current-node". *)
Theorem SetPresence_handler_outcomes now (r : http.Request)
    (h : handlers.Served C S) (req : handlers.SetPresenceRequest) :
  let userID := http.Get (http.Vars r) "user_id" in
  let out := handlers.SetPresence_handler now http.NewRecorder r h in
  let rt := handlers.runtime h in
  let svc := handlers.presenceService h in
  let w := handlers.state h in
  let sent := handlers.presenceOf now userID req in
  let stored := service.stamp svc (service.clock rt (service.ticks w)) sent in
  (userID = EmptyString ->
   out = (api.failure http.StatusBadRequest "user_id is required", h))
  /\ (userID <> EmptyString ->
      (forall e, handlers.DecodeSetPresenceRequest (http.Body r) = inr e ->
                 out = (api.failure http.StatusBadRequest "invalid JSON", h))
      /\ (handlers.DecodeSetPresenceRequest (http.Body r) = inl req ->
          (models.IsValid (handlers.req_Status req) = false ->
           out = (api.failure http.StatusBadRequest "invalid status", h))
          /\ (models.IsValid (handlers.req_Status req) = true ->
              (service.nodeID svc = EmptyString ->
               fst out = api.failure http.StatusInternalServerError
                                     "failed to set presence"
               /\ service.calls (handlers.state (snd out))
                  = service.calls w)
              /\ (service.nodeID svc <> EmptyString ->
                  (exists rest,
                      service.calls (handlers.state (snd out))
                      = service.calls w
                        ++ service.StoreSet userID stored (TTL sent) :: rest)
                  /\ fst out
                     = match fst (nats.Set_
                                    (service.clock rt
                                       (Datatypes.S (service.ticks w)))
                                    (http.Context r) userID stored
                                    (TTL sent) (service.w_store w)) with
                       | None => api.success {[ userID := sent ]}
                       | Some _ =>
                           api.failure http.StatusInternalServerError
                                       "failed to set presence"
                       end
                  /\ (sent = stored <->
                      now = service.clock rt (service.ticks w)
                      /\ service.nodeID svc = "current-node"%string))))).
Proof.
  cbn zeta. unfold handlers.SetPresence_handler.
  destruct (String.eqb_spec (http.Get (http.Vars r) "user_id") EmptyString)
    as [E|NE].
  { split; [reflexivity|contradiction]. }
  split; [contradiction|]. intros _. split.
  { intros e ->. reflexivity. }
  intros ->. split.
  { intros ->. reflexivity. }
  intros V. rewrite V. cbn [negb].
  unfold handlers.SetPresence, handlers.Served_PresenceService, handlers.run.
  run_service.
  rewrite (stamped_Validate _ _ now _ req NE V).
  split.
  - intros ->. cbn. split; reflexivity.
  - intros Hnode.
    destruct (String.eqb_spec (service.nodeID (handlers.presenceService h))
                              EmptyString); [contradiction|].
    norm_world.
    split; [|split].
    + destruct (nats.Set_ _ (http.Context r) _ _ _
                          (service.w_store (handlers.state h)))
        as [[e|] s]; norm_world; cbn; eexists; reflexivity.
    + destruct (nats.Set_ _ (http.Context r) _ _ _
                          (service.w_store (handlers.state h)))
        as [[e|] s]; norm_world; reflexivity.
    + unfold service.stamp, handlers.presenceOf.
      destruct (0 <? handlers.req_TTL req);
        cbn [with_TTL UserID Status Message LastSeen UpdatedAt NodeID TTL];
        (split; [intros E; inversion E; split; congruence
               | intros [-> ->]; reflexivity]).
Qed.

End ServedWrites.

Lemma Split_not_nil s sep : Split s sep <> [].
Proof.
  destruct s as [|c s]; cbn; [discriminate|].
  destruct (Ascii.eqb c sep); [discriminate|].
  destruct (Split s sep); discriminate.
Qed.

Section ServedBatch.
Context {C K : Type} `{codec : JSON} `{mc : cache.MemoryCache C}
        `{bucket : jetstream.KeyValue K} `{dec : handlers.Decoder} `{str : Strings}.

Lemma GetMultiplePresences_kvStore_no_error rt svc ctx userIDs
    (w : service.world C (nats.kvStore K)) :
  snd (fst (service.GetMultiplePresences rt svc ctx userIDs w)) = None.
Proof.
  rewrite GetMultiplePresences_run.
  destruct (spec.consult_all rt userIDs w) as [outs w1].
  destruct (spec.misses outs) as [|m ms]; [reflexivity|].
  cbv beta delta [service.store_GetMultiple service.bind service.record
                  service.Now service.on_store].
  norm_world.
  pose proof (kvStore_GetMultiple_err ctx (m :: ms) (service.w_store w1))
    as E.
  cbn [nats.GetMultiple nats.kvStore_KVStore].
  destruct (nats.kvStore_GetMultiple ctx (m :: ms) (service.w_store w1))
    as [[fetched err] s2].
  cbn [fst snd] in E. subst err.
  destruct (service.cacheResults _ _ _ _). reflexivity.
Qed.

(** X25. The two batch handlers over the service on the KV store.  GET
    without a [users] parameter is answered 400; otherwise the ids asked
    for are the parts of the parameter between commas, each trimmed, and
    there is at least one.  POST with a body that does not decode, or
    with no id, is answered 400.  In every other case the answer is 200
    with the map [GetMultiplePresences] returned: over this store the
    batch read of the service cannot fail, so neither handler answers
    500. *)
Theorem batch_handlers_never_500 (r : http.Request)
    (h : handlers.Served C (nats.kvStore K)) :
  let users := http.Get (http.Query r) "users" in
  let ids := map TrimSpace (Split users ",") in
  let get := handlers.GetMultiplePresences_handler http.NewRecorder r h in
  let post := handlers.BatchPresence http.NewRecorder r h in
  let read userIDs :=
    service.GetMultiplePresences (handlers.runtime h)
      (handlers.presenceService h) (http.Context r) userIDs
      (handlers.state h) in
  (users = EmptyString ->
   get = (api.failure http.StatusBadRequest "users parameter is required",
          h))
  /\ (users <> EmptyString ->
      ids <> []
      /\ fst get = api.success (fst (fst (read ids)))
      /\ handlers.state (snd get) = snd (read ids))
  /\ (forall e,
         handlers.DecodeBatchPresenceRequest (http.Body r) = inr e ->
         post = (api.failure http.StatusBadRequest "invalid JSON", h))
  /\ (forall req,
         handlers.DecodeBatchPresenceRequest (http.Body r) = inl req ->
         match handlers.UserIDs req with
         | [] =>
             post = (api.failure http.StatusBadRequest
                                 "user_ids is required", h)
         | userIDs =>
             fst post = api.success (fst (fst (read userIDs)))
             /\ handlers.state (snd post) = snd (read userIDs)
         end)
  /\ http.Code (fst get) <> http.StatusInternalServerError
  /\ http.Code (fst post) <> http.StatusInternalServerError.
Proof.
  cbn zeta.
  assert (R : forall userIDs,
             let out := handlers.respondMultiple http.NewRecorder r userIDs h
             in
             fst out
             = api.success
                 (fst (fst (service.GetMultiplePresences
                              (handlers.runtime h)
                              (handlers.presenceService h) (http.Context r)
                              userIDs (handlers.state h))))
             /\ handlers.state (snd out)
                = snd (service.GetMultiplePresences
                         (handlers.runtime h) (handlers.presenceService h)
                         (http.Context r) userIDs (handlers.state h))).
  { intros userIDs. cbn zeta. unfold handlers.respondMultiple,
      handlers.GetMultiplePresences, handlers.Served_PresenceService,
      handlers.run.
    pose proof (GetMultiplePresences_kvStore_no_error (handlers.runtime h)
                  (handlers.presenceService h) (http.Context r) userIDs
                  (handlers.state h)) as E.
    destruct (service.GetMultiplePresences _ _ _ userIDs (handlers.state h))
      as [[m err] w']. cbn [fst snd] in E. subst err.
    split; reflexivity. }
  unfold handlers.GetMultiplePresences_handler, handlers.BatchPresence.
  destruct (String.eqb_spec (http.Get (http.Query r) "users") EmptyString)
    as [E|NE].
  - split; [reflexivity|]. split; [contradiction|].
    destruct (handlers.DecodeBatchPresenceRequest (http.Body r))
      as [req|e].
    + split; [discriminate|]. split.
      * intros ? [= <-]. destruct (handlers.UserIDs req) as [|u us] eqn:U;
          [reflexivity|apply R].
      * split; [cbn; discriminate|].
        destruct (handlers.UserIDs req) as [|u us]; cbn [length Nat.eqb];
          [cbn; discriminate|].
        rewrite (proj1 (R (u :: us))). cbn. discriminate.
    + split; [intros ? _; reflexivity|]. split; [discriminate|].
      split; cbn; discriminate.
  - split; [contradiction|].
    split.
    { intros _. split; [|apply R].
      intros Hn. apply map_eq_nil in Hn. exact (Split_not_nil _ _ Hn). }
    rewrite (surjective_pairing
               (handlers.respondMultiple http.NewRecorder r
                  (map TrimSpace
                       (Split (http.Get (http.Query r) "users") ",")) h)).
    cbn [fst]. rewrite (proj1 (R _)).
    destruct (handlers.DecodeBatchPresenceRequest (http.Body r))
      as [req|e].
    + split; [discriminate|]. split.
      * intros ? [= <-]. destruct (handlers.UserIDs req) as [|u us] eqn:U;
          [reflexivity|apply R].
      * split; [cbn; discriminate|].
        destruct (handlers.UserIDs req) as [|u us]; cbn [length Nat.eqb];
          [cbn; discriminate|].
        rewrite (proj1 (R (u :: us))). cbn. discriminate.
    + split; [intros ? _; reflexivity|]. split; [discriminate|].
      split; cbn; discriminate.
Qed.

End ServedBatch.

Section ReadinessProofs.

(** X26. [Readiness] answers 200 with the status "ready" when no
    checker is set (nothing is called) or when the checker returns nil,
    and 503 with the status "unready" and the text of the error
    otherwise.  With the service on the KV store as checker the answer
    is always "ready", and neither the cache nor the store is touched:
    the check does not reach the bucket. *)
Theorem Readiness_outcomes :
  (forall (T : Type) (chk : handlers.ReadinessChecker T) checker ctx now
          (h : T),
      let out := handlers.Readiness checker ctx now http.NewRecorder h in
      let ready :=
        http.mkResponseWriter http.StatusOK true
          {[ "Content-Type"%string := "application/json"%string ]}
          [http.StatusDocument "ready" None (Some now)] in
      (checker = false -> out = (ready, h))
      /\ (checker = true ->
          snd out = snd (handlers.Ready ctx h)
          /\ fst out
             = match fst (handlers.Ready ctx h) with
               | None => ready
               | Some err =>
                   http.mkResponseWriter http.StatusServiceUnavailable true
                     {[ "Content-Type"%string := "application/json"%string ]}
                     [http.StatusDocument "unready"
                        (Some (errors.Error err)) None]
               end))
  /\ (forall (C K : Type) (codec : JSON) (mc : cache.MemoryCache C)
             (bucket : jetstream.KeyValue K) checker ctx now
             (h : handlers.Served C (nats.kvStore K)),
         let out := handlers.Readiness checker ctx now http.NewRecorder h in
         http.Code (fst out) = http.StatusOK
         /\ http.Written (fst out)
            = [http.StatusDocument "ready" None (Some now)]
         /\ service.w_store (handlers.state (snd out))
            = service.w_store (handlers.state h)
         /\ service.w_cache (handlers.state (snd out))
            = service.w_cache (handlers.state h)).
Proof.
  split.
  - intros T chk checker ctx now h. cbn zeta. unfold handlers.Readiness.
    split; [intros ->; reflexivity|]. intros ->.
    destruct (handlers.Ready ctx h) as [[e|] h']; split; reflexivity.
  - intros C K codec mc bucket checker ctx now h. cbn zeta.
    destruct checker; repeat split; reflexivity.
Qed.

End ReadinessProofs.

(** ** The CORS middleware *)

Lemma matchOrigin_spec allowedOrigins origin :
  (origin ∈ allowedOrigins ->
   handlers.matchOrigin allowedOrigins origin = origin)
  /\ (origin ∉ allowedOrigins ->
      handlers.matchOrigin allowedOrigins origin = EmptyString).
Proof.
  induction allowedOrigins as [|o rest IH]; cbn.
  - split; [intros H; inversion H|reflexivity].
  - destruct (String.eqb_spec o origin) as [->|NE].
    + split; [reflexivity|]. intros H. exfalso. apply H. left.
    + destruct IH as [IH1 IH2]. split.
      * intros H. apply elem_of_cons in H as [->|H]; [contradiction|auto].
      * intros H. apply IH2. intros H'. apply H. now right.
Qed.

Section CORSProofs.
Context {T : Type} `{str : Strings}.

(** X27. The CORS middleware on a fresh response.  When CORS is
    disabled, or the request carries no Origin, the next handler runs on
    the untouched response.  Otherwise: an origin that is not listed,
    under a configuration that does not answer with the wildcard, is
    refused with 403, no header and no body, and the next handler does
    not run; an allowed origin gets the allow headers and then, for
    OPTIONS, the answer 204 with the preflight headers without the next
    handler running, for any other method the next handler.  The
    wildcard is only sent when credentials are off; with credentials on
    and "*" as the only allowed origin, every origin other than the
    literal "*" is refused. *)
Theorem CORSMiddleware_outcomes (env : os.Environ)
    (next : handlers.Handler T) (r : http.Request) (h : T) :
  let cfg := handlers.loadCORSConfigFromEnv env in
  let origin := http.Get (http.Header r) "Origin" in
  let out := handlers.CORSMiddleware env next http.NewRecorder r h in
  let allowOrigin := if cors.open cfg then "*"%string else origin in
  let forbidden :=
    http.mkResponseWriter http.StatusForbidden true ∅ [] in
  (handlers.Enabled cfg = false \/ origin = EmptyString ->
   out = next http.NewRecorder r h)
  /\ (handlers.Enabled cfg = true -> origin <> EmptyString ->
      (cors.open cfg = false ->
       origin ∉ handlers.AllowedOrigins cfg ->
       out = (forbidden, h))
      /\ (cors.open cfg = true \/ origin ∈ handlers.AllowedOrigins cfg ->
          out
          = if String.eqb (http.Method r) http.MethodOptions
            then (http.mkResponseWriter http.StatusNoContent true
                    (cors.preflightHeaders cfg allowOrigin) [], h)
            else next (http.mkResponseWriter http.StatusOK false
                         (cors.allowHeaders (handlers.AllowCredentials cfg)
                                            allowOrigin) []) r h)
      /\ (handlers.AllowCredentials cfg = true ->
          handlers.AllowedOrigins cfg = ["*"%string] ->
          origin <> "*"%string ->
          out = (forbidden, h))).
Proof.
  cbn zeta. unfold handlers.CORSMiddleware, cors.open,
    cors.preflightHeaders, cors.allowHeaders. cbv zeta.
  set (cfg := handlers.loadCORSConfigFromEnv env).
  split.
  - intros [E|E].
    + rewrite E. reflexivity.
    + destruct (handlers.Enabled cfg); cbn [negb]; [|reflexivity].
      rewrite E. reflexivity.
  - intros -> NE. cbn [negb].
    destruct (String.eqb_spec (http.Get (http.Header r) "Origin")
                              EmptyString) as [E|_]; [contradiction|].
    destruct (matchOrigin_spec (handlers.AllowedOrigins cfg)
                (http.Get (http.Header r) "Origin")) as [In Out].
    split; [|split].
    + intros Op Hout. rewrite Op.
      rewrite (Out Hout). reflexivity.
    + intros Hal.
      destruct ((length (handlers.AllowedOrigins cfg) =? 1)%nat
                && (nth 0 (handlers.AllowedOrigins cfg) EmptyString
                    =? "*")%string
                && negb (handlers.AllowCredentials cfg)) eqn:Op.
      * apply andb_prop in Op as [_ Hc]. apply negb_true_iff in Hc.
        rewrite Hc. cbn [String.eqb Ascii.eqb Bool.eqb].
        destruct (String.eqb (http.Method r) http.MethodOptions);
          reflexivity.
      * destruct Hal as [Hal|Hal]; [discriminate|].
        rewrite (In Hal).
        destruct (String.eqb_spec (http.Get (http.Header r) "Origin")
                                  EmptyString) as [E|_]; [contradiction|].
        destruct (handlers.AllowCredentials cfg);
          destruct (String.eqb (http.Method r) http.MethodOptions);
          reflexivity.
    + intros Hc Ho Hs. rewrite Hc, Ho. cbn [negb andb length Nat.eqb nth].
      rewrite andb_false_r.
      cbn [handlers.matchOrigin].
      destruct (String.eqb_spec "*" (http.Get (http.Header r) "Origin"))
        as [E|_]; [congruence|]. reflexivity.
Qed.

Lemma loadCORSConfigFromEnv_default_origins (env : os.Environ) :
  TrimSpace "*" = "*"%string ->
  os.Getenv env "CORS_ALLOWED_ORIGINS" = EmptyString ->
  handlers.AllowedOrigins (handlers.loadCORSConfigFromEnv env)
  = ["*"%string].
Proof.
  intros Ht Ho. unfold handlers.loadCORSConfigFromEnv.
  cbn [handlers.AllowedOrigins]. unfold handlers.getEnvDefault.
  rewrite Ho. cbn. now rewrite Ht.
Qed.

(** X28. The CORS middleware when the environment sets neither
    CORS_ENABLED nor CORS_ALLOWED_ORIGINS, for a request that carries an
    Origin.  Unless CORS_ALLOW_CREDENTIALS reads as true, every origin
    is allowed and answered with the wildcard.  When it reads as true,
    the default list of origins locks every caller out: an origin other
    than the literal "*" is refused with 403. *)
Theorem CORSMiddleware_default_origins (env : os.Environ)
    (next : handlers.Handler T) (r : http.Request) (h : T) :
  let cfg := handlers.loadCORSConfigFromEnv env in
  let origin := http.Get (http.Header r) "Origin" in
  let out := handlers.CORSMiddleware env next http.NewRecorder r h in
  let credentials := os.Getenv env "CORS_ALLOW_CREDENTIALS" in
  TrimSpace "*" = "*"%string ->
  os.Getenv env "CORS_ENABLED" = EmptyString ->
  os.Getenv env "CORS_ALLOWED_ORIGINS" = EmptyString ->
  origin <> EmptyString ->
  (credentials = EmptyString \/ strconv.ParseBool credentials <> Some true ->
   out
   = if String.eqb (http.Method r) http.MethodOptions
     then (http.mkResponseWriter http.StatusNoContent true
             (cors.preflightHeaders cfg "*") [], h)
     else next (http.mkResponseWriter http.StatusOK false
                  (cors.allowHeaders false "*") []) r h)
  /\ (strconv.ParseBool credentials = Some true ->
      origin <> "*"%string ->
      out = (http.mkResponseWriter http.StatusForbidden true ∅ [], h)).
Proof.
  cbn zeta. intros Ht He Ho NE.
  pose proof (loadCORSConfigFromEnv_default_origins env Ht Ho) as Hor.
  assert (Hen : handlers.Enabled (handlers.loadCORSConfigFromEnv env)
                = true).
  { unfold handlers.loadCORSConfigFromEnv. cbn [handlers.Enabled].
    rewrite He. reflexivity. }
  assert (Hcr : handlers.AllowCredentials
                  (handlers.loadCORSConfigFromEnv env)
                = let v := os.Getenv env "CORS_ALLOW_CREDENTIALS" in
                  if String.eqb v EmptyString then false
                  else match strconv.ParseBool v with
                       | Some b => b
                       | None => false
                       end) by reflexivity.
  cbn zeta in Hcr.
  unfold handlers.CORSMiddleware, cors.preflightHeaders, cors.allowHeaders.
  cbv zeta. rewrite Hen, Hor. cbn [negb length Nat.eqb nth andb].
  destruct (String.eqb_spec (http.Get (http.Header r) "Origin")
                            EmptyString) as [E|_]; [contradiction|].
  split.
  - intros Hc.
    assert (Hf : handlers.AllowCredentials
                   (handlers.loadCORSConfigFromEnv env) = false).
    { rewrite Hcr.
      destruct (String.eqb_spec (os.Getenv env "CORS_ALLOW_CREDENTIALS")
                                EmptyString) as [E|NE']; [reflexivity|].
      destruct Hc as [Hc|Hc]; [contradiction|].
      destruct (strconv.ParseBool _) as [[|]|]; congruence. }
    rewrite Hf. cbn [negb andb String.eqb Ascii.eqb Bool.eqb].
    destruct (String.eqb (http.Method r) http.MethodOptions); reflexivity.
  - intros Hc Hs.
    assert (Hf : handlers.AllowCredentials
                   (handlers.loadCORSConfigFromEnv env) = true).
    { rewrite Hcr, Hc.
      destruct (String.eqb_spec (os.Getenv env "CORS_ALLOW_CREDENTIALS")
                                EmptyString) as [E|NE']; [|reflexivity].
      rewrite E in Hc. discriminate. }
    rewrite Hf. cbn [negb andb handlers.matchOrigin].
    destruct (String.eqb_spec "*" (http.Get (http.Header r) "Origin"))
      as [E|_]; [congruence|]. reflexivity.
Qed.

End CORSProofs.

(** ** Configuration and construction of the service *)

Lemma getEnvOrDefault_nonempty env key d :
  d <> EmptyString -> config.getEnvOrDefault env key d <> EmptyString.
Proof.
  intros Hd. unfold config.getEnvOrDefault.
  destruct (String.eqb_spec (os.Getenv env key) EmptyString); auto.
Qed.

Lemma getEnvOrDefault_empty env key :
  config.getEnvOrDefault env key EmptyString = os.Getenv env key.
Proof.
  unfold config.getEnvOrDefault.
  destruct (String.eqb_spec (os.Getenv env key) EmptyString); congruence.
Qed.

(** X29. [Load] fails exactly when JWT_SECRET is unset or empty, with
    the error "JWT_SECRET environment variable is required"; no other
    variable is required.  On success the node id, the node type, the
    bucket name and the data directory are never empty, each falling
    back to its default; a value of NATS_EMBEDDED that is not a boolean
    leaves the broker embedded, and a SERVICE_PORT or CACHE_MAX_COST
    that is not a number leaves the default in place, without an
    error. *)
Theorem Load_outcomes (env : os.Environ) :
  (os.Getenv env "JWT_SECRET" = EmptyString ->
   config.Load env
   = inr (Errorf "JWT_SECRET environment variable is required" []))
  /\ (os.Getenv env "JWT_SECRET" <> EmptyString ->
      exists c,
        config.Load env = inl c
        /\ config.JWTSecret (config.Auth c) = os.Getenv env "JWT_SECRET"
        /\ config.NodeID (config.Service c) <> EmptyString
        /\ config.NodeType (config.Service c) <> EmptyString
        /\ config.KVBucket (config.NATS c) <> EmptyString
        /\ config.DataDir (config.NATS c) <> EmptyString
        /\ (strconv.ParseBool (os.Getenv env "NATS_EMBEDDED") = None ->
            config.Embedded (config.NATS c) = true)
        /\ (strconv.Atoi (os.Getenv env "SERVICE_PORT") = None ->
            config.Port (config.Service c) = 8080)
        /\ (strconv.ParseInt (os.Getenv env "CACHE_MAX_COST") = None ->
            config.MaxCost (config.Cache c) = 1000000)).
Proof.
  unfold config.Load. cbn [config.Auth config.JWTSecret].
  rewrite getEnvOrDefault_empty.
  destruct (String.eqb_spec (os.Getenv env "JWT_SECRET") EmptyString)
    as [E|NE].
  - split; [reflexivity|contradiction].
  - split; [contradiction|]. intros _.
    eexists. split; [reflexivity|].
    cbn [config.Auth config.JWTSecret config.Service config.NodeID
         config.NodeType config.NATS config.KVBucket config.DataDir
         config.Embedded config.Port config.Cache config.MaxCost].
    split; [reflexivity|].
    repeat split; try (apply getEnvOrDefault_nonempty; discriminate).
    + intros H. unfold config.getEnvBoolOrDefault. rewrite H.
      destruct (String.eqb _ _); reflexivity.
    + intros H. unfold config.getEnvIntOrDefault. rewrite H.
      destruct (String.eqb _ _); reflexivity.
    + intros H. unfold config.getEnvInt64OrDefault. rewrite H.
      destruct (String.eqb _ _); reflexivity.
Qed.

Section BuilderProofs.
Context {K : Type}.
Variable env : nats.Env K.
Variable NewCache : cache.RistrettoConfig -> ristretto.Cache + lib_error.

Lemma buildCache_config c memCache :
  service.buildCache env NewCache c = Returned (inl memCache) ->
  cache.config memCache
  = if 0 <? config.MaxCost (config.Cache c)
    then cache.mkRistrettoConfig (config.MaxCost (config.Cache c))
                                 (config.NumCounters (config.Cache c))
                                 (config.BufferItems (config.Cache c))
                                 (config.Metrics (config.Cache c))
    else cache.mkRistrettoConfig
           (int64 (config.MaxSize (config.Cache c) * 200))
           (int64 (config.MaxSize (config.Cache c) * 10)) 64 true.
Proof.
  unfold service.buildCache, cache.NewMemoryCache,
    cache.NewMemoryCacheLegacy, cache.NewRistrettoCache.
  destruct (0 <? config.MaxCost (config.Cache c)).
  - destruct (NewCache _); [|discriminate]. intros [= <-]. reflexivity.
  - destruct (nats.time_ParseDuration env _); [|discriminate].
    cbv zeta. destruct (NewCache _); [|discriminate].
    intros [= <-]. reflexivity.
Qed.

(** X30. [Build].  The store's configuration never carries a start
    timeout, so the broker is given 30 s as a center and 15 s otherwise,
    whatever the configuration says.  A service that is returned has the
    configured node id, a store that is connected, and a cache made from
    the four ristretto settings when MaxCost is positive and from
    MaxSize otherwise.  An error that is returned is one of three,
    wrapped: the cache could not be created (MaxCost positive), the
    cache TTL does not parse (MaxCost not positive), both before the
    store is attempted, or the store could not be created, and then a
    broker that was started has been shut down.  [Build] panics only in
    the legacy path, when the library refuses the cache made from
    MaxSize. *)
Theorem Build_outcomes (c : config.Config) :
  nats.startTimeoutOf env (service.natsConfigOf c)
  = (if String.eqb (nats.nodeTypeOf (service.natsConfigOf c)) "center"
     then 30 * time.Second else 15 * time.Second)
  /\ (forall b effs,
         service.Build env NewCache c = Some (Returned (inl b), effs) ->
         service.nodeID (service.b_service b)
         = config.NodeID (config.Service c)
         /\ (exists s,
                service.b_store b = Some s
                /\ nats.conn s = true
                /\ nats.StartTimeout (nats.config s) = EmptyString)
         /\ cache.config (service.b_cache b)
            = if 0 <? config.MaxCost (config.Cache c)
              then cache.mkRistrettoConfig
                     (config.MaxCost (config.Cache c))
                     (config.NumCounters (config.Cache c))
                     (config.BufferItems (config.Cache c))
                     (config.Metrics (config.Cache c))
              else cache.mkRistrettoConfig
                     (int64 (config.MaxSize (config.Cache c) * 200))
                     (int64 (config.MaxSize (config.Cache c) * 10)) 64 true)
  /\ (forall e effs,
         service.Build env NewCache c = Some (Returned (inr e), effs) ->
         exists cause,
           (e = Errorw "failed to create Ristretto cache: %w" [] cause
            /\ 0 < config.MaxCost (config.Cache c) /\ effs = [])
           \/ (e = Errorw "invalid cache TTL: %w" [] cause
               /\ config.MaxCost (config.Cache c) <= 0 /\ effs = [])
           \/ (e = Errorw "failed to create NATS KV store: %w" [] cause
               /\ (In nats.ServerStart effs ->
                   In nats.ServerShutdown effs)))
  /\ (forall msg effs,
         service.Build env NewCache c = Some (Panicked msg, effs) ->
         config.MaxCost (config.Cache c) <= 0
         /\ effs = []
         /\ exists err,
              NewCache (cache.mkRistrettoConfig
                          (int64 (config.MaxSize (config.Cache c) * 200))
                          (int64 (config.MaxSize (config.Cache c) * 10))
                          64 true) = inr err
              /\ msg = ("Failed to create Ristretto cache: "
                          ++ lib_msg err)%string).
Proof.
  split; [reflexivity|].
  unfold service.Build.
  pose proof (buildCache_config c) as Hcfg.
  split; [|split].
  - intros b effs.
    destruct (service.buildCache env NewCache c) as [[mc|e]|msg];
      [|discriminate|discriminate].
    destruct (nats.NewKVStore env (service.natsConfigOf c))
      as [[[st err] ef]|] eqn:E; [|discriminate].
    destruct (NewKVStore_exclusive env _ _ _ _ E) as (Hx & _).
    destruct err as [err|]; [discriminate|].
    intros [= <- <-]. cbn [service.b_service service.nodeID
                           service.b_store service.b_cache].
    split; [reflexivity|]. split; [|apply Hcfg; reflexivity].
    destruct st as [s|]; [|exfalso; apply (proj1 Hx eq_refl); reflexivity].
    destruct (NewKVStore_kept env _ _ _ _ E) as (_ & Hc & _ & Hconf).
    exists s. split; [reflexivity|]. split; [exact Hc|].
    rewrite Hconf. destruct (nats.Embedded _); reflexivity.
  - intros e effs.
    unfold service.buildCache, cache.NewMemoryCache,
      cache.NewMemoryCacheLegacy, cache.NewRistrettoCache.
    destruct (Z.ltb_spec 0 (config.MaxCost (config.Cache c))) as [Hp|Hn].
    + destruct (NewCache _) as [rc|le].
      * destruct (nats.NewKVStore env (service.natsConfigOf c))
          as [[[st err] ef]|] eqn:E; [|discriminate].
        destruct (NewKVStore_exclusive env _ _ _ _ E) as (Hx & Hsh).
        destruct err as [err|]; [|discriminate].
        intros [= <- <-]. exists err. right. right.
        split; [reflexivity|]. apply Hsh. apply Hx. discriminate.
      * intros [= <- <-]. exists (Lib le). left. auto.
    + destruct (nats.time_ParseDuration env _) as [d|le].
      * cbv zeta. destruct (NewCache _) as [rc|le]; [|discriminate].
        destruct (nats.NewKVStore env (service.natsConfigOf c))
          as [[[st err] ef]|] eqn:E; [|discriminate].
        destruct (NewKVStore_exclusive env _ _ _ _ E) as (Hx & Hsh).
        destruct err as [err|]; [|discriminate].
        intros [= <- <-]. exists err. right. right.
        split; [reflexivity|]. apply Hsh. apply Hx. discriminate.
      * intros [= <- <-]. exists (Lib le). right. left. auto.
  - intros msg effs.
    unfold service.buildCache, cache.NewMemoryCache,
      cache.NewMemoryCacheLegacy, cache.NewRistrettoCache.
    destruct (Z.ltb_spec 0 (config.MaxCost (config.Cache c))) as [Hp|Hn].
    + destruct (NewCache _) as [rc|le]; [|discriminate].
      destruct (nats.NewKVStore env (service.natsConfigOf c))
        as [[[st [err|]] ef]|]; discriminate.
    + destruct (nats.time_ParseDuration env _) as [d|le]; [|discriminate].
      cbv zeta. destruct (NewCache _) as [rc|le] eqn:N.
      * destruct (nats.NewKVStore env (service.natsConfigOf c))
          as [[[st [err|]] ef]|]; discriminate.
      * intros [= <- <-]. split; [lia|]. split; [reflexivity|].
        exists le. split; reflexivity.
Qed.

End BuilderProofs.

(** ** The handlers on an example *)

Lemma CORSMiddleware_default_origins_witness :
  @handlers.CORSMiddleware fixtures.asciiStrings unit
    fixtures.credentialsOnly fixtures.ok http.NewRecorder
    fixtures.crossOrigin tt
  = (http.mkResponseWriter http.StatusForbidden true ∅ [], tt).
Proof.
  refine (proj2 (@CORSMiddleware_default_origins unit fixtures.asciiStrings
                   fixtures.credentialsOnly fixtures.ok fixtures.crossOrigin
                   tt _ _ _ _) _ _).
  - reflexivity.
  - vm_compute. reflexivity.
  - vm_compute. reflexivity.
  - vm_compute. discriminate.
  - vm_compute. reflexivity.
  - vm_compute. discriminate.
Defined.

Lemma SetPresence_handler_outcomes_witness :
  fst (@handlers.SetPresence_handler _
         (@handlers.Served_PresenceService _ _
            (@cache.ristrettoCache_MemoryCache fixtures.json)
            (@nats.kvStore_KVStore fixtures.json _ _))
         fixtures.decoder 5000 http.NewRecorder fixtures.putRequest
         fixtures.served)
  = api.success
      {[ "u1"%string
         := mkPresence "u1" models.StatusOnline "Working" 5000 5000
                       "current-node" 0 ]}.
Proof.
  pose proof (@SetPresence_handler_outcomes _ _
                (@cache.ristrettoCache_MemoryCache fixtures.json)
                (@nats.kvStore_KVStore fixtures.json _ _)
                fixtures.decoder 5000 fixtures.putRequest fixtures.served
                (handlers.mkSetPresenceRequest models.StatusOnline
                                               "Working" 0)) as H.
  cbv zeta in H. destruct H as [_ H].
  assert (NE : http.Get (http.Vars fixtures.putRequest) "user_id"
               <> EmptyString) by (vm_compute; discriminate).
  destruct (H NE) as [_ H1].
  assert (D : @handlers.DecodeSetPresenceRequest fixtures.decoder
                (http.Body fixtures.putRequest)
              = inl (handlers.mkSetPresenceRequest models.StatusOnline
                                                   "Working" 0))
    by (vm_compute; reflexivity).
  destruct (H1 D) as [_ H2].
  destruct (H2 eq_refl) as [_ H3].
  assert (N : service.nodeID (handlers.presenceService fixtures.served)
              <> EmptyString) by (vm_compute; discriminate).
  destruct (H3 N) as (_ & H4 & _).
  rewrite H4. vm_compute. reflexivity.
Defined.
